(** * libSQL vector search: a shallow embedding of [vector.c]

    The development follows [libsql-sqlite3/src/vector.c] and
    [libsql-sqlite3/src/vectorInt.h].  C integers are modelled in [Z],
    C strings as lists of characters read up to their first NUL, fixed-size
    arrays as lists updated by index, and calls that leave the file (the
    SQLite core, the DiskANN engine, the float32 back end) as logged calls
    answered by an arbitrary environment. *)

From Stdlib Require Import Ascii String ZArith List Bool Lia.
Import ListNotations.

#[local] Open Scope Z_scope.

(** ** Constants of [vector.c] and [vectorInt.h] *)

Definition MAX_VECTOR_SZ : Z := 16000.
Definition MAX_FLOAT_CHAR_SZ : Z := 1024.
Definition VECTOR_TYPE_FLOAT32 : Z := 0.
Definition VECTOR_FLAGS_STATIC : Z := 1.
Definition VECTOR_DISTANCE_COS : Z := 0.

(** Modelled from the spec: the result codes and datatype codes of
    [sqlite3.h], a header that is not among the sources; the statuses the
    host engine and the ANN engine exchange.  The values are those of the
    public SQLite interface. *)
Definition SQLITE_OK : Z := 0.
Definition SQLITE_NOMEM : Z := 7.
Definition SQLITE_INTEGER : Z := 1.
Definition SQLITE_FLOAT : Z := 2.
Definition SQLITE_TEXT : Z := 3.
Definition SQLITE_BLOB : Z := 4.
Definition SQLITE_NULL : Z := 5.

(** ** C strings and arrays *)

Module CStr.

(** A C string is the list of its characters; reading at or past the end of
    the list reads the terminating NUL. *)
Definition t := list ascii.

Definition NUL : ascii := "000"%char.

(** [*z] *)
Definition cur (z : t) : ascii := hd NUL z.

(** [z + 1] *)
Definition next (z : t) : t := tl z.

Definition of_string (s : string) : t := list_ascii_of_string s.

(** The characters before the first NUL: what the C code can see. *)
Fixpoint visible (z : t) : t :=
  match z with
  | [] => []
  | c :: z' => if (c =? NUL)%char then [] else c :: visible z'
  end.

(** [a[i] = x] on an array held as a list.  A store outside the array leaves
    the list as it is; callers that care log the index. *)
Definition store {A : Type} (a : list A) (i : Z) (x : A) : list A :=
  if (0 <=? i) && (i <? Z.of_nat (length a))
  then firstn (Z.to_nat i) a ++ x :: skipn (S (Z.to_nat i)) a
  else a.

End CStr.

(** ** Character classes and case-insensitive comparison

    [sqlite3Isspace], [sqlite3Isdigit], [sqlite3_stricmp] and
    [sqlite3_strnicmp] are macros and functions of the SQLite core
    ([sqliteInt.h], [util.c]), which is not part of the two files modelled
    here.  They are given their ASCII meaning. *)

Module Ctype.

(** The character as an [unsigned char]. *)
Definition code (c : ascii) : Z := Z.of_N (N_of_ascii c).

(** Modelled from the spec: the macro [sqlite3Isspace] of [sqliteInt.h],
    the spec's "whitespace": tab, line feed, vertical tab, form feed,
    carriage return and space. *)
Definition sqlite3Isspace (c : ascii) : bool :=
  let n := code c in ((9 <=? n) && (n <=? 13)) || (n =? 32).

(** Modelled from the spec: the macro [sqlite3Isdigit] of [sqliteInt.h],
    the decimal digits of the declared dimension "N". *)
Definition sqlite3Isdigit (c : ascii) : bool :=
  let n := code c in (48 <=? n) && (n <=? 57).

(** Modelled from the spec: the table [sqlite3UpperToLower] of the SQLite
    core, which maps the ASCII capitals to small letters and every other
    character to itself. *)
Definition sqlite3UpperToLower (c : ascii) : Z :=
  let n := code c in if (65 <=? n) && (n <=? 90) then n + 32 else n.

(** Modelled from the spec: [sqlite3_stricmp(zLeft, zRight)] of the SQLite
    core, by which a distance-operator token is "recognized": the
    difference of the first characters that differ after case folding, 0
    when both strings end together. *)
Fixpoint sqlite3_stricmp (zLeft zRight : CStr.t) : Z :=
  let x := CStr.cur zRight in
  match zLeft with
  | [] => 0 - sqlite3UpperToLower x
  | c :: a =>
      if (c =? x)%char then
        if (c =? CStr.NUL)%char then 0
        else sqlite3_stricmp a (CStr.next zRight)
      else
        let d := sqlite3UpperToLower c - sqlite3UpperToLower x in
        if d =? 0 then sqlite3_stricmp a (CStr.next zRight) else d
  end.

(** Modelled from the spec: [sqlite3_strnicmp(zLeft, zRight, N)] of the
    SQLite core, by which a declared type "matches FLOAT32(": the same
    comparison over at most [N] characters, stopping early at the end of
    [zLeft]. *)
Fixpoint sqlite3_strnicmp (zLeft zRight : CStr.t) (N : nat) : Z :=
  match N with
  | O => 0
  | S N' =>
      let a := CStr.cur zLeft in
      let b := CStr.cur zRight in
      if negb (a =? CStr.NUL)%char
         && (sqlite3UpperToLower a =? sqlite3UpperToLower b)
      then sqlite3_strnicmp (CStr.next zLeft) (CStr.next zRight) N'
      else sqlite3UpperToLower a - sqlite3UpperToLower b
  end.

End Ctype.

(** ** Vector objects ([vectorInt.h]) *)

(** A 32-bit float is carried as its IEEE-754 bit pattern, a double as its
    64-bit pattern; no arithmetic on them is modelled. *)
Definition f32 := Z.
Definition f64 := Z.

(** [struct Vector]; [v_data] is the buffer the [void *data] field points
    to, an array of floats that may be longer than [v_dims]. *)
Record Vector := mkVector {
  v_type : Z;
  v_flags : Z;
  v_dims : Z;
  v_data : list f32
}.

(** Modelled from the spec: [sqlite3_value] is a type of the SQLite core;
    the decoder's input is "text, blob, null" or another kind.  It is reduced
    to what [sqlite3_value_type], [sqlite3_value_text], [sqlite3_value_blob],
    [sqlite3_value_bytes] and [sqlite3_value_int64] read.
    [sqlite3_value_text] may return a null pointer (on allocation failure),
    hence the option. *)
Inductive sqlite3_value :=
| ValInteger (i : Z)
| ValFloat (d : f64)
| ValText (z : option CStr.t)
| ValBlob (b : list Z)
| ValNull.

Definition sqlite3_value_type (arg : sqlite3_value) : Z :=
  match arg with
  | ValInteger _ => SQLITE_INTEGER
  | ValFloat _ => SQLITE_FLOAT
  | ValText _ => SQLITE_TEXT
  | ValBlob _ => SQLITE_BLOB
  | ValNull => SQLITE_NULL
  end.

(** [vectorDataSize]; [sizeof(float)] is 4.  The [default: assert(0)] arm
    falls through to [return 0]. *)
Definition vectorDataSize (type dims : Z) : Z :=
  if type =? VECTOR_TYPE_FLOAT32 then dims * 4 else 0.

(** [vectorInit] *)
Definition vectorInit (type dims : Z) (data : list f32) : Vector :=
  {| v_type := type; v_flags := 0; v_dims := dims; v_data := data |}.

(** ** Text decoding: [vectorParseText] *)

(** The diagnostics [vectorParseText] formats, named as in the error
    taxonomy of the specification. *)
Inductive ParseError :=
| InvalidInputKind      (* "invalid vector: not a text type" *)
| MalformedLiteral      (* "invalid vector: doesn't start with ']':" *)
| ElementTooLong        (* "float too big while parsing vector: %s..." *)
| InvalidNumber         (* "invalid number: %s..." *)
| TooManyDimensions     (* "vector is larger than the maximum: (%d)" *)
| UnterminatedLiteral.  (* "malformed vector, doesn't end with ']'" *)

(** The locals of [vectorParseText] that the loop updates, the float array
    [elems = v->data], and the log of the indices at which [elBuf] was
    written. *)
Record ParseState := mkParseState {
  elBuf : list ascii;
  bufidx : Z;
  elems : list f32;
  vecidx : Z;
  writes : list Z
}.

(** How the scanning loop is left: by one of its [return -1] statements,
    or by its condition becoming false at [zStr]. *)
Inductive LoopResult :=
| LoopReturn (e : ParseError) (st : ParseState)
| LoopExit (zStr : CStr.t) (st : ParseState).

(** What a call leaves behind: the returned [int], the vector, [*pzErrMsg],
    the diagnostic formatted into the local [zErr] (if any), and the log of
    [elBuf] stores. *)
Record ParseResult := mkParseResult {
  rc : Z;
  vec : Vector;
  errMsg : option string;
  zErr : option ParseError;
  stores : list Z
}.

Section ParseText.

(** [sqlite3AtoF(z, &el, length, SQLITE_UTF8)] applied to the first
    [length] characters of [z]: the returned status and the double stored in
    [el].  It lives in the SQLite core and is left arbitrary. *)
Variable sqlite3AtoF : list ascii -> Z * f64.

(** The conversion [double -> float] of the assignment [elems[i] = el]. *)
Variable double_to_float : f64 -> f32.

Definition zeroedBuf : list ascii :=
  repeat CStr.NUL (Z.to_nat MAX_FLOAT_CHAR_SZ).

(** [while (zStr && sqlite3Isspace( *zStr)) zStr++;] *)
Fixpoint skipSpaces (zStr : CStr.t) : CStr.t :=
  match zStr with
  | [] => []
  | c :: z' => if Ctype.sqlite3Isspace c then skipSpaces z' else zStr
  end.

(** [elBuf[bufidx++] = this;] *)
Definition pushChar (this : ascii) (st : ParseState) : ParseState :=
  {| elBuf := CStr.store (elBuf st) (bufidx st) this;
     bufidx := bufidx st + 1;
     elems := elems st;
     vecidx := vecidx st;
     writes := writes st ++ [bufidx st] |}.

(** [elems[vecidx++] = el;] *)
Definition pushElem (el : f64) (st : ParseState) : ParseState :=
  {| elBuf := elBuf st;
     bufidx := bufidx st;
     elems := CStr.store (elems st) (vecidx st) (double_to_float el);
     vecidx := vecidx st + 1;
     writes := writes st |}.

(** [bufidx = 0; memset(elBuf, 0, sizeof(elBuf));] *)
Definition resetBuf (st : ParseState) : ParseState :=
  {| elBuf := zeroedBuf;
     bufidx := 0;
     elems := elems st;
     vecidx := vecidx st;
     writes := writes st |}.

(** The characters [sqlite3AtoF] is given: [elBuf[0..bufidx)]. *)
Definition pending (st : ParseState) : list ascii :=
  firstn (Z.to_nat (bufidx st)) (elBuf st).

(** The loop of lines 164-189.  The recursion is on the string: every
    iteration consumes [this = *zStr++]. *)
Fixpoint parseLoop (zStr : CStr.t) (st : ParseState) : LoopResult :=
  match zStr with
  | [] => LoopExit zStr st
  | this :: zStr' =>
      if (this =? CStr.NUL)%char || (this =? "]")%char then LoopExit zStr st
      else if Ctype.sqlite3Isspace this then parseLoop zStr' st
      else if negb (this =? ",")%char && negb (this =? "]")%char then
        let st1 := pushChar this st in
        if bufidx st1 >? MAX_FLOAT_CHAR_SZ then LoopReturn ElementTooLong st1
        else parseLoop zStr' st1
      else
        let (status, el) := sqlite3AtoF (pending st) in
        if status <=? 0 then LoopReturn InvalidNumber st
        else
          let st1 := pushElem el (resetBuf st) in
          if vecidx st1 >=? MAX_VECTOR_SZ
          then LoopReturn TooManyDimensions st1
          else parseLoop zStr' st1
  end.

(** Lines 190-200: the element still pending when the loop is left. *)
Definition lastElement (st : ParseState) : ParseError * ParseState + ParseState :=
  if negb (bufidx st =? 0) then
    let (status, el) := sqlite3AtoF (pending st) in
    if status <=? 0 then inl (InvalidNumber, st)
    else
      let st1 := pushElem el st in
      if vecidx st1 >=? MAX_VECTOR_SZ then inl (TooManyDimensions, st1)
      else inr st1
  else inr st.

Definition withData (v : Vector) (data : list f32) : Vector :=
  {| v_type := v_type v; v_flags := v_flags v; v_dims := v_dims v;
     v_data := data |}.

Definition withDims (v : Vector) (dims : Z) : Vector :=
  {| v_type := v_type v; v_flags := v_flags v; v_dims := dims;
     v_data := v_data v |}.

(** A [return -1] after [st]: the floats stored so far stay in [v->data],
    [v->dims] is not touched. *)
Definition failed (v : Vector) (pzErrMsg : option string)
    (e : ParseError) (st : ParseState) : ParseResult :=
  {| rc := -1; vec := withData v (elems st); errMsg := pzErrMsg;
     zErr := Some e; stores := writes st |}.

Definition vectorParseText (arg : sqlite3_value) (v : Vector)
    (pzErrMsg : option string) : ParseResult :=
  let st0 := {| elBuf := zeroedBuf; bufidx := 0; elems := v_data v;
                vecidx := 0; writes := [] |} in
  match arg with
  | ValText None =>
      (* zStr==0: [return 0] *)
      {| rc := 0; vec := v; errMsg := pzErrMsg; zErr := None; stores := [] |}
  | ValText (Some z) =>
      let zStr := skipSpaces z in
      if negb (CStr.cur zStr =? "[")%char then
        failed v pzErrMsg MalformedLiteral st0
      else
        match parseLoop (CStr.next zStr) st0 with
        | LoopReturn e st => failed v pzErrMsg e st
        | LoopExit zStr st =>
            match lastElement st with
            | inl (e, st1) => failed v pzErrMsg e st1
            | inr st1 =>
                if negb (CStr.cur zStr =? "]")%char then
                  failed v pzErrMsg UnterminatedLiteral st1
                else
                  {| rc := vecidx st1;
                     vec := withDims (withData v (elems st1)) (vecidx st1);
                     errMsg := pzErrMsg; zErr := None;
                     stores := writes st1 |}
            end
        end
  | _ =>
      {| rc := -1; vec := v;
         errMsg := Some "invalid vector: not a text type"%string;
         zErr := Some InvalidInputKind; stores := [] |}
  end.

End ParseText.

(** [vectorParseBlob]: for the only registered type it forwards to the
    float32 back end's [vectorF3ParseBlob], which is passed in;
    the [default: assert(0)] arm falls through to [return -1]. *)
Definition vectorParseBlob
    (vectorF3ParseBlob : sqlite3_value -> Vector -> option string -> ParseResult)
    (arg : sqlite3_value) (v : Vector) (pzErrMsg : option string)
    : ParseResult :=
  if v_type v =? VECTOR_TYPE_FLOAT32 then vectorF3ParseBlob arg v pzErrMsg
  else {| rc := -1; vec := v; errMsg := pzErrMsg; zErr := None;
          stores := [] |}.

(** [vectorParse]: decoding dispatched on [sqlite3_value_type(arg)]. *)
Definition vectorParse
    (sqlite3AtoF : list ascii -> Z * f64) (double_to_float : f64 -> f32)
    (vectorF3ParseBlob : sqlite3_value -> Vector -> option string -> ParseResult)
    (arg : sqlite3_value) (v : Vector) (pzErrMsg : option string)
    : ParseResult :=
  match arg with
  | ValNull =>
      {| rc := -1; vec := v; errMsg := Some "invalid vector: NULL"%string;
         zErr := Some InvalidInputKind; stores := [] |}
  | ValBlob _ => vectorParseBlob vectorF3ParseBlob arg v pzErrMsg
  | ValText _ => vectorParseText sqlite3AtoF double_to_float arg v pzErrMsg
  | _ =>
      {| rc := -1; vec := v;
         errMsg := Some "invalid vector: not a text or blob type"%string;
         zErr := Some InvalidInputKind; stores := [] |}
  end.

(** ** Declared column types: [parseVectorDims] *)

(** A C [int] after an arithmetic step: the result taken modulo 2^32 into
    the signed range.  Overflow of [dims*10 + digit] is undefined in C; the
    wrap-around is what the usual compilation computes.  The statements
    about the value parsed assume that it fits an [int]. *)
Definition wrap_int (x : Z) : Z :=
  (x + 2147483648) mod 4294967296 - 2147483648.

Definition INT_MAX : Z := 2147483647.

(** The [while( *z && *z!=')' )] loop and the test [if( *z==0 )] after it. *)
Fixpoint parseVectorDims_loop (z : CStr.t) (dims : Z) : Z :=
  match z with
  | [] => -1
  | c :: z' =>
      if (c =? CStr.NUL)%char then -1
      else if (c =? ")")%char then dims
      else if negb (Ctype.sqlite3Isdigit c) then -1
      else parseVectorDims_loop z'
             (wrap_int (dims * 10 + (Ctype.code c - Ctype.code "0"%char)))
  end.

Definition parseVectorDims (zType : CStr.t) : Z :=
  if Ctype.sqlite3_strnicmp zType (CStr.of_string "FLOAT32(") 8 =? 0
  then parseVectorDims_loop (skipn 8 zType) 0
  else -1.

(** ** Calls that leave [vector.c]

    Every call into the SQLite core, the DiskANN engine or the float32 back
    end is appended to a log and answered by the environment, which may
    look at everything that was called before. *)

Module Ext.

Inductive Call :=
| sqlite3ErrorMsg (msg : string)
| sqlite3_exec (zSql : string)
| diskAnnCreateIndex (zName : string) (nDims nDistanceOps : Z)
| diskAnnOpenIndex (zIndexName : string)
| diskAnnInsert (index : Z) (v : Vector) (rowid : Z)
| sqlite3DbMallocZero (n : Z)
| contextMalloc (n : Z)
| sqlite3_free (p : Z)
| sqlite3_free_text (zErrMsg : option string)
| sqlite3_result_error_nomem
| sqlite3_result_error (msg : option string)
| sqlite3_result_double (d : f64)
| vectorF32DistanceCos (v1 v2 : Vector).

(** The answer to a call given the calls made so far: a status, a pointer
    or a float.  Calls returning [void] have their answer ignored. *)
Definition Env := list Call -> Call -> Z.

(** Computations that call out: the log goes in and comes back extended. *)
Definition M (A : Type) := list Call -> A * list Call.

Definition ret {A} (x : A) : M A := fun log => (x, log).

Definition bind {A B} (m : M A) (k : A -> M B) : M B :=
  fun log => let (x, log') := m log in k x log'.

Definition call (env : Env) (c : Call) : M Z :=
  fun log => (env log c, log ++ [c]).

(** The calls a computation adds to an empty log, and its result. *)
Definition run {A} (m : M A) : A * list Call := m [].

End Ext.

Notation "x <- m ;; k" := (Ext.bind m (fun x => k))
  (at level 61, m at next level, right associativity).
Notation "m ;;; k" := (Ext.bind m (fun _ => k))
  (at level 61, right associativity).

(** ** Index integration *)

(** Modelled from the spec: [Column], [Table] and [Index] are structures of
    the SQLite core, the "index definition" the integration consumes; only
    the fields [vectorIndexCreate] reads are kept. *)
Record Column := mkColumn {
  zCnName : string;
  declType : option CStr.t
}.

Record Table := mkTable { aCol : list Column }.

Record Index := mkIndex {
  zName : string;
  pTable : Table;
  nKeyCol : Z;
  aiColumn : list Z
}.

(** Modelled from the spec: [sqlite3ColumnType(pCol, zDflt)] of the SQLite
    core gives "the column's declared type string", or [zDflt] when the
    column was declared without one. *)
Definition sqlite3ColumnType (pCol : Column) (zDflt : CStr.t) : CStr.t :=
  match declType pCol with
  | Some t => t
  | None => zDflt
  end.

(** [struct VectorIdxCursor]; [index] is the engine's handle. *)
Record VectorIdxCursor := mkCursor { cur_index : Z }.

(** [BtreePayload], the record handed to [vectorIndexInsert]. *)
Record BtreePayload := mkPayload {
  aMem : list sqlite3_value;
  nMem : Z
}.

(** Modelled from the spec: [sqlite3_value_blob], [sqlite3_value_bytes] and
    [sqlite3_value_int64] of the SQLite core, on the kinds of value
    [vectorIndexInsert] asserts it is given ("the blob-encoded form" and
    an integer row identifier).  The conversions SQLite applies to other
    kinds are not modelled. *)
Definition sqlite3_value_blob (v : sqlite3_value) : list Z :=
  match v with ValBlob b => b | _ => [] end.

Definition sqlite3_value_bytes (v : sqlite3_value) : Z :=
  Z.of_nat (length (sqlite3_value_blob v)).

Definition sqlite3_value_int64 (v : sqlite3_value) : Z :=
  match v with ValInteger i => i | _ => 0 end.

Section IndexIntegration.

Variable env : Ext.Env.

(** [vectorF32InitFromBlob(p, blob, blobSz)] of the float32 back end: the
    dimension count and data it gives a vector laid over a blob. *)
Variable vectorF32InitFromBlob : list Z -> Z -> Z * list f32.

(** The handle [diskAnnOpenIndex] writes through its third argument. *)
Variable openedIndex : list Ext.Call -> string -> Z.

(** [vectorInitStatic] *)
Definition vectorInitStatic (type : Z) (blob : list Z) (blobSz : Z) : Vector :=
  let (dims, data) :=
    if type =? VECTOR_TYPE_FLOAT32 then vectorF32InitFromBlob blob blobSz
    else (0, []) in
  {| v_type := type; v_flags := VECTOR_FLAGS_STATIC; v_dims := dims;
     v_data := data |}.

(** Lines 373-390 of [vectorIndexCreate], after the distance operator has
    been settled. *)
Definition createIndexBody (pIdx : Index) (nDistanceOps : Z) : Ext.M Z :=
  rc <- Ext.call env (Ext.sqlite3_exec
          ("CREATE TABLE IF NOT EXISTS " ++ zName pIdx
             ++ "_shadow (data BLOB)")%string) ;;
  if negb (rc =? SQLITE_OK) then Ext.ret rc
  else
    if negb (nKeyCol pIdx =? 1) then
      Ext.call env (Ext.sqlite3ErrorMsg
        "Only single column vector indexes are supported"%string) ;;;
      Ext.ret (-1)
    else
      let pCol := nth (Z.to_nat (nth 0 (aiColumn pIdx) 0))
                      (aCol (pTable pIdx)) (mkColumn ""%string None) in
      let nDims := parseVectorDims (sqlite3ColumnType pCol []) in
      if nDims <? 0 then
        Ext.call env (Ext.sqlite3ErrorMsg "Invalid vector type"%string) ;;;
        Ext.ret (-1)
      else Ext.call env (Ext.diskAnnCreateIndex (zName pIdx) nDims nDistanceOps).

(** [vectorIndexCreate].  The body of the [for] loop over [pUsing] leaves
    the loop in its first iteration, by [break] or by [return -1], so only
    [pUsing->a[0]] is ever compared; with [pUsing->nId==0] the loop body does
    not run and [nDistanceOps] keeps its initial 0. *)
Definition vectorIndexCreate (pIdx : Index) (pUsing : list string) : Ext.M Z :=
  match pUsing with
  | [] => createIndexBody pIdx 0
  | zId :: _ =>
      if Ctype.sqlite3_stricmp (CStr.of_string zId)
           (CStr.of_string "diskann_cosine_ops") =? 0
      then createIndexBody pIdx VECTOR_DISTANCE_COS
      else
        Ext.call env (Ext.sqlite3ErrorMsg
          ("Unknown indexing method: " ++ zId)%string) ;;;
        Ext.ret (-1)
  end.

(** [vectorIndexInsert]: the value of the call to [diskAnnInsert] is not
    used. *)
Definition vectorIndexInsert (pCur : VectorIdxCursor) (pX : BtreePayload)
    : Ext.M Z :=
  let vec := nth 0 (aMem pX) ValNull in
  let rowid := nth 1 (aMem pX) ValNull in
  let v := vectorInitStatic VECTOR_TYPE_FLOAT32
             (sqlite3_value_blob vec) (sqlite3_value_bytes vec) in
  Ext.call env (Ext.diskAnnInsert (cur_index pCur) v
                  (sqlite3_value_int64 rowid)) ;;;
  Ext.ret 0.

(** [vectorIndexCursorInit]: the status and, on success, the cursor stored
    in [pCsr->uc.pVecIdx].  [sizeof(VectorIdxCursor)] is two pointers; the
    handle is what the engine wrote given the calls made before the open. *)
Definition vectorIndexCursorInit (zIndexName : string)
    : Ext.M (Z * option VectorIdxCursor) :=
  pCur <- Ext.call env (Ext.sqlite3DbMallocZero 16) ;;
  if pCur =? 0 then Ext.ret (SQLITE_NOMEM, None)
  else
    fun log =>
      (rc <- Ext.call env (Ext.diskAnnOpenIndex zIndexName) ;;
       if negb (rc =? SQLITE_OK) then Ext.ret (rc, None)
       else Ext.ret (SQLITE_OK,
                     Some {| cur_index := openedIndex log zIndexName |})) log.

End IndexIntegration.

(** ** SQL function [vector_distance_cos(X, Y)] *)

Section DistanceFunction.

Variable env : Ext.Env.
Variable sqlite3AtoF : list ascii -> Z * f64.
Variable double_to_float : f64 -> f32.
Variable float_to_double : f32 -> f64.
Variable vectorF3ParseBlob : sqlite3_value -> Vector -> option string -> ParseResult.

(** What the data area of a block returned by [contextMalloc] holds before
    anything is written to it. *)
Variable fresh : Z -> list f32.

(** The float [-1], returned by [vectorDistanceCos] for an unknown type. *)
Definition float_minus_one : f32 := 3212836864.

(** [vectorContextAlloc]: a vector of [MAX_VECTOR_SZ] dimensions in one
    block ([sizeof(Vector)] is 16), or a null pointer after reporting the
    failed allocation. *)
Definition vectorContextAlloc (type : Z) : Ext.M (option (Z * Vector)) :=
  p <- Ext.call env
         (Ext.contextMalloc (16 + vectorDataSize type MAX_VECTOR_SZ)) ;;
  if p =? 0 then
    Ext.call env Ext.sqlite3_result_error_nomem ;;; Ext.ret None
  else Ext.ret (Some (p, vectorInit type MAX_VECTOR_SZ (fresh p))).

(** [vectorFree] of a non-null pointer [p] to the vector [v]. *)
Definition vectorFree (p : Z) (v : Vector) : Ext.M unit :=
  if negb (Z.land (v_flags v) VECTOR_FLAGS_STATIC =? 0) then Ext.ret tt
  else Ext.call env (Ext.sqlite3_free p) ;;; Ext.ret tt.

(** [vectorDistanceCos] *)
Definition vectorDistanceCos (v1 v2 : Vector) : Ext.M f32 :=
  if v_type v1 =? VECTOR_TYPE_FLOAT32
  then Ext.call env (Ext.vectorF32DistanceCos v1 v2)
  else Ext.ret float_minus_one.

(** [vectorDistanceCosFunc] *)
Definition vectorDistanceCosFunc (argc : Z) (argv : list sqlite3_value)
    : Ext.M unit :=
  if argc <? 2 then Ext.ret tt
  else
    a1 <- vectorContextAlloc VECTOR_TYPE_FLOAT32 ;;
    match a1 with
    | None => Ext.ret tt
    | Some (p1, v1) =>
        a2 <- vectorContextAlloc VECTOR_TYPE_FLOAT32 ;;
        match a2 with
        | None => vectorFree p1 v1
        | Some (p2, v2) =>
            let r1 := vectorParse sqlite3AtoF double_to_float vectorF3ParseBlob
                        (nth 0 argv ValNull) v1 None in
            if rc r1 <? 0 then
              Ext.call env (Ext.sqlite3_result_error (errMsg r1)) ;;;
              Ext.call env (Ext.sqlite3_free_text (errMsg r1)) ;;;
              vectorFree p2 v2 ;;; vectorFree p1 (vec r1)
            else
              let r2 := vectorParse sqlite3AtoF double_to_float vectorF3ParseBlob
                          (nth 1 argv ValNull) v2 (errMsg r1) in
              if rc r2 <? 0 then
                Ext.call env (Ext.sqlite3_result_error (errMsg r2)) ;;;
                Ext.call env (Ext.sqlite3_free_text (errMsg r2)) ;;;
                vectorFree p2 (vec r2) ;;; vectorFree p1 (vec r1)
              else
                if negb (v_dims (vec r1) =? v_dims (vec r2)) then
                  Ext.call env (Ext.sqlite3_result_error
                    (Some "vectors must have the same length"%string)) ;;;
                  vectorFree p2 (vec r2) ;;; vectorFree p1 (vec r1)
                else
                  d <- vectorDistanceCos (vec r1) (vec r2) ;;
                  Ext.call env (Ext.sqlite3_result_double (float_to_double d)) ;;;
                  vectorFree p2 (vec r2) ;;; vectorFree p1 (vec r1)
        end
    end.

End DistanceFunction.

(** ** SQL functions [vector(X)] and [vector_extract(X)] *)

Section CallableSurface.

Variable env : Ext.Env.
Variable sqlite3AtoF : list ascii -> Z * f64.
Variable double_to_float : f64 -> f32.
Variable vectorF3ParseBlob :
  sqlite3_value -> Vector -> option string -> ParseResult.
Variable fresh : Z -> list f32.

(** [vectorF32Serialize(context, v)] and [vectorF32Deserialize(context, v)]
    of the float32 back end: whatever they do, calls included, once handed
    the vector. *)
Variable vectorF32Serialize : Vector -> Ext.M unit.
Variable vectorF32Deserialize : Vector -> Ext.M unit.

(** [vectorSerialize]; the [default: assert(0)] arm does nothing more. *)
Definition vectorSerialize (v : Vector) : Ext.M unit :=
  if v_type v =? VECTOR_TYPE_FLOAT32 then vectorF32Serialize v
  else Ext.ret tt.

(** [vectorDeserialize] *)
Definition vectorDeserialize (v : Vector) : Ext.M unit :=
  if v_type v =? VECTOR_TYPE_FLOAT32 then vectorF32Deserialize v
  else Ext.ret tt.

(** [vectorFunc], the implementation of [vector(X)]. *)
Definition vectorFunc (argc : Z) (argv : list sqlite3_value) : Ext.M unit :=
  if argc <? 1 then Ext.ret tt
  else
    a <- vectorContextAlloc env fresh VECTOR_TYPE_FLOAT32 ;;
    match a with
    | None => Ext.ret tt
    | Some (p, v) =>
        let r := vectorParse sqlite3AtoF double_to_float vectorF3ParseBlob
                   (nth 0 argv ValNull) v None in
        if rc r <? 0 then
          Ext.call env (Ext.sqlite3_result_error (errMsg r)) ;;;
          Ext.call env (Ext.sqlite3_free_text (errMsg r)) ;;;
          vectorFree env p (vec r)
        else
          vectorSerialize (vec r) ;;; vectorFree env p (vec r)
    end.

(** [vectorExtractFunc], the implementation of [vector_extract(X)]. *)
Definition vectorExtractFunc (argc : Z) (argv : list sqlite3_value)
    : Ext.M unit :=
  if argc <? 1 then Ext.ret tt
  else
    a <- vectorContextAlloc env fresh VECTOR_TYPE_FLOAT32 ;;
    match a with
    | None => Ext.ret tt
    | Some (p, v) =>
        let r := vectorParse sqlite3AtoF double_to_float vectorF3ParseBlob
                   (nth 0 argv ValNull) v None in
        if rc r <? 0 then
          Ext.call env (Ext.sqlite3_result_error (errMsg r)) ;;;
          Ext.call env (Ext.sqlite3_free_text (errMsg r)) ;;;
          vectorFree env p (vec r)
        else
          vectorDeserialize (vec r) ;;; vectorFree env p (vec r)
    end.

End CallableSurface.

(** ** Binary encoding *)

Module Blob.

(** The four bytes of a float in memory, least significant first. *)
Definition float_bytes (x : f32) : list Z :=
  [ Z.land x 255;
    Z.land (Z.shiftr x 8) 255;
    Z.land (Z.shiftr x 16) 255;
    Z.land (Z.shiftr x 24) 255 ].

(** The float whose memory is the four bytes given. *)
Definition float_of_bytes (b0 b1 b2 b3 : Z) : f32 :=
  Z.lor b0 (Z.lor (Z.shiftl b1 8) (Z.lor (Z.shiftl b2 16) (Z.shiftl b3 24))).

Fixpoint floats_of_bytes (n : nat) (blob : list Z) : list f32 :=
  match n, blob with
  | S n', b0 :: b1 :: b2 :: b3 :: blob' =>
      float_of_bytes b0 b1 b2 b3 :: floats_of_bytes n' blob'
  | _, _ => []
  end.

(** Writing [src] at the start of the array [dst]. *)
Definition overwrite {A} (dst src : list A) : list A :=
  src ++ skipn (length src) dst.

(** The element bytes of a vector: the memory of its first [dims] floats. *)
Definition element_bytes (v : Vector) : list Z :=
  flat_map float_bytes (firstn (Z.to_nat (v_dims v)) (v_data v)).

(** Modelled from the spec: [vectorF32SerializeToBlob] is defined in the
    float32 back end, which is not among the files modelled here.  Binary
    encoding "writes [dimensionCount x elementSize] raw bytes into a
    caller-provided buffer; fails (returns a sentinel) if the destination
    buffer is smaller than required".  The result is the number of bytes
    written (0 as the sentinel) and the buffer afterwards. *)
Definition vectorF32SerializeToBlob (p : Vector) (blob : list Z) (blobSize : Z)
    : Z * list Z :=
  let need := vectorDataSize VECTOR_TYPE_FLOAT32 (v_dims p) in
  if blobSize <? need then (0, blob)
  else (need, overwrite blob (element_bytes p)).

(** Modelled from the spec: [vectorF32DeserializeFromBlob] is defined in the
    float32 back end as well.  Binary decoding: "length MUST be an exact
    multiple of [elementSize]; dimension count = length / elementSize; bytes
    reinterpreted directly as a packed little/native-endian array of the
    element type"; "any other byte length fails".  The result is the number
    of bytes read (0 on failure) and the vector afterwards. *)
Definition vectorF32DeserializeFromBlob (p : Vector) (blob : list Z)
    (blobSize : Z) : Z * Vector :=
  if negb (blobSize mod 4 =? 0) then (0, p)
  else
    let dims := blobSize / 4 in
    (blobSize,
     {| v_type := v_type p; v_flags := v_flags p; v_dims := dims;
        v_data := overwrite (v_data p) (floats_of_bytes (Z.to_nat dims) blob) |}).

(** [vectorSerializeToBlob]: dispatch on [p->type]; the [default: assert(0)]
    arm falls through to [return 0]. *)
Definition vectorSerializeToBlob (p : Vector) (blob : list Z) (blobSize : Z)
    : Z * list Z :=
  if v_type p =? VECTOR_TYPE_FLOAT32
  then vectorF32SerializeToBlob p blob blobSize
  else (0, blob).

(** [vectorDeserializeFromBlob] *)
Definition vectorDeserializeFromBlob (p : Vector) (blob : list Z)
    (blobSize : Z) : Z * Vector :=
  if v_type p =? VECTOR_TYPE_FLOAT32
  then vectorF32DeserializeFromBlob p blob blobSize
  else (0, p).

End Blob.

(** ** Formatting an element: [isInteger] and [formatF32] *)

Section Format.

(** The conversions and the comparison of [num == (u64)num], and the text
    that [snprintf] produces for ["%lld"] and ["%.6e"]; floating-point
    arithmetic and the C library are outside this development. *)
Variable float_to_u64 : f32 -> Z.
Variable u64_to_float : Z -> f32.
Variable float_eq : f32 -> f32 -> bool.
Variable format_lld : Z -> list ascii.
Variable format_6e : f32 -> list ascii.

(** [isInteger] *)
Definition isInteger (num : f32) : bool :=
  float_eq num (u64_to_float (float_to_u64 num)).

(** [snprintf(buf, size, ...)] producing [text]: at most [size-1] characters
    and a NUL are written at the start of [buf]; the value is the length of
    [text]. *)
Definition snprintf (buf : list ascii) (size : Z) (text : list ascii)
    : Z * list ascii :=
  (Z.of_nat (length text),
   if size <=? 0 then buf
   else Blob.overwrite buf (firstn (Z.to_nat (size - 1)) text ++ [CStr.NUL])).

(** What a call of [formatF32] leaves: its value, the caller's buffer [str],
    and the local [tmp] as it was when the function returned. *)
Record FormatResult := mkFormatResult {
  fmt_ret : Z;
  fmt_str : list ascii;
  fmt_tmp : list ascii
}.

(** [formatF32(num, str)]: both branches print into the local [tmp]; [str]
    does not occur in the body. *)
Definition formatF32 (num : f32) (str : list ascii) (tmp : list ascii)
    : FormatResult :=
  let (n, tmp') :=
    if isInteger num
    then snprintf tmp 32 (format_lld (float_to_u64 num))
    else snprintf tmp 32 (format_6e num) in
  {| fmt_ret := n; fmt_str := str; fmt_tmp := tmp' |}.

End Format.

(** ** Vocabulary of the statements *)

(** An instance of [sqlite3AtoF] for running the parser on examples: a
    non-empty run of decimal digits is answered with status 1, the status
    of a pure integer, and with the number of digits standing in for the
    value; every other text is answered with status 0. *)
Definition digitsAtoF (z : list ascii) : Z * f64 :=
  match z with
  | [] => (0, 0)
  | _ :: _ =>
      if forallb Ctype.sqlite3Isdigit z then (1, Z.of_nat (length z))
      else (0, 0)
  end.

Module Literal.

(** A character that can stand inside an element: not the end of the
    string, not a separator, not the closing bracket. *)
Definition elemChar (c : ascii) : bool :=
  negb (c =? CStr.NUL)%char && negb (c =? "]")%char && negb (c =? ",")%char.

(** The characters of an element that reach the scratch buffer. *)
Definition significant (e : list ascii) : list ascii :=
  filter (fun c => negb (Ctype.sqlite3Isspace c)) e.

(** [e1,e2,...,en] without the brackets. *)
Fixpoint join (es : list (list ascii)) : list ascii :=
  match es with
  | [] => []
  | e :: es' =>
      e ++ match es' with
           | [] => []
           | _ :: _ => ","%char :: join es'
           end
  end.

(** The text [[e1,...,en]]. *)
Definition literal (es : list (list ascii)) : list ascii :=
  "["%char :: join es ++ ["]"%char].

(** An element that [sqlite3AtoF] accepts as a number. *)
Definition numeric (atof : list ascii -> Z * f64) (e : list ascii) : Prop :=
  forallb elemChar e = true /\ significant e <> [] /\
  0 < fst (atof (significant e)).

(** A numeric element that also fits the scratch buffer. *)
Definition valid (atof : list ascii -> Z * f64) (e : list ascii) : Prop :=
  numeric atof e /\ Z.of_nat (length (significant e)) <= MAX_FLOAT_CHAR_SZ.

(** The float an accepted element becomes. *)
Definition value (atof : list ascii -> Z * f64) (d2f : f64 -> f32)
    (e : list ascii) : f32 :=
  d2f (snd (atof (significant e))).

(** The scratch buffer holding [acc]: [bufidx] characters then zeroes. *)
Definition buffered (acc : list ascii) (st : ParseState) : Prop :=
  Z.of_nat (length acc) <= MAX_FLOAT_CHAR_SZ /\
  bufidx st = Z.of_nat (length acc) /\
  elBuf st = acc ++ repeat CStr.NUL (Z.to_nat MAX_FLOAT_CHAR_SZ - length acc).

(** The loop condition is false at [z]. *)
Definition stops (z : CStr.t) : Prop :=
  CStr.cur z = CStr.NUL \/ CStr.cur z = "]"%char.

(** Consecutive stores [a[i] = x1; a[i+1] = x2; ...]. *)
Fixpoint storeAll (a : list f32) (i : Z) (xs : list f32) : list f32 :=
  match xs with
  | [] => a
  | x :: xs' => storeAll (CStr.store a i x) (i + 1) xs'
  end.

End Literal.

(** The scanning loop followed by the conversion of the pending element:
    lines 164-200, up to the test for the closing bracket. *)
Definition scan (atof : list ascii -> Z * f64) (d2f : f64 -> f32)
    (z : CStr.t) (st : ParseState)
    : ParseError * ParseState + CStr.t * ParseState :=
  match parseLoop atof d2f z st with
  | LoopReturn e st' => inl (e, st')
  | LoopExit z' st' =>
      match lastElement atof d2f st' with
      | inl err => inl err
      | inr st1 => inr (z', st1)
      end
  end.

(** The locals as [vectorParseText] initialises them. *)
Definition initialState (v : Vector) : ParseState :=
  {| elBuf := zeroedBuf; bufidx := 0; elems := v_data v; vecidx := 0;
     writes := [] |}.

(** Case folding of a whole string, as the comparisons apply it. *)
Definition lower (z : list ascii) : list Z :=
  map Ctype.sqlite3UpperToLower z.

(** The token [vectorIndexCreate] recognises and the prefix
    [parseVectorDims] looks for. *)
Definition diskann_cosine_ops : CStr.t := CStr.of_string "diskann_cosine_ops".
Definition FLOAT32_open : CStr.t := CStr.of_string "FLOAT32(".

(** A token that names the cosine operator: [diskann_cosine_ops] in any
    letter case. *)
Definition recognized (zId : string) : Prop :=
  lower (CStr.visible (CStr.of_string zId)) = lower diskann_cosine_ops.

(** The value of a run of decimal digits, most significant first. *)
Definition decimal_from (acc : Z) (ds : list ascii) : Z :=
  fold_left (fun a c => a * 10 + (Ctype.code c - Ctype.code "0"%char)) ds acc.

Definition decimal (ds : list ascii) : Z := decimal_from 0 ds.

(** A declared type of the shape FLOAT32(digits)...: the prefix in any
    letter case, a possibly empty run of digits, a closing parenthesis, and
    anything after it. *)
Definition vectorTypeShape (zType : CStr.t) (ds : list ascii) : Prop :=
  exists pre rest,
    zType = pre ++ ds ++ ")"%char :: rest /\
    length pre = 8%nat /\ lower pre = lower FLOAT32_open /\
    forallb Ctype.sqlite3Isdigit ds = true.

(** A well-formed float32 bit pattern. *)
Definition is_f32 (x : Z) : Prop := 0 <= x < 2 ^ 32.

(** The calls [vectorFree] makes for the vector [v] at [p]. *)
Definition frees (p : Z) (v : Vector) : list Ext.Call :=
  if negb (Z.land (v_flags v) VECTOR_FLAGS_STATIC =? 0) then []
  else [Ext.sqlite3_free p].

(** An engine whose [diskAnnInsert] reports [SQLITE_NOMEM] while every other
    call succeeds. *)
Definition failingInsert : Ext.Env :=
  fun _ c =>
    match c with
    | Ext.diskAnnInsert _ _ _ => SQLITE_NOMEM
    | _ => SQLITE_OK
    end.

(** An environment whose allocator returns the address 4096 and whose
    [diskAnnOpenIndex] reports [SQLITE_CANTOPEN] (14). *)
Definition cannotOpen : Ext.Env :=
  fun _ c =>
    match c with
    | Ext.sqlite3DbMallocZero _ => 4096
    | Ext.diskAnnOpenIndex _ => 14
    | _ => SQLITE_OK
    end.

(** An environment in which every call returns [SQLITE_OK]. *)
Definition allOk : Ext.Env := fun _ _ => SQLITE_OK.

(** An index named [idx] over the single column [emb] of declared type
    [zType]. *)
Definition sampleIndex (zType : string) : Index :=
  {| zName := "idx";
     pTable := {| aCol := [ {| zCnName := "emb";
                               declType := Some (CStr.of_string zType) |} ] |};
     nKeyCol := 1;
     aiColumn := [0] |}.

(** The statement [vectorIndexCreate] runs to provision the shadow table. *)
Definition shadowSql (pIdx : Index) : string :=
  ("CREATE TABLE IF NOT EXISTS " ++ zName pIdx ++ "_shadow (data BLOB)")%string.

(** The declared type of the indexed column, as [vectorIndexCreate] reads
    it. *)
Definition indexedType (pIdx : Index) : CStr.t :=
  sqlite3ColumnType
    (nth (Z.to_nat (nth 0 (aiColumn pIdx) 0)) (aCol (pTable pIdx))
         (mkColumn ""%string None)) [].

(** An environment for [vector_distance_cos]: allocations return the
    address 4096, the float32 back end answers every distance with the
    float 1.0, and every other call returns 0. *)
Definition distanceEnv : Ext.Env :=
  fun _ c =>
    match c with
    | Ext.contextMalloc _ => 4096
    | Ext.vectorF32DistanceCos _ _ => 1065353216
    | _ => 0
    end.

(** The size [vectorContextAlloc] asks for. *)
Definition contextVectorSize : Z :=
  16 + vectorDataSize VECTOR_TYPE_FLOAT32 MAX_VECTOR_SZ.

(** The message of a dimension mismatch. *)
Definition DimensionMismatch : option string :=
  Some "vectors must have the same length"%string.

(** An index inside [char elBuf[MAX_FLOAT_CHAR_SZ]]. *)
Definition inBounds (i : Z) : Prop := 0 <= i < MAX_FLOAT_CHAR_SZ.

(** Two ways of leaving the loop that the rest of [vectorParseText] cannot
    tell apart: the same [return], or the same locals with the same
    character under [zStr]. *)
Definition sameExit (r r' : LoopResult) : Prop :=
  match r, r' with
  | LoopReturn e st, LoopReturn e' st' => e = e' /\ st = st'
  | LoopExit z st, LoopExit z' st' => CStr.cur z = CStr.cur z' /\ st = st'
  | _, _ => False
  end.

(** Elements each followed by a separator: [e1,e2,...,en,]. *)
Definition terminated (es : list (list ascii)) : list ascii :=
  flat_map (fun e => e ++ [","%char]) es.

(** The elements of a text that is never closed, as the scan meets them:
    the runs of characters that a comma ends, and the run left pending at
    the end of the text. *)
Fixpoint fields (z : list ascii) : list (list ascii) * list ascii :=
  match z with
  | [] => ([], [])
  | c :: z' =>
      let (es, e) := fields z' in
      if (c =? ",")%char then ([] :: es, e)
      else match es with
           | [] => ([], c :: e)
           | e0 :: es' => ((c :: e0) :: es', e)
           end
  end.

(** The checks an element undergoes when [n] elements have been stored
    before it, in the order in which they are made: its length against the
    scratch buffer, its conversion, and the count of elements. *)
Definition elementError (atof : list ascii -> Z * f64) (n : Z)
    (e : list ascii) : option ParseError :=
  if MAX_FLOAT_CHAR_SZ <? Z.of_nat (length (Literal.significant e))
  then Some ElementTooLong
  else if fst (atof (Literal.significant e)) <=? 0 then Some InvalidNumber
  else if n + 1 >=? MAX_VECTOR_SZ then Some TooManyDimensions
  else None.

(** The first check that trips among the elements [es], taken in order,
    when [n] elements precede them. *)
Fixpoint firstError (atof : list ascii -> Z * f64) (n : Z)
    (es : list (list ascii)) : option ParseError :=
  match es with
  | [] => None
  | e :: es' =>
      match elementError atof n e with
      | Some err => Some err
      | None => firstError atof (n + 1) es'
      end
  end.

(** The error of a text that opens with a bracket and is never closed: the
    first element check that trips, the pending element being checked last
    and only when something of it reached the buffer;
    [UnterminatedLiteral] when no check trips. *)
Definition unclosedError (atof : list ascii -> Z * f64)
    (fs : list (list ascii) * list ascii) : ParseError :=
  let (es, e) := fs in
  match firstError atof 0 es with
  | Some err => err
  | None =>
      match Literal.significant e with
      | [] => UnterminatedLiteral
      | _ :: _ =>
          match elementError atof (Z.of_nat (length es)) e with
          | Some err => err
          | None => UnterminatedLiteral
          end
      end
  end.

(** A value that is not a blob, so that [vectorParse] does not reach the
    float32 back end. *)
Definition notBlob (arg : sqlite3_value) : Prop :=
  match arg with
  | ValBlob _ => False
  | _ => True
  end.

(** The calls among [calls] that release a vector. *)
Definition released (calls : list Ext.Call) : list Z :=
  flat_map (fun c => match c with
                     | Ext.sqlite3_free p => [p]
                     | _ => []
                     end) calls.

(** A back end that hands the vector to the caller's result: it records the
    vector's dimension count as a double result. *)
Definition recordDims (v : Vector) : Ext.M unit :=
  fun log => (tt, log ++ [Ext.sqlite3_result_double (v_dims v)]).

(** * Properties *)

(** ** Arrays *)

Lemma store_length {A} (a : list A) i x :
  length (CStr.store a i x) = length a.
Proof.
  unfold CStr.store.
  destruct (0 <=? i) eqn:Hlo; cbn [andb]; [|reflexivity].
  destruct (i <? Z.of_nat (length a)) eqn:Hhi; [|reflexivity].
  apply Z.leb_le in Hlo. apply Z.ltb_lt in Hhi.
  rewrite length_app, length_firstn.
  change (length (x :: skipn (S (Z.to_nat i)) a))
    with (S (length (skipn (S (Z.to_nat i)) a))).
  rewrite length_skipn. lia.
Qed.

Lemma firstn_prefix {A} (pre post : list A) :
  firstn (length pre) (pre ++ post) = pre.
Proof. induction pre as [|a pre IH]; simpl; [destruct post|]; congruence. Qed.

Lemma skipn_past_prefix {A} (pre : list A) (y : A) (post : list A) :
  skipn (S (length pre)) (pre ++ y :: post) = post.
Proof. induction pre as [|a pre IH]; simpl in *; auto. Qed.

Lemma store_at_end {A} (pre : list A) (y x : A) (post : list A) :
  CStr.store (pre ++ y :: post) (Z.of_nat (length pre)) x = pre ++ x :: post.
Proof.
  unfold CStr.store.
  replace (0 <=? Z.of_nat (length pre)) with true
    by (symmetry; apply Z.leb_le; lia).
  replace (Z.of_nat (length pre) <? Z.of_nat (length (pre ++ y :: post)))
    with true
    by (symmetry; apply Z.ltb_lt; rewrite length_app; simpl; lia).
  cbn [andb]. rewrite Nat2Z.id, firstn_prefix, skipn_past_prefix.
  reflexivity.
Qed.

Lemma store_out_of_range {A} (a : list A) i x :
  Z.of_nat (length a) <= i -> CStr.store a i x = a.
Proof.
  intros H. unfold CStr.store.
  replace (i <? Z.of_nat (length a)) with false
    by (symmetry; apply Z.ltb_ge; lia).
  rewrite andb_false_r. reflexivity.
Qed.

(** ** The scanning loop of [vectorParseText] *)

Section ParseFacts.

Variable atof : list ascii -> Z * f64.
Variable d2f : f64 -> f32.

Import Literal.

Lemma buffered_pending acc st : buffered acc st -> pending st = acc.
Proof.
  intros (_ & Hidx & Hbuf). unfold pending.
  rewrite Hidx, Hbuf, Nat2Z.id. apply firstn_prefix.
Qed.

Lemma buffered_pushChar acc st c :
  buffered acc st -> Z.of_nat (length acc) < MAX_FLOAT_CHAR_SZ ->
  buffered (acc ++ [c]) (pushChar c st).
Proof.
  intros (Hlen & Hidx & Hbuf) Hlt.
  unfold buffered, pushChar; cbn [bufidx elBuf].
  rewrite length_app; cbn [length].
  unfold MAX_FLOAT_CHAR_SZ in *.
  repeat split; try lia.
  rewrite Hidx, Hbuf.
  replace (Z.to_nat 1024 - length acc)%nat
    with (S (Z.to_nat 1024 - (length acc + 1))) by lia.
  cbn [repeat]. rewrite store_at_end, <- app_assoc. reflexivity.
Qed.

Lemma buffered_reset st el : buffered [] (pushElem d2f el (resetBuf st)).
Proof.
  unfold buffered, pushElem, resetBuf, zeroedBuf; cbn.
  repeat split; try reflexivity. unfold MAX_FLOAT_CHAR_SZ. lia.
Qed.

Lemma elemChar_inv c :
  elemChar c = true ->
  (c =? CStr.NUL)%char = false /\ (c =? "]")%char = false /\
  (c =? ",")%char = false.
Proof.
  unfold elemChar. rewrite !andb_true_iff, !negb_true_iff. tauto.
Qed.

Lemma significant_cons c e :
  significant (c :: e) =
  if Ctype.sqlite3Isspace c then significant e else c :: significant e.
Proof.
  unfold significant; cbn [filter].
  destruct (Ctype.sqlite3Isspace c); reflexivity.
Qed.

(** Scanning the characters of one element moves its significant
    characters into the buffer and touches nothing else. *)
Lemma parseLoop_element e : forall rest st acc,
  forallb elemChar e = true ->
  buffered acc st ->
  Z.of_nat (length acc + length (significant e)) <= MAX_FLOAT_CHAR_SZ ->
  exists st',
    parseLoop atof d2f (e ++ rest) st = parseLoop atof d2f rest st' /\
    buffered (acc ++ significant e) st' /\
    elems st' = elems st /\ vecidx st' = vecidx st.
Proof.
  induction e as [|c e IH]; intros rest st acc Hchars Hbuf Hlen.
  - exists st. cbn. rewrite app_nil_r. auto.
  - cbn [forallb] in Hchars. apply andb_true_iff in Hchars as [Hc Hchars].
    apply elemChar_inv in Hc as (Hnul & Hclose & Hcomma).
    cbn [app parseLoop]. rewrite significant_cons in *.
    rewrite Hnul, Hclose, Hcomma. cbn [orb negb andb].
    destruct (Ctype.sqlite3Isspace c) eqn:Hsp.
    + apply IH; auto.
    + cbn [length] in Hlen.
      assert (Hroom : Z.of_nat (length acc) < MAX_FLOAT_CHAR_SZ) by lia.
      pose proof (buffered_pushChar acc st c Hbuf Hroom) as Hbuf1.
      destruct Hbuf1 as (Hl1 & Hi1 & Hb1).
      replace (bufidx (pushChar c st) >? MAX_FLOAT_CHAR_SZ) with false
        by (symmetry; rewrite Z.gtb_ltb; apply Z.ltb_ge; rewrite Hi1; exact Hl1).
      destruct (IH rest (pushChar c st) (acc ++ [c]) Hchars)
        as (st' & Heq & Hb' & He & Hv).
      * repeat split; assumption.
      * rewrite length_app; cbn [length]. lia.
      * exists st'. rewrite Heq. rewrite <- app_assoc in Hb'. auto.
Qed.

Lemma parseLoop_stops z st :
  stops z -> parseLoop atof d2f z st = LoopExit z st.
Proof.
  intros Hz. destruct z as [|c z]; [reflexivity|].
  cbn [parseLoop]. unfold stops in Hz; cbn in Hz.
  destruct Hz as [-> | ->]; reflexivity.
Qed.

(** One iteration at a separator. *)
Lemma parseLoop_comma z st :
  parseLoop atof d2f (","%char :: z) st =
  let (status, el) := atof (pending st) in
  if status <=? 0 then LoopReturn InvalidNumber st
  else
    let st1 := pushElem d2f el (resetBuf st) in
    if vecidx st1 >=? MAX_VECTOR_SZ then LoopReturn TooManyDimensions st1
    else parseLoop atof d2f z st1.
Proof. reflexivity. Qed.

Lemma vectorParseText_scan z v msg :
  vectorParseText atof d2f (ValText (Some z)) v msg =
  if negb (CStr.cur (skipSpaces z) =? "[")%char
  then failed v msg MalformedLiteral (initialState v)
  else
    match scan atof d2f (CStr.next (skipSpaces z)) (initialState v) with
    | inl (e, st) => failed v msg e st
    | inr (z', st1) =>
        if negb (CStr.cur z' =? "]")%char
        then failed v msg UnterminatedLiteral st1
        else {| rc := vecidx st1;
                vec := withDims (withData v (elems st1)) (vecidx st1);
                errMsg := msg; zErr := None; stores := writes st1 |}
    end.
Proof.
  unfold vectorParseText, scan, initialState.
  destruct (negb (CStr.cur (skipSpaces z) =? "[")%char); [reflexivity|].
  destruct (parseLoop atof d2f _ _) as [e st|z' st]; [reflexivity|].
  destruct (lastElement atof d2f st) as [[e st1]|st1]; reflexivity.
Qed.

(** Converting the pending element when the buffer holds a valid one. *)
Lemma convert_valid e st :
  valid atof e -> buffered (significant e) st ->
  exists status el,
    atof (pending st) = (status, el) /\ (status <=? 0) = false /\
    d2f el = value atof d2f e /\ (bufidx st =? 0) = false.
Proof.
  intros [(_ & Hne & Hpos) _] Hbuf.
  rewrite (buffered_pending _ _ Hbuf). unfold value.
  destruct (atof (significant e)) as [status el] eqn:Ha. cbn in *.
  exists status, el. repeat split.
  - apply Z.leb_gt. exact Hpos.
  - destruct Hbuf as (_ & Hidx & _). rewrite Hidx. apply Z.eqb_neq.
    destruct (significant e); [congruence|cbn; lia].
Qed.

Lemma valid_fits e :
  valid atof e -> forallb elemChar e = true /\
  Z.of_nat (length (@nil ascii) + length (significant e)) <= MAX_FLOAT_CHAR_SZ.
Proof. intros [(Hc & _) Hlen]. cbn. auto. Qed.

(** The loop over the elements of a literal: every element is converted and
    stored in turn, until the count reaches [MAX_VECTOR_SZ]. *)
Lemma scan_join es : forall rest st,
  Forall (valid atof) es ->
  buffered [] st ->
  0 <= vecidx st < MAX_VECTOR_SZ ->
  stops rest ->
  match scan atof d2f (join es ++ rest) st with
  | inl (e, _) =>
      e = TooManyDimensions /\
      MAX_VECTOR_SZ <= vecidx st + Z.of_nat (length es)
  | inr (z, st1) =>
      z = rest /\
      vecidx st1 = vecidx st + Z.of_nat (length es) /\
      vecidx st1 < MAX_VECTOR_SZ /\
      elems st1 = storeAll (elems st) (vecidx st) (map (value atof d2f) es)
  end.
Proof.
  induction es as [|e es IH]; intros rest st Hall Hbuf Hvec Hstop.
  - cbn [join app]. unfold scan. rewrite (parseLoop_stops _ _ Hstop).
    unfold lastElement. destruct Hbuf as (_ & Hidx & _). rewrite Hidx. cbn.
    repeat split; lia.
  - inversion Hall as [|e' es' He Hes]; subst e' es'.
    destruct (valid_fits e He) as [Hchars Hfit].
    cbn [join]. rewrite <- app_assoc.
    destruct (parseLoop_element e
                (match es with [] => [] | _ :: _ => ","%char :: join es end
                 ++ rest) st [] Hchars Hbuf Hfit)
      as (st1 & Heq & Hbuf1 & Hel1 & Hv1).
    cbn [app] in Hbuf1.
    destruct (convert_valid e st1 He Hbuf1) as (status & el & Ha & Hs & Hval & Hnz).
    unfold scan. rewrite Heq.
    destruct es as [|e2 es2].
    + cbn [app]. rewrite (parseLoop_stops _ _ Hstop).
      unfold lastElement. rewrite Hnz, Ha, Hs. cbn [negb pushElem vecidx].
      rewrite Hv1. cbn [length map storeAll].
      destruct (vecidx st + 1 >=? MAX_VECTOR_SZ) eqn:Hmax.
      * apply Z.geb_le in Hmax. split; [reflexivity|lia].
      * rewrite Z.geb_leb in Hmax. apply Z.leb_gt in Hmax.
        unfold pushElem; cbn [elems vecidx].
        rewrite Hel1, Hv1, Hval. repeat split; lia.
    + cbn [app]. rewrite parseLoop_comma, Ha, Hs.
      set (st2 := pushElem d2f el (resetBuf st1)).
      assert (Hv2 : vecidx st2 = vecidx st + 1) by (cbn; lia).
      cbv zeta. rewrite Hv2.
      destruct (vecidx st + 1 >=? MAX_VECTOR_SZ) eqn:Hmax.
      * apply Z.geb_le in Hmax. split; [reflexivity|].
        cbn [length]. lia.
      * rewrite Z.geb_leb in Hmax. apply Z.leb_gt in Hmax.
        specialize (IH rest st2 Hes (buffered_reset st1 el)).
        unfold scan in IH.
        assert (Hst2 : elems st2 = CStr.store (elems st) (vecidx st)
                                     (value atof d2f e))
          by (cbn; rewrite Hel1, Hv1, Hval; reflexivity).
        destruct (parseLoop atof d2f (join (e2 :: es2) ++ rest) st2)
          as [err st3|z3 st3].
        -- destruct IH as [-> Hm]; [lia|assumption|].
           split; [reflexivity|]. cbn [length] in *. lia.
        -- destruct (lastElement atof d2f st3) as [[err st4]|st4].
           ++ destruct IH as [-> Hm]; [lia|assumption|].
              split; [reflexivity|]. cbn [length] in *. lia.
           ++ destruct IH as (-> & Hv4 & Hlt & Hel4); [lia|assumption|].
              cbn [length map storeAll] in *.
              rewrite Hel4, Hst2, Hv2. repeat split; lia.
Qed.

Lemma skipSpaces_spaces ws z :
  forallb Ctype.sqlite3Isspace ws = true ->
  skipSpaces (ws ++ z) = skipSpaces z.
Proof.
  induction ws as [|c ws IH]; intros H; [reflexivity|].
  cbn [forallb] in H. apply andb_true_iff in H as [Hc H].
  cbn [app skipSpaces]. rewrite Hc. auto.
Qed.

Lemma skipSpaces_stop c z :
  Ctype.sqlite3Isspace c = false -> skipSpaces (c :: z) = c :: z.
Proof. intros H. cbn [skipSpaces]. rewrite H. reflexivity. Qed.

(** The outcome of decoding a literal with valid elements, with white space
    before the opening bracket and anything after the closing one. *)
Lemma vectorParseText_valid ws es suffix v msg :
  forallb Ctype.sqlite3Isspace ws = true ->
  Forall (valid atof) es ->
  let n := Z.of_nat (length es) in
  let r := vectorParseText atof d2f
             (ValText (Some (ws ++ literal es ++ suffix))) v msg in
  (n < MAX_VECTOR_SZ ->
     rc r = n /\ v_dims (vec r) = n /\ zErr r = None /\
     v_data (vec r) = storeAll (v_data v) 0 (map (value atof d2f) es)) /\
  (MAX_VECTOR_SZ <= n ->
     rc r = -1 /\ zErr r = Some TooManyDimensions /\
     v_dims (vec r) = v_dims v).
Proof.
  intros Hws Hes n r. subst r.
  rewrite vectorParseText_scan, skipSpaces_spaces by assumption.
  unfold literal. cbn [app]. rewrite skipSpaces_stop by reflexivity.
  cbn [CStr.cur CStr.next hd tl]. cbn [Ascii.eqb Bool.eqb negb andb].
  rewrite <- app_assoc. cbn [app].
  assert (Hstop : stops ("]"%char :: suffix)) by (right; reflexivity).
  assert (Hbuf : buffered [] (initialState v)).
  { unfold buffered, initialState, zeroedBuf, MAX_FLOAT_CHAR_SZ; cbn.
    repeat split; try reflexivity; lia. }
  assert (Hvec : 0 <= vecidx (initialState v) < MAX_VECTOR_SZ)
    by (cbn; unfold MAX_VECTOR_SZ; lia).
  pose proof (scan_join es _ _ Hes Hbuf Hvec Hstop) as Hscan.
  destruct (scan atof d2f (join es ++ "]"%char :: suffix) (initialState v))
    as [[e st]|[z st]].
  - destruct Hscan as [-> Hmax]. cbn in Hmax. cbn [failed rc zErr vec v_dims withData].
    split; intros Hn; [lia|auto].
  - destruct Hscan as (-> & Hv & Hlt & Hel). cbn in Hv, Hel.
    cbn [CStr.cur hd Ascii.eqb Bool.eqb negb andb].
    cbn [rc vec zErr withDims withData v_dims v_data].
    split; intros Hn; [|fold n in Hv; lia].
    rewrite Hv, Hel. auto.
Qed.

(** *** How the loop can be left *)

(** The cases of one iteration on the character [c] in the state [st]: the
    loop condition fails; white space; a character that overflows the
    buffer test; a character that is kept; a separator after a bad number;
    a separator that completes the last element allowed; a separator after
    an element. *)
Ltac loop_cases c st :=
  destruct ((c =? CStr.NUL)%char || (c =? "]")%char) eqn:Hstop;
  [ | destruct (Ctype.sqlite3Isspace c) eqn:Hspace;
      [ | destruct (negb (c =? ",")%char && negb (c =? "]")%char) eqn:Hplain;
          [ destruct (bufidx (pushChar c st) >? MAX_FLOAT_CHAR_SZ) eqn:Hfull
          | destruct (atof (pending st)) as [status el] eqn:Hatof;
            destruct (status <=? 0) eqn:Hbad;
            [ | cbv zeta in *;
                destruct (vecidx (pushElem d2f el (resetBuf st))
                            >=? MAX_VECTOR_SZ) eqn:Hmany ] ] ] ].

Lemma parseLoop_errors z : forall st e st',
  parseLoop atof d2f z st = LoopReturn e st' ->
  e = ElementTooLong \/ e = InvalidNumber \/ e = TooManyDimensions.
Proof.
  induction z as [|c z IH]; intros st e st' H; cbn [parseLoop] in H;
    [discriminate|].
  loop_cases c st;
    try discriminate H; try (injection H as <- _; tauto); eauto.
Qed.

Lemma lastElement_errors st e st' :
  lastElement atof d2f st = inl (e, st') ->
  e = InvalidNumber \/ e = TooManyDimensions.
Proof.
  unfold lastElement. destruct (negb (bufidx st =? 0)); [|discriminate].
  destruct (atof (pending st)) as [status el].
  destruct (status <=? 0); [inversion 1; auto|].
  cbv zeta. destruct (vecidx _ >=? MAX_VECTOR_SZ); [inversion 1; auto|discriminate].
Qed.

Lemma parseLoop_exit z : forall st z' st',
  parseLoop atof d2f z st = LoopExit z' st' ->
  (exists pre, z = pre ++ z') /\ stops z'.
Proof.
  assert (Hcons : forall (c : ascii) z z',
            (exists pre, z = pre ++ z') /\ stops z' ->
            (exists pre, c :: z = pre ++ z') /\ stops z').
  { intros c z0 z' [[pre ->] Hs]. split; [exists (c :: pre)|]; auto. }
  induction z as [|c z IH]; intros st z' st' H; cbn [parseLoop] in H.
  - injection H as <- _. split; [exists []; reflexivity | left; reflexivity].
  - loop_cases c st; try discriminate H; eauto.
    injection H as <- _. split; [exists []; reflexivity|].
    apply orb_true_iff in Hstop as [H1|H1]; apply Ascii.eqb_eq in H1;
      [left|right]; exact H1.
Qed.

(** *** Stores into the scratch buffer *)

(** Every store of the loop is inside [elBuf], except the one that precedes
    the "float too big" return, which is at index [MAX_FLOAT_CHAR_SZ]. *)
Lemma parseLoop_writes z : forall st,
  0 <= bufidx st <= MAX_FLOAT_CHAR_SZ ->
  Forall inBounds (writes st) ->
  match parseLoop atof d2f z st with
  | LoopReturn ElementTooLong st' =>
      exists w, writes st' = w ++ [MAX_FLOAT_CHAR_SZ] /\ Forall inBounds w
  | LoopReturn _ st' => Forall inBounds (writes st')
  | LoopExit _ st' => Forall inBounds (writes st')
  end.
Proof.
  induction z as [|c z IH]; intros st Hidx Hw; cbn [parseLoop]; [assumption|].
  loop_cases c st; try assumption.
  - apply IH; assumption.
  - cbn [pushChar bufidx] in Hfull.
    rewrite Z.gtb_ltb in Hfull. apply Z.ltb_lt in Hfull.
    exists (writes st). cbn [pushChar writes].
    replace (bufidx st) with MAX_FLOAT_CHAR_SZ by lia. auto.
  - cbn [pushChar bufidx] in Hfull.
    rewrite Z.gtb_ltb in Hfull. apply Z.ltb_ge in Hfull.
    apply IH; cbn [pushChar bufidx writes]; [lia|].
    apply Forall_app; split; [assumption|].
    constructor; [unfold inBounds; lia | constructor].
  - apply IH; cbn; [unfold MAX_FLOAT_CHAR_SZ; lia | assumption].
Qed.

Lemma lastElement_writes st :
  match lastElement atof d2f st with
  | inl (e, st') => e <> ElementTooLong /\ writes st' = writes st
  | inr st' => writes st' = writes st
  end.
Proof.
  unfold lastElement. destruct (negb (bufidx st =? 0)); [|reflexivity].
  destruct (atof (pending st)) as [status el].
  destruct (status <=? 0); [split; [discriminate|reflexivity]|].
  cbv zeta. destruct (vecidx _ >=? MAX_VECTOR_SZ);
    [split; [discriminate|reflexivity] | reflexivity].
Qed.

(** For every argument: the stores into [elBuf] are all inside the buffer,
    unless the call reports "float too big", and then the last store was at
    index [MAX_FLOAT_CHAR_SZ], one past the last element. *)
Lemma vectorParseText_stores arg v msg :
  let r := vectorParseText atof d2f arg v msg in
  match zErr r with
  | Some ElementTooLong =>
      exists w, stores r = w ++ [MAX_FLOAT_CHAR_SZ] /\ Forall inBounds w
  | _ => Forall inBounds (stores r)
  end.
Proof.
  destruct arg as [i|d|[z|]|b|]; cbn zeta; try (cbn; constructor).
  unfold vectorParseText.
  destruct (negb (CStr.cur (skipSpaces z) =? "[")%char); [cbn; constructor|].
  match goal with
  | |- context [parseLoop atof d2f ?z0 ?s0] =>
      pose proof (parseLoop_writes z0 s0) as Hloop;
      destruct (parseLoop atof d2f z0 s0) as [e st|z' st]
  end.
  - cbn [failed zErr stores].
    assert (H := Hloop ltac:(cbn; unfold MAX_FLOAT_CHAR_SZ; lia)
                       ltac:(constructor)).
    destruct e; assumption.
  - assert (H := Hloop ltac:(cbn; unfold MAX_FLOAT_CHAR_SZ; lia)
                       ltac:(constructor)).
    pose proof (lastElement_writes st) as Hlast.
    destruct (lastElement atof d2f st) as [[e st1]|st1].
    + destruct Hlast as [Hne Heq]. cbn [failed zErr stores]. rewrite Heq.
      destruct e; try assumption. congruence.
    + destruct (negb (CStr.cur z' =? "]")%char); cbn; rewrite Hlast; assumption.
Qed.

(** *** What follows the closing bracket is not read *)

Lemma parseLoop_suffix pre suf suf' : forall st,
  sameExit (parseLoop atof d2f (pre ++ "]"%char :: suf) st)
           (parseLoop atof d2f (pre ++ "]"%char :: suf') st).
Proof.
  induction pre as [|c pre IH]; intros st; cbn [app parseLoop].
  - cbn. auto.
  - loop_cases c st; cbn [sameExit CStr.cur hd]; auto.
Qed.

(** Text decoding never changes the type tag or the flags of the vector. *)
Lemma vectorParseText_keeps_type arg v msg :
  v_type (vec (vectorParseText atof d2f arg v msg)) = v_type v /\
  v_flags (vec (vectorParseText atof d2f arg v msg)) = v_flags v.
Proof.
  destruct arg as [i|d|[z|]|b|]; try (split; reflexivity).
  rewrite vectorParseText_scan.
  destruct (negb (CStr.cur (skipSpaces z) =? "[")%char);
    [split; reflexivity|].
  destruct (scan atof d2f _ _) as [[e st]|[z' st]]; [split; reflexivity|].
  destruct (negb (CStr.cur z' =? "]")%char); split; reflexivity.
Qed.

Lemma skipSpaces_suffix pre :
  exists pre', forall suf,
    skipSpaces (pre ++ "]"%char :: suf) = pre' ++ "]"%char :: suf.
Proof.
  induction pre as [|c pre [pre' IH]].
  - exists []. intros suf. reflexivity.
  - destruct (Ctype.sqlite3Isspace c) eqn:Hc.
    + exists pre'. intros suf. cbn [app skipSpaces]. rewrite Hc. apply IH.
    + exists (c :: pre). intros suf. cbn [app skipSpaces]. rewrite Hc.
      reflexivity.
Qed.

Lemma vectorParseText_suffix pre suf suf' v msg :
  vectorParseText atof d2f (ValText (Some (pre ++ "]"%char :: suf))) v msg =
  vectorParseText atof d2f (ValText (Some (pre ++ "]"%char :: suf'))) v msg.
Proof.
  unfold vectorParseText.
  destruct (skipSpaces_suffix pre) as [pre' Hskip]. rewrite !Hskip.
  destruct pre' as [|c pre']; [reflexivity|].
  cbn [app CStr.cur CStr.next hd tl].
  destruct (negb (c =? "[")%char); [reflexivity|].
  pose proof (parseLoop_suffix pre' suf suf'
                {| elBuf := zeroedBuf; bufidx := 0; elems := v_data v;
                   vecidx := 0; writes := [] |}) as Hsame.
  destruct (parseLoop atof d2f (pre' ++ "]"%char :: suf) _) as [e st|z st];
    destruct (parseLoop atof d2f (pre' ++ "]"%char :: suf') _) as [e' st'|z' st'];
    cbn in Hsame; try contradiction; destruct Hsame as [H1 H2]; subst.
  - reflexivity.
  - destruct (lastElement atof d2f st') as [[e st1]|st1]; [reflexivity|].
    rewrite H1. reflexivity.
Qed.

End ParseFacts.

(** ** Text decoding: the claims *)

(** C1 (as amended).  For every text literal [[e1,...,en]] whose elements
    are numeric literals of at most [MAX_FLOAT_CHAR_SZ] (1024) significant
    characters each: with [n < MAX_VECTOR_SZ] (16000), [vectorParseText]
    succeeds, returns [n] and sets the vector's dimension count to [n]; with
    the element count reaching [MAX_VECTOR_SZ] it fails with
    TooManyDimensions; and ["[]"] decodes to a zero-dimension vector, not
    an error. *)
Theorem vectorParseText_literal_dims
    (atof : list ascii -> Z * f64) (d2f : f64 -> f32)
    (es : list (list ascii)) (v : Vector) (msg : option string) :
  Forall (Literal.valid atof) es ->
  let n := Z.of_nat (length es) in
  let r := vectorParseText atof d2f
             (ValText (Some (Literal.literal es))) v msg in
  let r0 := vectorParseText atof d2f
              (ValText (Some (CStr.of_string "[]"))) v msg in
  (n < MAX_VECTOR_SZ -> rc r = n /\ v_dims (vec r) = n /\ zErr r = None) /\
  (MAX_VECTOR_SZ <= n -> rc r = -1 /\ zErr r = Some TooManyDimensions) /\
  (rc r0 = 0 /\ v_dims (vec r0) = 0 /\ zErr r0 = None).
Proof.
  intros Hes n r r0.
  pose proof (vectorParseText_valid atof d2f [] es [] v msg eq_refl Hes)
    as [Hok Hmany].
  cbn [app] in Hok, Hmany. rewrite app_nil_r in Hok, Hmany.
  split; [|split].
  - intros Hn. destruct (Hok Hn) as (H1 & H2 & H3 & _). auto.
  - intros Hn. destruct (Hmany Hn) as (H1 & H2 & _). auto.
  - pose proof (vectorParseText_valid atof d2f [] [] [] v msg eq_refl
                  (Forall_nil _)) as [Hempty _].
    destruct Hempty as (H1 & H2 & H3 & _); [reflexivity|].
    subst r0. auto.
Qed.

(** Three elements, of one, two and three digits; and [MAX_VECTOR_SZ]
    elements of one digit. *)
Lemma vectorParseText_literal_dims_witness :
  let v := vectorInit VECTOR_TYPE_FLOAT32 MAX_VECTOR_SZ (repeat 0 4) in
  let es := map CStr.of_string ["1"; "22"; "333"]%string in
  let r := vectorParseText digitsAtoF (fun d => d)
             (ValText (Some (Literal.literal es))) v None in
  let many := repeat (CStr.of_string "1") (Z.to_nat MAX_VECTOR_SZ) in
  let r' := vectorParseText digitsAtoF (fun d => d)
              (ValText (Some (Literal.literal many))) v None in
  (Forall (Literal.valid digitsAtoF) es /\
   rc r = 3 /\ v_dims (vec r) = 3 /\ zErr r = None) /\
  (Forall (Literal.valid digitsAtoF) many /\
   rc r' = -1 /\ zErr r' = Some TooManyDimensions).
Proof.
  cbv zeta. split.
  - assert (Hes : Forall (Literal.valid digitsAtoF)
                    (map CStr.of_string ["1"; "22"; "333"]%string)).
    { repeat constructor; try discriminate. }
    split; [exact Hes|].
    apply (vectorParseText_literal_dims digitsAtoF (fun d => d) _
             (vectorInit VECTOR_TYPE_FLOAT32 MAX_VECTOR_SZ (repeat 0 4)) None
             Hes).
    reflexivity.
  - assert (Hmany : Forall (Literal.valid digitsAtoF)
                      (repeat (CStr.of_string "1") (Z.to_nat MAX_VECTOR_SZ))).
    { apply Forall_forall. intros e He. apply repeat_spec in He. subst e.
      repeat constructor; discriminate. }
    split; [exact Hmany|].
    apply (vectorParseText_literal_dims digitsAtoF (fun d => d) _
             (vectorInit VECTOR_TYPE_FLOAT32 MAX_VECTOR_SZ (repeat 0 4)) None
             Hmany).
    rewrite repeat_length. discriminate.
Defined.

(** C1 as stated fails on an element that [sqlite3AtoF] accepts but that is
    longer than the scratch buffer: the literal of one element made of 1025
    digits has n = 1, and decoding stops with ElementTooLong. *)
Lemma vectorParseText_long_element :
  let e := repeat "1"%char 1025 in
  let r := vectorParseText digitsAtoF (fun d => d)
             (ValText (Some (Literal.literal [e])))
             (vectorInit VECTOR_TYPE_FLOAT32 MAX_VECTOR_SZ (repeat 0 4)) None in
  Forall (Literal.numeric digitsAtoF) [e] /\
  Z.of_nat (length [e]) < MAX_VECTOR_SZ /\
  rc r = -1 /\ zErr r = Some ElementTooLong /\ v_dims (vec r) <> 1.
Proof.
  split; [|split; [reflexivity|]].
  2: repeat split; vm_compute; (reflexivity || discriminate).
  constructor; [|constructor].
  split; [vm_compute; reflexivity|].
  split; [vm_compute; discriminate | vm_compute; reflexivity].
Qed.

(** C3 (the code at the failing input).  On the text of an opening bracket
    followed by 1025 digits, whatever [sqlite3AtoF] does, the parser stores
    characters at the indices 0, 1, ..., 1024 of [elBuf], whose last
    element is at index 1023, and only then returns with "float too big":
    the store at index [MAX_FLOAT_CHAR_SZ] precedes the ElementTooLong
    failure. *)
Theorem elBuf_store_past_end
    (atof : list ascii -> Z * f64) (d2f : f64 -> f32)
    (v : Vector) (msg : option string) :
  let r := vectorParseText atof d2f
             (ValText (Some ("["%char :: repeat "1"%char 1025))) v msg in
  rc r = -1 /\ zErr r = Some ElementTooLong /\
  stores r = map Z.of_nat (seq 0 1025) /\
  In MAX_FLOAT_CHAR_SZ (stores r) /\ ~ inBounds MAX_FLOAT_CHAR_SZ.
Proof.
  cbv zeta.
  assert (Hst : stores (vectorParseText atof d2f
                  (ValText (Some ("["%char :: repeat "1"%char 1025))) v msg)
                = map Z.of_nat (seq 0 1025))
    by (vm_compute; reflexivity).
  split; [vm_compute; reflexivity|].
  split; [vm_compute; reflexivity|].
  split; [exact Hst|].
  split.
  - rewrite Hst. apply in_map_iff. exists 1024%nat.
    split; [reflexivity|]. apply in_seq. lia.
  - unfold inBounds. lia.
Qed.

(** C7 as stated fails on a text that opens with a bracket, never closes it,
    and holds something that is not a number: the number check comes
    first. *)
Lemma vectorParseText_unclosed_invalid :
  let z := CStr.of_string "[1,x" in
  let r := vectorParseText digitsAtoF (fun d => d) (ValText (Some z))
             (vectorInit VECTOR_TYPE_FLOAT32 MAX_VECTOR_SZ (repeat 0 4)) None in
  CStr.cur z = "["%char /\ ~ In "]"%char z /\
  rc r = -1 /\ zErr r = Some InvalidNumber /\
  zErr r <> Some UnterminatedLiteral.
Proof.
  cbv zeta. split; [reflexivity|]. split.
  - cbn. intros [H|[H|[H|[H|[]]]]]; discriminate.
  - split; [vm_compute; reflexivity|].
    split; [vm_compute; reflexivity | vm_compute; discriminate].
Qed.

(** C10.  Decoding does not read past the first closing bracket: replacing
    what follows it by nothing changes no part of the result; and a literal
    of [n < MAX_VECTOR_SZ] valid elements followed by arbitrary characters
    decodes successfully as an [n]-dimension vector, as ["[1,2]xyz"] does
    with n = 2. *)
Theorem vectorParseText_ignores_tail
    (atof : list ascii -> Z * f64) (d2f : f64 -> f32)
    (v : Vector) (msg : option string) :
  let parse z := vectorParseText atof d2f (ValText (Some z)) v msg in
  (forall pre suf,
     parse (pre ++ "]"%char :: suf) = parse (pre ++ ["]"%char])) /\
  (forall es tail,
     Forall (Literal.valid atof) es ->
     Z.of_nat (length es) < MAX_VECTOR_SZ ->
     let r := parse (Literal.literal es ++ tail) in
     rc r = Z.of_nat (length es) /\
     v_dims (vec r) = Z.of_nat (length es) /\
     zErr r = None).
Proof.
  cbv zeta. split.
  - intros pre suf. apply vectorParseText_suffix.
  - intros es tail Hes Hn.
    destruct (vectorParseText_valid atof d2f [] es tail v msg eq_refl Hes)
      as [Hok _].
    destruct (Hok Hn) as (H1 & H2 & H3 & _). auto.
Qed.

(** The text ["[1,2]xyz"]. *)
Lemma vectorParseText_ignores_tail_witness :
  let es := map CStr.of_string ["1"; "2"]%string in
  let r := vectorParseText digitsAtoF (fun d => d)
             (ValText (Some (CStr.of_string "[1,2]xyz")))
             (vectorInit VECTOR_TYPE_FLOAT32 MAX_VECTOR_SZ (repeat 0 4)) None in
  Forall (Literal.valid digitsAtoF) es /\
  rc r = 2 /\ v_dims (vec r) = 2 /\ zErr r = None.
Proof.
  assert (Hes : Forall (Literal.valid digitsAtoF)
                  (map CStr.of_string ["1"; "2"]%string)).
  { repeat constructor; try discriminate. }
  split; [exact Hes|].
  apply (proj2 (vectorParseText_ignores_tail digitsAtoF (fun d => d)
                  (vectorInit VECTOR_TYPE_FLOAT32 MAX_VECTOR_SZ (repeat 0 4))
                  None)
           _ (CStr.of_string "xyz") Hes eq_refl).
Defined.

(** ** Binary encoding and decoding *)

Module BlobFacts.

Import Blob.

Lemma testbit_255 n : 0 <= n -> Z.testbit 255 n = (n <? 8).
Proof.
  intros Hn. change 255 with (Z.ones 8).
  apply Z.testbit_ones_nonneg; lia.
Qed.

Lemma testbit_f32_high x n : is_f32 x -> 32 <= n -> Z.testbit x n = false.
Proof.
  intros [Hlo Hhi] Hn.
  destruct (Z.eq_dec x 0) as [->|Hx]; [apply Z.testbit_0_l|].
  apply Z.bits_above_log2; [lia|].
  apply Z.lt_le_trans with 32; [|exact Hn].
  apply Z.log2_lt_pow2; lia.
Qed.

(** Reassembling the four bytes of a float gives the float back. *)
Lemma float_of_float_bytes x :
  is_f32 x ->
  float_of_bytes (Z.land x 255) (Z.land (Z.shiftr x 8) 255)
    (Z.land (Z.shiftr x 16) 255) (Z.land (Z.shiftr x 24) 255) = x.
Proof.
  intros Hx. unfold float_of_bytes. apply Z.bits_inj'. intros n Hn.
  rewrite !Z.lor_spec, !Z.shiftl_spec, !Z.land_spec by lia.
  rewrite testbit_255 by lia.
  destruct (Z.ltb_spec n 8) as [H8|H8].
  { rewrite andb_true_r.
    rewrite (Z.testbit_neg_r _ (n - 8)), (Z.testbit_neg_r _ (n - 16)),
      (Z.testbit_neg_r _ (n - 24)) by lia.
    rewrite !andb_false_l, !orb_false_r. reflexivity. }
  rewrite andb_false_r, orb_false_l.
  destruct (Z.ltb_spec n 16) as [H16|H16].
  { rewrite Z.shiftr_spec, testbit_255 by lia.
    replace (n - 8 <? 8) with true by (symmetry; apply Z.ltb_lt; lia).
    rewrite (Z.testbit_neg_r _ (n - 16)), (Z.testbit_neg_r _ (n - 24)) by lia.
    rewrite !andb_false_l, !orb_false_r, andb_true_r.
    f_equal. lia. }
  rewrite (Z.shiftr_spec x 8), (testbit_255 (n - 8)) by lia.
  replace (n - 8 <? 8) with false by (symmetry; apply Z.ltb_ge; lia).
  rewrite andb_false_r, orb_false_l.
  destruct (Z.ltb_spec n 24) as [H24|H24].
  { rewrite Z.shiftr_spec, testbit_255 by lia.
    replace (n - 16 <? 8) with true by (symmetry; apply Z.ltb_lt; lia).
    rewrite (Z.testbit_neg_r _ (n - 24)) by lia.
    rewrite !andb_false_l, !orb_false_r, andb_true_r.
    f_equal. lia. }
  rewrite (Z.shiftr_spec x 16), (testbit_255 (n - 16)) by lia.
  replace (n - 16 <? 8) with false by (symmetry; apply Z.ltb_ge; lia).
  rewrite andb_false_r, orb_false_l.
  rewrite Z.shiftr_spec, testbit_255 by lia.
  replace (n - 24 + 24) with n by lia.
  destruct (Z.ltb_spec (n - 24) 8) as [H32|H32].
  - apply andb_true_r.
  - rewrite andb_false_r. symmetry. apply testbit_f32_high; [exact Hx|lia].
Qed.

Lemma floats_of_float_bytes xs : forall rest,
  Forall is_f32 xs ->
  floats_of_bytes (length xs) (flat_map float_bytes xs ++ rest) = xs.
Proof.
  induction xs as [|x xs IH]; intros rest Hxs; [reflexivity|].
  inversion Hxs as [|x' xs' Hx Hxs']; subst.
  cbn [length flat_map float_bytes app floats_of_bytes].
  rewrite float_of_float_bytes by exact Hx.
  f_equal. apply IH. exact Hxs'.
Qed.

Lemma element_bytes_length xs :
  length (flat_map float_bytes xs) = (4 * length xs)%nat.
Proof. induction xs as [|x xs IH]; cbn [flat_map float_bytes length app]; lia. Qed.

End BlobFacts.

(** C2.  For every FLOAT32 vector [v] of [n >= 0] dimensions whose first [n]
    elements are 32-bit patterns, in particular for every [n] from 0 to
    [MAX_VECTOR_SZ - 1]: [vectorSerializeToBlob] into a buffer that is large
    enough writes [4 n] bytes, and [vectorDeserializeFromBlob] applied to
    those bytes yields a vector with the dimension count of [v] and exactly
    the element bytes of [v] (hence the same elements). *)
Theorem blob_roundtrip (v p : Vector) (blob : list Z) :
  v_type v = VECTOR_TYPE_FLOAT32 ->
  v_type p = VECTOR_TYPE_FLOAT32 ->
  0 <= v_dims v ->
  v_dims v <= Z.of_nat (length (v_data v)) ->
  Forall is_f32 (firstn (Z.to_nat (v_dims v)) (v_data v)) ->
  vectorDataSize (v_type v) (v_dims v) <= Z.of_nat (length blob) ->
  let (n, blob') :=
    Blob.vectorSerializeToBlob v blob (Z.of_nat (length blob)) in
  let (m, p') := Blob.vectorDeserializeFromBlob p blob' n in
  n = 4 * v_dims v /\ m = n /\
  firstn (Z.to_nat n) blob' = Blob.element_bytes v /\
  v_dims p' = v_dims v /\
  Blob.element_bytes p' = Blob.element_bytes v /\
  firstn (Z.to_nat (v_dims v)) (v_data p')
    = firstn (Z.to_nat (v_dims v)) (v_data v).
Proof.
  intros Hv Hp Hdims Hcap Hbits Hroom.
  unfold Blob.vectorSerializeToBlob, Blob.vectorDeserializeFromBlob.
  rewrite Hv, Hp in *. cbn [Z.eqb VECTOR_TYPE_FLOAT32].
  unfold Blob.vectorF32SerializeToBlob, Blob.vectorF32DeserializeFromBlob.
  unfold vectorDataSize in *. cbn [Z.eqb VECTOR_TYPE_FLOAT32] in *.
  replace (Z.of_nat (length blob) <? v_dims v * 4) with false
    by (symmetry; apply Z.ltb_ge; lia).
  rewrite Z.mod_mul by lia. cbn [Z.eqb negb].
  rewrite Z.div_mul by lia. cbn [v_dims v_data].
  set (xs := firstn (Z.to_nat (v_dims v)) (v_data v)) in *.
  assert (Hlen : length xs = Z.to_nat (v_dims v))
    by (unfold xs; rewrite length_firstn; lia).
  assert (Heb : Blob.element_bytes v = flat_map Blob.float_bytes xs)
    by reflexivity.
  assert (Hdec : Blob.floats_of_bytes (Z.to_nat (v_dims v))
                   (Blob.overwrite blob (Blob.element_bytes v)) = xs).
  { unfold Blob.overwrite. rewrite Heb, <- Hlen.
    apply BlobFacts.floats_of_float_bytes. exact Hbits. }
  rewrite Hdec.
  assert (Hpre : firstn (Z.to_nat (v_dims v)) (Blob.overwrite (v_data p) xs) = xs)
    by (unfold Blob.overwrite; rewrite <- Hlen; apply firstn_prefix).
  repeat split.
  - lia.
  - unfold Blob.overwrite.
    replace (Z.to_nat (v_dims v * 4)) with (length (Blob.element_bytes v))
      by (rewrite Heb, BlobFacts.element_bytes_length; lia).
    apply firstn_prefix.
  - unfold Blob.element_bytes at 1. cbn [v_dims v_data].
    rewrite Hpre. reflexivity.
  - exact Hpre.
Qed.

(** The vector (1.0, 2.0, 3.0) and a buffer of sixteen bytes: the blob
    begins 00 00 80 3F 00 00 00 40 00 00 40 40. *)
Lemma blob_roundtrip_witness :
  let v := mkVector VECTOR_TYPE_FLOAT32 0 3
             [1065353216; 1073741824; 1077936128; 0] in
  let p := vectorInit VECTOR_TYPE_FLOAT32 MAX_VECTOR_SZ (repeat 0 8) in
  let blob := repeat 255 16 in
  let (n, blob') :=
    Blob.vectorSerializeToBlob v blob (Z.of_nat (length blob)) in
  let (m, p') := Blob.vectorDeserializeFromBlob p blob' n in
  n = 4 * v_dims v /\ m = n /\
  firstn (Z.to_nat n) blob' = Blob.element_bytes v /\
  v_dims p' = v_dims v /\
  Blob.element_bytes p' = Blob.element_bytes v /\
  firstn (Z.to_nat (v_dims v)) (v_data p')
    = firstn (Z.to_nat (v_dims v)) (v_data v).
Proof.
  apply (blob_roundtrip
           (mkVector VECTOR_TYPE_FLOAT32 0 3
              [1065353216; 1073741824; 1077936128; 0])
           (vectorInit VECTOR_TYPE_FLOAT32 MAX_VECTOR_SZ (repeat 0 8))
           (repeat 255 16)).
  - reflexivity.
  - reflexivity.
  - discriminate.
  - discriminate.
  - repeat constructor; discriminate.
  - discriminate.
Defined.

(** ** Character classes and comparisons *)

Module CtypeFacts.

Import Ctype.

Lemma code_range c : 0 <= code c < 256.
Proof.
  unfold code. pose proof (N_ascii_bounded c) as H.
  split; [apply N2Z.is_nonneg | lia].
Qed.

Lemma code_inj c c' : code c = code c' -> c = c'.
Proof.
  unfold code. intros H. apply N2Z.inj in H.
  rewrite <- (ascii_N_embedding c), <- (ascii_N_embedding c'), H.
  reflexivity.
Qed.

Lemma lower_zero c : sqlite3UpperToLower c = 0 <-> c = CStr.NUL.
Proof.
  unfold sqlite3UpperToLower. pose proof (code_range c) as Hc. split.
  - intros H. apply code_inj. change (code CStr.NUL) with 0.
    destruct ((65 <=? code c) && (code c <=? 90)) eqn:Hup; [|exact H].
    apply andb_true_iff in Hup as [H1 _]. apply Z.leb_le in H1. lia.
  - intros ->. reflexivity.
Qed.

Lemma digit_code c : sqlite3Isdigit c = true -> 48 <= code c <= 57.
Proof.
  unfold sqlite3Isdigit. intros H. apply andb_true_iff in H as [H1 H2].
  apply Z.leb_le in H1. apply Z.leb_le in H2. lia.
Qed.

Lemma digit_not_special c :
  sqlite3Isdigit c = true ->
  (c =? CStr.NUL)%char = false /\ (c =? ")")%char = false.
Proof.
  intros H. apply digit_code in H.
  split; apply Ascii.eqb_neq; intros ->; cbn in H; lia.
Qed.

Lemma visible_nil_cur z : CStr.visible z = [] <-> CStr.cur z = CStr.NUL.
Proof.
  destruct z as [|c z]; cbn; [tauto|].
  destruct (Ascii.eqb_spec c CStr.NUL) as [->|Hne]; [tauto|].
  split; [discriminate | contradiction].
Qed.

(** [sqlite3_stricmp] answers 0 exactly for strings equal up to case. *)
Lemma stricmp_zero a : forall b,
  sqlite3_stricmp a b = 0 <-> lower (CStr.visible a) = lower (CStr.visible b).
Proof.
  induction a as [|c a IH]; intros b.
  - cbn [sqlite3_stricmp CStr.visible lower map]. split.
    + intros H. assert (Hb : CStr.cur b = CStr.NUL) by (apply lower_zero; lia).
      apply visible_nil_cur in Hb. rewrite Hb. reflexivity.
    + intros H. symmetry in H. apply map_eq_nil in H.
      apply visible_nil_cur in H. rewrite H. reflexivity.
  - cbn [sqlite3_stricmp CStr.visible].
    destruct (Ascii.eqb_spec c (CStr.cur b)) as [Hcx|Hcx].
    + destruct (Ascii.eqb_spec c CStr.NUL) as [Hc|Hc].
      * assert (Hb : CStr.cur b = CStr.NUL) by congruence.
        apply visible_nil_cur in Hb. rewrite Hb. tauto.
      * destruct b as [|x b]; [contradiction|]. cbn in Hcx. subst x.
        cbn [CStr.next tl CStr.visible].
        destruct (Ascii.eqb_spec c CStr.NUL); [contradiction|].
        rewrite IH. unfold lower. cbn [map]. split; [congruence|].
        intros H. injection H. auto.
    + destruct (Z.eqb_spec
                  (sqlite3UpperToLower c - sqlite3UpperToLower (CStr.cur b)) 0)
        as [Hd|Hd].
      * assert (Hc : c <> CStr.NUL).
        { intros ->. apply Hcx. symmetry. apply lower_zero.
          change (sqlite3UpperToLower CStr.NUL) with 0 in Hd. lia. }
        destruct b as [|x b].
        { exfalso. apply Hc. apply lower_zero.
          change (CStr.cur []) with CStr.NUL in Hd.
          change (sqlite3UpperToLower CStr.NUL) with 0 in Hd. lia. }
        cbn [CStr.cur hd] in *.
        assert (Hx : x <> CStr.NUL).
        { intros ->. apply Hc. apply lower_zero.
          change (sqlite3UpperToLower CStr.NUL) with 0 in Hd. lia. }
        cbn [CStr.next tl CStr.visible].
        destruct (Ascii.eqb_spec c CStr.NUL); [contradiction|].
        destruct (Ascii.eqb_spec x CStr.NUL); [contradiction|].
        rewrite IH. unfold lower. cbn [map]. split.
        -- intros H. f_equal; [lia | exact H].
        -- intros H. injection H. auto.
      * split; [intros H; contradiction|]. intros H. exfalso. apply Hd.
        destruct (Ascii.eqb_spec c CStr.NUL) as [->|Hc].
        -- symmetry in H. apply map_eq_nil in H. apply visible_nil_cur in H.
           rewrite H. reflexivity.
        -- destruct b as [|x b]; [discriminate H|].
           cbn [CStr.visible CStr.cur hd] in *.
           destruct (Ascii.eqb_spec x CStr.NUL); [discriminate H|].
           unfold lower in H. cbn [map] in H. injection H. lia.
Qed.

(** [sqlite3_strnicmp] answers 0 exactly when the first [N] characters
    exist and agree up to case with those of a pattern without NUL. *)
Lemma strnicmp_zero N : forall a b,
  (N <= length b)%nat ->
  Forall (fun c => c <> CStr.NUL) (firstn N b) ->
  sqlite3_strnicmp a b N = 0 <->
  exists pre rest,
    a = pre ++ rest /\ length pre = N /\ lower pre = lower (firstn N b).
Proof.
  induction N as [|N IH]; intros a b Hlen Hb.
  - cbn. split; [|reflexivity]. intros _. exists [], a. auto.
  - destruct b as [|y b]; [cbn in Hlen; lia|].
    cbn [firstn] in Hb. inversion Hb as [|y' b' Hy Hb']; subst.
    cbn [length] in Hlen. cbn [sqlite3_strnicmp CStr.cur CStr.next hd tl firstn].
    assert (Hy0 : sqlite3UpperToLower y <> 0)
      by (intros H; apply Hy, lower_zero, H).
    destruct a as [|x a].
    + change (CStr.cur []) with CStr.NUL. rewrite Ascii.eqb_refl.
      cbn [negb andb]. change (sqlite3UpperToLower CStr.NUL) with 0.
      split; [lia|].
      intros (pre & rest & Ha & Hl & _).
      destruct pre; [discriminate Hl|discriminate Ha].
    + cbn [CStr.cur CStr.next hd tl].
      destruct (Ascii.eqb_spec x CStr.NUL) as [->|Hx]; cbn [negb andb].
      * change (sqlite3UpperToLower CStr.NUL) with 0. split; [lia|].
        intros (pre & rest & Ha & Hl & Hlow).
        destruct pre as [|x' pre]; [discriminate Hl|].
        injection Ha as <- _. unfold lower in Hlow. cbn [map] in Hlow.
        injection Hlow as Hlow _.
        change (sqlite3UpperToLower CStr.NUL) with 0 in Hlow. lia.
      * destruct (Z.eqb_spec (sqlite3UpperToLower x) (sqlite3UpperToLower y))
          as [Hxy|Hxy].
        -- rewrite IH by (assumption || lia). split.
           ++ intros (pre & rest & -> & Hl & Hlow).
              exists (x :: pre), rest. cbn [app length]. unfold lower in *.
              cbn [map]. repeat split; congruence.
           ++ intros (pre & rest & Ha & Hl & Hlow).
              destruct pre as [|x' pre]; [discriminate Hl|].
              injection Ha as <- ->. exists pre, rest.
              unfold lower in *. cbn [map] in Hlow. injection Hlow as _ Hlow.
              cbn [length] in Hl. repeat split; congruence.
        -- split; [lia|].
           intros (pre & rest & Ha & Hl & Hlow).
           destruct pre as [|x' pre]; [discriminate Hl|].
           injection Ha as <- _. unfold lower in Hlow. cbn [map] in Hlow.
           injection Hlow as Hlow _. contradiction.
Qed.

End CtypeFacts.

(** ** Declared column types *)

Module DimsFacts.

Import Ctype CtypeFacts.

Lemma wrap_int_small x : 0 <= x <= INT_MAX -> wrap_int x = x.
Proof.
  unfold wrap_int, INT_MAX. intros H. rewrite Z.mod_small; lia.
Qed.

Lemma decimal_from_ge ds : forall acc,
  forallb sqlite3Isdigit ds = true -> 0 <= acc ->
  acc <= decimal_from acc ds.
Proof.
  unfold decimal_from.
  induction ds as [|c ds IH]; intros acc Hds Hacc; cbn [fold_left]; [lia|].
  cbn [forallb] in Hds. apply andb_true_iff in Hds as [Hc Hds].
  apply digit_code in Hc.
  pose proof (eq_refl : code "0"%char = 48) as H0.
  specialize (IH (acc * 10 + (code c - code "0"%char)) Hds). lia.
Qed.

(** The loop over a run of digits closed by a parenthesis computes the
    decimal value, as long as it fits an [int]. *)
Lemma loop_digits ds : forall acc rest,
  forallb sqlite3Isdigit ds = true -> 0 <= acc ->
  decimal_from acc ds <= INT_MAX ->
  parseVectorDims_loop (ds ++ ")"%char :: rest) acc = decimal_from acc ds.
Proof.
  induction ds as [|c ds IH]; intros acc rest Hds Hacc Hmax.
  - reflexivity.
  - cbn [forallb] in Hds. apply andb_true_iff in Hds as [Hc Hds].
    destruct (digit_not_special c Hc) as [Hnul Hpar].
    cbn [app parseVectorDims_loop]. rewrite Hnul, Hpar, Hc. cbn [negb].
    pose proof (digit_code c Hc) as Hcode.
    assert (Hstep : 0 <= acc * 10 + (code c - code "0"%char))
      by (change (code "0"%char) with 48; lia).
    unfold decimal_from in *. cbn [fold_left] in *.
    pose proof (decimal_from_ge ds _ Hds Hstep) as Hge.
    unfold decimal_from in Hge.
    rewrite wrap_int_small by lia.
    apply IH; assumption.
Qed.

(** A non-negative result means the loop met digits, then a parenthesis. *)
Lemma loop_shape z : forall acc,
  0 <= parseVectorDims_loop z acc ->
  exists ds rest,
    z = ds ++ ")"%char :: rest /\ forallb sqlite3Isdigit ds = true.
Proof.
  induction z as [|c z IH]; intros acc H; cbn [parseVectorDims_loop] in H;
    [lia|].
  destruct (c =? CStr.NUL)%char; [lia|].
  destruct (Ascii.eqb_spec c ")"%char) as [->|Hpar].
  - exists [], z. auto.
  - destruct (sqlite3Isdigit c) eqn:Hc; cbn [negb] in H; [|lia].
    destruct (IH _ H) as (ds & rest & -> & Hds).
    exists (c :: ds), rest. cbn [app forallb]. rewrite Hc, Hds. auto.
Qed.

Lemma prefix_zero zType :
  sqlite3_strnicmp zType FLOAT32_open 8 = 0 <->
  exists pre rest,
    zType = pre ++ rest /\ length pre = 8%nat /\ lower pre = lower FLOAT32_open.
Proof.
  apply (strnicmp_zero 8 zType FLOAT32_open).
  - cbn. lia.
  - repeat constructor; discriminate.
Qed.

Lemma skipn_prefix {A} (pre rest : list A) :
  skipn (length pre) (pre ++ rest) = rest.
Proof. induction pre as [|a pre IH]; [reflexivity | exact IH]. Qed.

Lemma parseVectorDims_pass zType :
  0 <= parseVectorDims zType -> exists ds, vectorTypeShape zType ds.
Proof.
  unfold parseVectorDims. change (CStr.of_string "FLOAT32(") with FLOAT32_open.
  destruct (Z.eqb_spec (sqlite3_strnicmp zType FLOAT32_open 8) 0) as [H0|H0];
    [|lia].
  apply prefix_zero in H0 as (pre & rest0 & -> & Hlen & Hlow).
  rewrite <- Hlen, skipn_prefix. intros H.
  destruct (loop_shape _ _ H) as (ds & rest & -> & Hds).
  exists ds, pre, rest. auto.
Qed.

Lemma parseVectorDims_value zType ds :
  vectorTypeShape zType ds -> decimal ds <= INT_MAX ->
  parseVectorDims zType = decimal ds /\ 0 <= decimal ds.
Proof.
  intros (pre & rest & -> & Hlen & Hlow & Hds) Hmax.
  unfold parseVectorDims. change (CStr.of_string "FLOAT32(") with FLOAT32_open.
  assert (H0 : sqlite3_strnicmp (pre ++ ds ++ ")"%char :: rest) FLOAT32_open 8 = 0)
    by (apply prefix_zero; exists pre, (ds ++ ")"%char :: rest); auto).
  rewrite H0. cbn [Z.eqb]. rewrite <- Hlen, skipn_prefix.
  split; [apply loop_digits; auto; lia|].
  apply (decimal_from_ge ds 0 Hds). lia.
Qed.

End DimsFacts.

(** ** Index integration: the claims *)

Section IndexFacts.

Variable env : Ext.Env.

Lemma createIndexBody_type_step pIdx nDistanceOps log :
  env log (Ext.sqlite3_exec (shadowSql pIdx)) = SQLITE_OK ->
  nKeyCol pIdx = 1 ->
  let nDims := parseVectorDims (indexedType pIdx) in
  let log1 := log ++ [Ext.sqlite3_exec (shadowSql pIdx)] in
  createIndexBody env pIdx nDistanceOps log =
  if nDims <? 0
  then (-1, log1 ++ [Ext.sqlite3ErrorMsg "Invalid vector type"])
  else (env log1 (Ext.diskAnnCreateIndex (zName pIdx) nDims nDistanceOps),
        log1 ++ [Ext.diskAnnCreateIndex (zName pIdx) nDims nDistanceOps]).
Proof.
  intros Hexec Hkey. cbv zeta.
  unfold createIndexBody, Ext.bind, Ext.call, Ext.ret.
  fold (shadowSql pIdx). rewrite Hexec, Hkey. cbn [Z.eqb negb SQLITE_OK].
  fold (indexedType pIdx).
  destruct (parseVectorDims (indexedType pIdx) <? 0); reflexivity.
Qed.

Lemma recognized_stricmp zId :
  Ctype.sqlite3_stricmp (CStr.of_string zId)
    (CStr.of_string "diskann_cosine_ops") = 0 <-> recognized zId.
Proof. apply CtypeFacts.stricmp_zero. Qed.

End IndexFacts.

(** The declared types [parseVectorDims] accepts.  A non-negative answer
    means that the type has the shape FLOAT32(digits)...: the prefix
    [FLOAT32(] in any letter case, a possibly empty run of decimal digits, a
    closing parenthesis, and anything after it.  For a type of that shape
    the value of the digits (0 for an empty run), when it fits a C [int], is
    the answer, and once the shadow table is provisioned for an index over
    one column it is the dimension count handed to [diskAnnCreateIndex]; a
    declared type for which [parseVectorDims] answers a negative number
    fails with "Invalid vector type". *)
Theorem parseVectorDims_shape (env : Ext.Env) :
  (forall zType,
     0 <= parseVectorDims zType -> exists ds, vectorTypeShape zType ds) /\
  (forall zType ds,
     vectorTypeShape zType ds -> decimal ds <= INT_MAX ->
     parseVectorDims zType = decimal ds /\ 0 <= decimal ds) /\
  (forall pIdx nDistanceOps log,
     env log (Ext.sqlite3_exec (shadowSql pIdx)) = SQLITE_OK ->
     nKeyCol pIdx = 1 ->
     let nDims := parseVectorDims (indexedType pIdx) in
     let log1 := log ++ [Ext.sqlite3_exec (shadowSql pIdx)] in
     createIndexBody env pIdx nDistanceOps log =
     if nDims <? 0
     then (-1, log1 ++ [Ext.sqlite3ErrorMsg "Invalid vector type"])
     else (env log1 (Ext.diskAnnCreateIndex (zName pIdx) nDims nDistanceOps),
           log1 ++ [Ext.diskAnnCreateIndex (zName pIdx) nDims nDistanceOps])).
Proof.
  split; [|split].
  - exact DimsFacts.parseVectorDims_pass.
  - exact DimsFacts.parseVectorDims_value.
  - intros pIdx ops log. apply createIndexBody_type_step.
Qed.

(** The declared type [float32(128)] and an index over it. *)
Lemma parseVectorDims_shape_witness :
  vectorTypeShape (CStr.of_string "float32(128)") (CStr.of_string "128") /\
  parseVectorDims (CStr.of_string "float32(128)") = 128 /\
  Ext.run (createIndexBody allOk (sampleIndex "float32(128)")
             VECTOR_DISTANCE_COS)
  = (SQLITE_OK,
     [Ext.sqlite3_exec "CREATE TABLE IF NOT EXISTS idx_shadow (data BLOB)";
      Ext.diskAnnCreateIndex "idx" 128 VECTOR_DISTANCE_COS]).
Proof.
  destruct (parseVectorDims_shape allOk) as (_ & Hvalue & Hstep).
  assert (Hshape : vectorTypeShape (CStr.of_string "float32(128)")
                     (CStr.of_string "128")).
  { exists (CStr.of_string "float32("), []. repeat split. }
  split; [exact Hshape|]. split.
  - apply (Hvalue _ _ Hshape). discriminate.
  - apply (Hstep (sampleIndex "float32(128)") VECTOR_DISTANCE_COS []);
      reflexivity.
Defined.

(** C8.  [parseVectorDims] asks neither for a digit between the parentheses
    nor for the end of the string after them: for [FLOAT32()] followed by
    anything it returns 0 and not -1, and for [FLOAT32(3)] followed by
    anything it returns 3.  The type validation of [vectorIndexCreate]
    therefore passes for a column declared [FLOAT32()]: "Invalid vector
    type" is not reported, and the engine is asked to create an index of 0
    dimensions. *)
Theorem parseVectorDims_accepts_malformed (env : Ext.Env) (rest : list ascii) :
  parseVectorDims (CStr.of_string "FLOAT32()" ++ rest) = 0 /\
  parseVectorDims (CStr.of_string "FLOAT32(3)" ++ rest) = 3 /\
  (forall pIdx nDistanceOps log,
     env log (Ext.sqlite3_exec (shadowSql pIdx)) = SQLITE_OK ->
     nKeyCol pIdx = 1 ->
     indexedType pIdx = CStr.of_string "FLOAT32()" ++ rest ->
     let log1 := log ++ [Ext.sqlite3_exec (shadowSql pIdx)] in
     createIndexBody env pIdx nDistanceOps log
     = (env log1 (Ext.diskAnnCreateIndex (zName pIdx) 0 nDistanceOps),
        log1 ++ [Ext.diskAnnCreateIndex (zName pIdx) 0 nDistanceOps])) /\
  Ext.run (vectorIndexCreate allOk (sampleIndex "FLOAT32()")
             ["diskann_cosine_ops"%string])
  = (SQLITE_OK,
     [Ext.sqlite3_exec "CREATE TABLE IF NOT EXISTS idx_shadow (data BLOB)";
      Ext.diskAnnCreateIndex "idx" 0 VECTOR_DISTANCE_COS]).
Proof.
  assert (Hnone : parseVectorDims (CStr.of_string "FLOAT32()" ++ rest) = 0)
    by reflexivity.
  split; [exact Hnone|]. split; [reflexivity|]. split; [|reflexivity].
  intros pIdx ops log Hexec Hkey Htype.
  pose proof (createIndexBody_type_step env pIdx ops log Hexec Hkey) as Hstep.
  cbv zeta in Hstep. rewrite Htype, Hnone in Hstep. exact Hstep.
Qed.

(** C4 (as amended).  [vectorIndexCreate] fails with "Unknown indexing
    method" whenever the first token supplied is not [diskann_cosine_ops]
    (compared without regard to letter case), and then its only call is the
    error report: the shadow table is not created and the engine is not
    called.  When the first token is recognised the tokens after it are not
    looked at. *)
Theorem vectorIndexCreate_first_token
    (env : Ext.Env) (pIdx : Index) (zId : string) (others : list string)
    (log : list Ext.Call) :
  (~ recognized zId ->
     vectorIndexCreate env pIdx (zId :: others) log
     = (-1, log ++ [Ext.sqlite3ErrorMsg
                      ("Unknown indexing method: " ++ zId)%string])) /\
  (recognized zId ->
     vectorIndexCreate env pIdx (zId :: others) log
     = createIndexBody env pIdx VECTOR_DISTANCE_COS log).
Proof.
  unfold vectorIndexCreate.
  destruct (Z.eqb_spec
              (Ctype.sqlite3_stricmp (CStr.of_string zId)
                 (CStr.of_string "diskann_cosine_ops")) 0) as [H0|H0].
  - apply recognized_stricmp in H0. split; [contradiction | reflexivity].
  - split; [reflexivity|]. intros Hrec. apply recognized_stricmp in Hrec.
    contradiction.
Qed.

(** The tokens [euclidean_ops] and [DiskANN_Cosine_Ops]. *)
Lemma vectorIndexCreate_first_token_witness :
  ~ recognized "euclidean_ops" /\ recognized "DiskANN_Cosine_Ops" /\
  Ext.run (vectorIndexCreate allOk (sampleIndex "FLOAT32(128)")
             ["euclidean_ops"%string])
  = (-1, [Ext.sqlite3ErrorMsg "Unknown indexing method: euclidean_ops"]) /\
  Ext.run (vectorIndexCreate allOk (sampleIndex "FLOAT32(128)")
             ["DiskANN_Cosine_Ops"%string])
  = Ext.run (createIndexBody allOk (sampleIndex "FLOAT32(128)")
               VECTOR_DISTANCE_COS).
Proof.
  assert (Hno : ~ recognized "euclidean_ops") by (intros H; discriminate H).
  assert (Hyes : recognized "DiskANN_Cosine_Ops") by reflexivity.
  split; [exact Hno|]. split; [exact Hyes|]. split.
  - exact (proj1 (vectorIndexCreate_first_token allOk
                    (sampleIndex "FLOAT32(128)") "euclidean_ops" [] []) Hno).
  - exact (proj2 (vectorIndexCreate_first_token allOk
                    (sampleIndex "FLOAT32(128)") "DiskANN_Cosine_Ops" [] [])
                 Hyes).
Defined.

(** C4 as stated fails on token lists that do not consist of exactly one
    recognised token and are accepted all the same: the recognised token
    twice, and the recognised token followed by an unknown one.  In both
    the shadow table is provisioned and the engine creates the index. *)
Lemma vectorIndexCreate_extra_tokens :
  let created :=
    (SQLITE_OK,
     [Ext.sqlite3_exec "CREATE TABLE IF NOT EXISTS idx_shadow (data BLOB)";
      Ext.diskAnnCreateIndex "idx" 128 VECTOR_DISTANCE_COS]) in
  Ext.run (vectorIndexCreate allOk (sampleIndex "FLOAT32(128)")
             ["diskann_cosine_ops"; "diskann_cosine_ops"]%string) = created /\
  Ext.run (vectorIndexCreate allOk (sampleIndex "FLOAT32(128)")
             ["diskann_cosine_ops"; "euclidean_ops"]%string) = created.
Proof. split; vm_compute; reflexivity. Qed.

(** C5 (the code at the failing input).  [vectorIndexInsert] calls
    [diskAnnInsert] once and returns 0 whatever the engine answered: with an
    engine whose insert reports [SQLITE_NOMEM] (7) the result of the
    integration operation is still 0. *)
Theorem vectorIndexInsert_drops_status
    (env : Ext.Env) (initFromBlob : list Z -> Z -> Z * list f32)
    (pCur : VectorIdxCursor) (pX : BtreePayload) (log : list Ext.Call) :
  let vec := nth 0 (aMem pX) ValNull in
  let rowid := nth 1 (aMem pX) ValNull in
  let c := Ext.diskAnnInsert (cur_index pCur)
             (vectorInitStatic initFromBlob VECTOR_TYPE_FLOAT32
                (sqlite3_value_blob vec) (sqlite3_value_bytes vec))
             (sqlite3_value_int64 rowid) in
  vectorIndexInsert env initFromBlob pCur pX log = (0, log ++ [c]) /\
  failingInsert log c = SQLITE_NOMEM /\
  fst (vectorIndexInsert failingInsert initFromBlob pCur pX log) = 0.
Proof. cbv zeta. repeat split. Qed.

(** Opening a cursor hands the engine's status on: once the cursor object
    is allocated, [vectorIndexCursorInit] calls [diskAnnOpenIndex] exactly
    once and returns what it answered. *)
Lemma vectorIndexCursorInit_status
    (env : Ext.Env) (openedIndex : list Ext.Call -> string -> Z)
    (zIndexName : string) (log : list Ext.Call) :
  env log (Ext.sqlite3DbMallocZero 16) <> 0 ->
  let log1 := log ++ [Ext.sqlite3DbMallocZero 16] in
  let r := vectorIndexCursorInit env openedIndex zIndexName log in
  fst (fst r) = env log1 (Ext.diskAnnOpenIndex zIndexName) /\
  snd r = log1 ++ [Ext.diskAnnOpenIndex zIndexName].
Proof.
  intros Hp. cbv zeta.
  unfold vectorIndexCursorInit, Ext.bind, Ext.call, Ext.ret.
  destruct (Z.eqb_spec (env log (Ext.sqlite3DbMallocZero 16)) 0) as [H0|_];
    [contradiction|].
  destruct (Z.eqb_spec
              (env (log ++ [Ext.sqlite3DbMallocZero 16])
                 (Ext.diskAnnOpenIndex zIndexName)) SQLITE_OK) as [H0|H0];
    cbn [negb fst snd]; auto.
Qed.

(** ** The distance function: the claims *)

Section DistanceFacts.

Variable env : Ext.Env.
Variable atof : list ascii -> Z * f64.
Variable d2f : f64 -> f32.
Variable f2d : f32 -> f64.
Variable parseBlob : sqlite3_value -> Vector -> option string -> ParseResult.
Variable fresh : Z -> list f32.

Lemma vectorFree_calls p v log :
  vectorFree env p v log = (tt, log ++ frees p v).
Proof.
  unfold vectorFree, frees, Ext.bind, Ext.call, Ext.ret.
  destruct (negb (Z.land (v_flags v) VECTOR_FLAGS_STATIC =? 0));
    [rewrite app_nil_r|]; reflexivity.
Qed.

Lemma vectorContextAlloc_ok type log :
  env log (Ext.contextMalloc (16 + vectorDataSize type MAX_VECTOR_SZ)) <> 0 ->
  vectorContextAlloc env fresh type log =
  (Some (env log (Ext.contextMalloc (16 + vectorDataSize type MAX_VECTOR_SZ)),
         vectorInit type MAX_VECTOR_SZ
           (fresh (env log (Ext.contextMalloc
                              (16 + vectorDataSize type MAX_VECTOR_SZ))))),
   log ++ [Ext.contextMalloc (16 + vectorDataSize type MAX_VECTOR_SZ)]).
Proof.
  intros Hp. unfold vectorContextAlloc, Ext.bind, Ext.call, Ext.ret.
  destruct (Z.eqb_spec
              (env log (Ext.contextMalloc
                          (16 + vectorDataSize type MAX_VECTOR_SZ))) 0);
    [contradiction | reflexivity].
Qed.

(** The calls of [vectorDistanceCosFunc] once both arguments have decoded:
    an error and no distance computation when the dimension counts differ,
    the distance handed to [sqlite3_result_double] when they agree. *)
Lemma vectorDistanceCosFunc_decoded argc argv :
  let p1 := env [] (Ext.contextMalloc contextVectorSize) in
  let log1 := [Ext.contextMalloc contextVectorSize] in
  let p2 := env log1 (Ext.contextMalloc contextVectorSize) in
  let log2 := log1 ++ [Ext.contextMalloc contextVectorSize] in
  let r1 := vectorParse atof d2f parseBlob (nth 0 argv ValNull)
              (vectorInit VECTOR_TYPE_FLOAT32 MAX_VECTOR_SZ (fresh p1)) None in
  let r2 := vectorParse atof d2f parseBlob (nth 1 argv ValNull)
              (vectorInit VECTOR_TYPE_FLOAT32 MAX_VECTOR_SZ (fresh p2))
              (errMsg r1) in
  2 <= argc -> p1 <> 0 -> p2 <> 0 -> 0 <= rc r1 -> 0 <= rc r2 ->
  snd (Ext.run (vectorDistanceCosFunc env atof d2f f2d parseBlob fresh
                  argc argv)) =
  if negb (v_dims (vec r1) =? v_dims (vec r2)) then
    log2 ++ [Ext.sqlite3_result_error DimensionMismatch]
         ++ frees p2 (vec r2) ++ frees p1 (vec r1)
  else
    let (d, log3) := vectorDistanceCos env (vec r1) (vec r2) log2 in
    log3 ++ [Ext.sqlite3_result_double (f2d d)]
         ++ frees p2 (vec r2) ++ frees p1 (vec r1).
Proof.
  cbv zeta. intros Hargc Hp1 Hp2 Hr1 Hr2.
  unfold Ext.run, vectorDistanceCosFunc.
  replace (argc <? 2) with false by (symmetry; apply Z.ltb_ge; lia).
  unfold Ext.bind at 1.
  rewrite (vectorContextAlloc_ok VECTOR_TYPE_FLOAT32 [] Hp1).
  unfold Ext.bind at 1. cbn [app].
  fold contextVectorSize.
  rewrite (vectorContextAlloc_ok VECTOR_TYPE_FLOAT32
             [Ext.contextMalloc contextVectorSize] Hp2).
  fold contextVectorSize.
  match goal with
  | |- context [rc ?r <? 0] =>
      replace (rc r <? 0) with false by (symmetry; apply Z.ltb_ge; exact Hr1)
  end.
  match goal with
  | |- context [rc ?r <? 0] =>
      replace (rc r <? 0) with false by (symmetry; apply Z.ltb_ge; exact Hr2)
  end.
  match goal with
  | |- context [negb (?a =? ?b)] => destruct (negb (a =? b))
  end.
  - unfold Ext.bind, Ext.call, Ext.ret. rewrite !vectorFree_calls.
    cbn [snd app]. reflexivity.
  - unfold Ext.bind at 1.
    destruct (vectorDistanceCos env _ _ _) as [d log3].
    unfold Ext.bind, Ext.call, Ext.ret. rewrite !vectorFree_calls.
    cbn [snd]. rewrite <- ?app_assoc. reflexivity.
Qed.

End DistanceFacts.

Lemma frees_only_free p v c : In c (frees p v) -> c = Ext.sqlite3_free p.
Proof.
  unfold frees.
  destruct (negb (Z.land (v_flags v) VECTOR_FLAGS_STATIC =? 0)); cbn;
    intuition congruence.
Qed.

(** C6.  When both arguments of [vector_distance_cos] decode (the two
    vectors having been allocated): if the decoded dimension counts differ
    the function reports "vectors must have the same length" and makes no
    call to the distance computation and none to [sqlite3_result_double];
    if they agree it calls the cosine distance of the two vectors once and
    hands its value, widened to a double, to [sqlite3_result_double]. *)
Theorem vectorDistanceCosFunc_dimensions
    (env : Ext.Env) (atof : list ascii -> Z * f64) (d2f : f64 -> f32)
    (f2d : f32 -> f64)
    (parseBlob : sqlite3_value -> Vector -> option string -> ParseResult)
    (fresh : Z -> list f32) (argc : Z) (argv : list sqlite3_value) :
  let p1 := env [] (Ext.contextMalloc contextVectorSize) in
  let log1 := [Ext.contextMalloc contextVectorSize] in
  let p2 := env log1 (Ext.contextMalloc contextVectorSize) in
  let log2 := log1 ++ [Ext.contextMalloc contextVectorSize] in
  let r1 := vectorParse atof d2f parseBlob (nth 0 argv ValNull)
              (vectorInit VECTOR_TYPE_FLOAT32 MAX_VECTOR_SZ (fresh p1)) None in
  let r2 := vectorParse atof d2f parseBlob (nth 1 argv ValNull)
              (vectorInit VECTOR_TYPE_FLOAT32 MAX_VECTOR_SZ (fresh p2))
              (errMsg r1) in
  let calls := snd (Ext.run (vectorDistanceCosFunc env atof d2f f2d parseBlob
                               fresh argc argv)) in
  2 <= argc -> p1 <> 0 -> p2 <> 0 -> 0 <= rc r1 -> 0 <= rc r2 ->
  (v_dims (vec r1) <> v_dims (vec r2) ->
     calls = log2 ++ [Ext.sqlite3_result_error DimensionMismatch]
                  ++ frees p2 (vec r2) ++ frees p1 (vec r1) /\
     (forall a b, ~ In (Ext.vectorF32DistanceCos a b) calls) /\
     (forall d, ~ In (Ext.sqlite3_result_double d) calls)) /\
  (v_dims (vec r1) = v_dims (vec r2) ->
     v_type (vec r1) = VECTOR_TYPE_FLOAT32 ->
     let distance := Ext.vectorF32DistanceCos (vec r1) (vec r2) in
     calls = log2 ++ [distance; Ext.sqlite3_result_double (f2d (env log2 distance))]
                  ++ frees p2 (vec r2) ++ frees p1 (vec r1)).
Proof.
  cbv zeta. intros Hargc Hp1 Hp2 Hr1 Hr2.
  pose proof (vectorDistanceCosFunc_decoded env atof d2f f2d parseBlob fresh
                argc argv Hargc Hp1 Hp2 Hr1 Hr2) as Hcalls.
  cbv zeta in Hcalls. rewrite Hcalls. clear Hcalls. split.
  - intros Hne.
    replace (v_dims _ =? v_dims _) with false
      by (symmetry; apply Z.eqb_neq; exact Hne).
    cbn [negb]. split; [reflexivity|].
    split; [intros a b Hin | intros d Hin];
      cbn [app] in Hin;
      destruct Hin as [Hin|[Hin|[Hin|Hin]]]; try discriminate Hin;
      apply in_app_or in Hin as [Hin|Hin];
      apply frees_only_free in Hin; discriminate Hin.
  - intros Heq Hty.
    replace (v_dims _ =? v_dims _) with true
      by (symmetry; apply Z.eqb_eq; exact Heq).
    cbn [negb]. unfold vectorDistanceCos, Ext.call. rewrite Hty.
    cbn [Z.eqb VECTOR_TYPE_FLOAT32]. rewrite <- app_assoc. reflexivity.
Qed.

(** Two arguments of two and three elements, then two of two elements. *)
Lemma vectorDistanceCosFunc_dimensions_witness :
  let run x y :=
    snd (Ext.run (vectorDistanceCosFunc distanceEnv digitsAtoF (fun d => d)
                    (fun f => f) (fun _ v m => failed v m InvalidInputKind
                                                 (initialState v))
                    (fun _ => repeat 0 4) 2
                    [ValText (Some (CStr.of_string x));
                     ValText (Some (CStr.of_string y))])) in
  run "[1,0]"%string "[0,1,0]"%string
  = [Ext.contextMalloc contextVectorSize; Ext.contextMalloc contextVectorSize;
     Ext.sqlite3_result_error DimensionMismatch;
     Ext.sqlite3_free 4096; Ext.sqlite3_free 4096] /\
  exists v1 v2,
    v_dims v1 = 2 /\ v_dims v2 = 2 /\
    run "[1,0]"%string "[0,1]"%string
    = [Ext.contextMalloc contextVectorSize; Ext.contextMalloc contextVectorSize;
       Ext.vectorF32DistanceCos v1 v2; Ext.sqlite3_result_double 1065353216;
       Ext.sqlite3_free 4096; Ext.sqlite3_free 4096].
Proof.
  cbv zeta. split.
  - apply (proj1 (vectorDistanceCosFunc_dimensions distanceEnv digitsAtoF
             (fun d => d) (fun f => f)
             (fun _ v m => failed v m InvalidInputKind (initialState v))
             (fun _ => repeat 0 4) 2
             [ValText (Some (CStr.of_string "[1,0]"));
              ValText (Some (CStr.of_string "[0,1,0]"))]
             ltac:(discriminate) ltac:(discriminate) ltac:(discriminate)
             ltac:(discriminate) ltac:(discriminate))).
    discriminate.
  - eexists _, _. split; [|split].
    3: apply (proj2 (vectorDistanceCosFunc_dimensions distanceEnv digitsAtoF
             (fun d => d) (fun f => f)
             (fun _ v m => failed v m InvalidInputKind (initialState v))
             (fun _ => repeat 0 4) 2
             [ValText (Some (CStr.of_string "[1,0]"));
              ValText (Some (CStr.of_string "[0,1]"))]
             ltac:(discriminate) ltac:(discriminate) ltac:(discriminate)
             ltac:(discriminate) ltac:(discriminate))); reflexivity.
    all: reflexivity.
Defined.

(** ** Formatting an element: the claim *)

(** C9 (the code at every input).  Whatever the float and whatever the
    conversions and the C library do, [formatF32] leaves the caller's
    buffer [str] exactly as it was: the representation goes to the local
    [tmp], and only its length is returned. *)
Theorem formatF32_leaves_str
    (float_to_u64 : f32 -> Z) (u64_to_float : Z -> f32)
    (float_eq : f32 -> f32 -> bool)
    (format_lld : Z -> list ascii) (format_6e : f32 -> list ascii)
    (num : f32) (str tmp : list ascii) :
  let r := formatF32 float_to_u64 u64_to_float float_eq format_lld format_6e
             num str tmp in
  let text := if isInteger float_to_u64 u64_to_float float_eq num
              then format_lld (float_to_u64 num) else format_6e num in
  fmt_str r = str /\
  fmt_ret r = Z.of_nat (length text) /\
  fmt_tmp r = Blob.overwrite tmp (firstn 31 text ++ [CStr.NUL]).
Proof.
  cbv zeta. unfold formatF32, snprintf.
  destruct (isInteger float_to_u64 u64_to_float float_eq num);
    repeat split.
Qed.

(** An engine that cannot open the index: status 14 comes back. *)
Lemma vectorIndexCursorInit_status_witness :
  cannotOpen [] (Ext.sqlite3DbMallocZero 16) <> 0 /\
  Ext.run (vectorIndexCursorInit cannotOpen (fun _ _ => 0) "idx")
  = ((14, None), [Ext.sqlite3DbMallocZero 16; Ext.diskAnnOpenIndex "idx"]).
Proof.
  assert (Hp : cannotOpen [] (Ext.sqlite3DbMallocZero 16) <> 0)
    by discriminate.
  split; [exact Hp|].
  destruct (vectorIndexCursorInit_status cannotOpen (fun _ _ => 0) "idx" [] Hp)
    as [Hrc Hlog].
  unfold Ext.run.
  destruct (vectorIndexCursorInit cannotOpen (fun _ _ => 0) "idx" [])
    as [[status cur] calls] eqn:Hrun.
  cbn [fst snd] in Hrc, Hlog. subst status calls.
  assert (Hcur : cur = None) by (vm_compute in Hrun; congruence).
  rewrite Hcur. reflexivity.
Defined.

(** ** Text decoding: further properties *)

Section ParseMore.

Variable atof : list ascii -> Z * f64.
Variable d2f : f64 -> f32.

Import Literal.

(** The cases of one iteration of the loop on [c] in the state [st]. *)
Ltac iteration c st :=
  destruct ((c =? CStr.NUL)%char || (c =? "]")%char) eqn:Hstop;
  [ | destruct (Ctype.sqlite3Isspace c) eqn:Hspace;
      [ | destruct (negb (c =? ",")%char && negb (c =? "]")%char) eqn:Hplain;
          [ destruct (bufidx (pushChar c st) >? MAX_FLOAT_CHAR_SZ) eqn:Hfull
          | destruct (atof (pending st)) as [status el] eqn:Hatof;
            destruct (status <=? 0) eqn:Hbad;
            [ | cbv zeta in *;
                destruct (vecidx (pushElem d2f el (resetBuf st))
                            >=? MAX_VECTOR_SZ) eqn:Hmany ] ] ] ].

Lemma initial_buffered v : buffered [] (initialState v).
Proof.
  unfold buffered, initialState, zeroedBuf, MAX_FLOAT_CHAR_SZ; cbn.
  repeat split; try reflexivity; lia.
Qed.

(** The element count stays below [MAX_VECTOR_SZ] for as long as the loop
    runs. *)
Lemma parseLoop_vecidx z : forall st,
  0 <= vecidx st < MAX_VECTOR_SZ ->
  match parseLoop atof d2f z st with
  | LoopReturn _ _ => True
  | LoopExit _ st' => 0 <= vecidx st' < MAX_VECTOR_SZ
  end.
Proof.
  induction z as [|c z IH]; intros st Hv; cbn [parseLoop]; [assumption|].
  iteration c st; try exact I; try assumption.
  - apply IH; assumption.
  - apply IH; assumption.
  - rewrite Z.geb_leb in Hmany. apply Z.leb_gt in Hmany.
    apply IH. cbn [pushElem resetBuf vecidx] in *. lia.
Qed.

Lemma lastElement_vecidx st :
  0 <= vecidx st < MAX_VECTOR_SZ ->
  match lastElement atof d2f st with
  | inl _ => True
  | inr st1 => 0 <= vecidx st1 < MAX_VECTOR_SZ
  end.
Proof.
  intros Hv. unfold lastElement.
  destruct (negb (bufidx st =? 0)); [|assumption].
  destruct (atof (pending st)) as [status el].
  destruct (status <=? 0); [exact I|]. cbv zeta.
  destruct (vecidx (pushElem d2f el st) >=? MAX_VECTOR_SZ) eqn:Hmany;
    [exact I|].
  rewrite Z.geb_leb in Hmany. apply Z.leb_gt in Hmany.
  cbn [pushElem vecidx] in *. lia.
Qed.

(** Whatever the argument, [vectorParseText] ends in one of three ways: it
    returns -1 with a diagnostic and leaves [v->dims] as it was; or it
    returns a count in [0, MAX_VECTOR_SZ) that it has also stored in
    [v->dims]; or the text pointer was null and it returns 0 without
    touching the vector. *)
Theorem vectorParseText_outcome arg v msg :
  let r := vectorParseText atof d2f arg v msg in
  (rc r = -1 /\ zErr r <> None /\ v_dims (vec r) = v_dims v) \/
  (0 <= rc r < MAX_VECTOR_SZ /\ zErr r = None /\ v_dims (vec r) = rc r /\
   exists z, arg = ValText (Some z)) \/
  (arg = ValText None /\ rc r = 0 /\ zErr r = None /\ vec r = v).
Proof.
  cbv zeta.
  destruct arg as [i|d|[z|]|b|];
    try (left; cbn; repeat split; discriminate);
    [|right; right; cbn; auto].
  rewrite vectorParseText_scan.
  destruct (negb (CStr.cur (skipSpaces z) =? "[")%char);
    [left; cbn; repeat split; discriminate|].
  unfold scan.
  pose proof (parseLoop_vecidx (CStr.next (skipSpaces z)) (initialState v)
                ltac:(cbn; unfold MAX_VECTOR_SZ; lia)) as Hloop.
  destruct (parseLoop atof d2f _ _) as [e st|z' st];
    [left; cbn; repeat split; discriminate|].
  pose proof (lastElement_vecidx st Hloop) as Hlast.
  destruct (lastElement atof d2f st) as [[e st1]|st1];
    [left; cbn; repeat split; discriminate|].
  destruct (negb (CStr.cur z' =? "]")%char);
    [left; cbn; repeat split; discriminate|].
  right; left. cbn. repeat split; try lia. exists z. reflexivity.
Qed.

(** Text decoding leaves [*pzErrMsg] as it found it whenever the argument is
    a text: its diagnostics go to a local buffer only. *)
Lemma vectorParseText_keeps_msg oz v msg :
  errMsg (vectorParseText atof d2f (ValText oz) v msg) = msg.
Proof.
  destruct oz as [z|]; [|reflexivity].
  rewrite vectorParseText_scan.
  destruct (negb (CStr.cur (skipSpaces z) =? "[")%char); [reflexivity|].
  destruct (scan atof d2f _ _) as [[e st]|[z' st]]; [reflexivity|].
  destruct (negb (CStr.cur z' =? "]")%char); reflexivity.
Qed.

(** *** Where the decoded elements go *)

Lemma storeAll_middle xs : forall pre ys post,
  length ys = length xs ->
  storeAll (pre ++ ys ++ post) (Z.of_nat (length pre)) xs = pre ++ xs ++ post.
Proof.
  induction xs as [|x xs IH]; intros pre ys post Hlen.
  - destruct ys; [reflexivity|discriminate].
  - destruct ys as [|y ys]; [discriminate|]. cbn [length] in Hlen.
    cbn [storeAll app]. rewrite store_at_end.
    replace (Z.of_nat (length pre) + 1) with (Z.of_nat (length (pre ++ [x])))
      by (rewrite length_app; cbn [length]; lia).
    replace (pre ++ x :: ys ++ post) with ((pre ++ [x]) ++ ys ++ post)
      by (rewrite <- app_assoc; reflexivity).
    rewrite IH by lia. rewrite <- app_assoc. reflexivity.
Qed.

(** A literal of [n] valid elements, [n] below [MAX_VECTOR_SZ] and within the
    vector's buffer, is decoded into the first [n] floats of the buffer, in
    the order written; the floats after them are left as they were. *)
Theorem vectorParseText_data ws es tail v msg :
  forallb Ctype.sqlite3Isspace ws = true ->
  Forall (valid atof) es ->
  Z.of_nat (length es) < MAX_VECTOR_SZ ->
  (length es <= length (v_data v))%nat ->
  v_data (vec (vectorParseText atof d2f
                 (ValText (Some (ws ++ literal es ++ tail))) v msg))
  = map (value atof d2f) es ++ skipn (length es) (v_data v).
Proof.
  intros Hws Hes Hn Hcap.
  destruct (vectorParseText_valid atof d2f ws es tail v msg Hws Hes)
    as [Hok _].
  destruct (Hok Hn) as (_ & _ & _ & Hdata). rewrite Hdata.
  rewrite <- (firstn_skipn (length es) (v_data v)) at 1.
  apply (storeAll_middle (map (value atof d2f) es) []
           (firstn (length es) (v_data v)) (skipn (length es) (v_data v))).
  rewrite length_firstn, length_map. lia.
Qed.

(** *** White space *)

Lemma space_not_special c :
  Ctype.sqlite3Isspace c = true ->
  (c =? CStr.NUL)%char = false /\ (c =? "]")%char = false /\
  (c =? "[")%char = false.
Proof.
  intros Hc. repeat split; apply Ascii.eqb_neq; intros ->; discriminate Hc.
Qed.

Lemma parseLoop_significant z : forall st,
  sameExit (parseLoop atof d2f z st) (parseLoop atof d2f (significant z) st).
Proof.
  induction z as [|c z IH]; intros st.
  - cbn. auto.
  - rewrite significant_cons.
    destruct (Ctype.sqlite3Isspace c) eqn:Hc.
    + destruct (space_not_special c Hc) as (Hnul & Hclose & _).
      cbn [parseLoop]. rewrite Hnul, Hclose, Hc. cbn [orb]. apply IH.
    + cbn [parseLoop]. rewrite Hc.
      iteration c st; cbn [sameExit CStr.cur hd]; auto; discriminate.
Qed.

Lemma skipSpaces_significant z :
  (skipSpaces z = [] /\ significant z = []) \/
  (exists c z', skipSpaces z = c :: z' /\ Ctype.sqlite3Isspace c = false /\
                significant z = c :: significant z').
Proof.
  induction z as [|c z IH]; [left; auto|].
  rewrite significant_cons. cbn [skipSpaces].
  destruct (Ctype.sqlite3Isspace c) eqn:Hc; [exact IH|].
  right. exists c, z. auto.
Qed.

(** White space is ignored wherever it stands in the text, inside a number
    as well: a text decodes exactly as the text without its white space
    does, so that ["[1 2, 3]"] decodes as ["[12,3]"]. *)
Theorem vectorParseText_whitespace z v msg :
  vectorParseText atof d2f (ValText (Some z)) v msg =
  vectorParseText atof d2f (ValText (Some (significant z))) v msg.
Proof.
  unfold vectorParseText.
  destruct (skipSpaces_significant z) as [[Hz Hs]|(c & z' & Hz & Hc & Hs)].
  - rewrite Hz, Hs. reflexivity.
  - rewrite Hz, Hs. rewrite (skipSpaces_stop c (significant z') Hc).
    cbn [CStr.cur CStr.next hd tl].
    destruct (negb (c =? "[")%char); [reflexivity|].
    pose proof (parseLoop_significant z'
                  {| elBuf := zeroedBuf; bufidx := 0; elems := v_data v;
                     vecidx := 0; writes := [] |}) as Hsame.
    destruct (parseLoop atof d2f z' _) as [e st|y st];
      destruct (parseLoop atof d2f (significant z') _) as [e' st'|y' st'];
      cbn in Hsame; try contradiction; destruct Hsame as [H1 H2]; subst.
    + reflexivity.
    + destruct (lastElement atof d2f st') as [[e st1]|st1]; [reflexivity|].
      rewrite H1. reflexivity.
Qed.

(** *** Elements followed by a separator *)

(** The loop over elements that are each followed by a comma converts and
    stores every one of them and comes back with an empty buffer. *)
Lemma parseLoop_terminated es : forall rest st,
  Forall (valid atof) es ->
  buffered [] st ->
  0 <= vecidx st ->
  vecidx st + Z.of_nat (length es) < MAX_VECTOR_SZ ->
  exists st',
    parseLoop atof d2f (terminated es ++ rest) st = parseLoop atof d2f rest st' /\
    buffered [] st' /\
    vecidx st' = vecidx st + Z.of_nat (length es) /\
    elems st' = storeAll (elems st) (vecidx st) (map (value atof d2f) es).
Proof.
  induction es as [|e es IH]; intros rest st Hall Hbuf Hv Hmax.
  - exists st. split; [reflexivity|]. split; [exact Hbuf|].
    split; [cbn; lia | reflexivity].
  - inversion Hall as [|e' es' He Hes]; subst e' es'.
    destruct (valid_fits atof e He) as [Hchars Hfit].
    unfold terminated. cbn [flat_map]. fold (terminated es).
    rewrite <- !app_assoc. cbn [app].
    destruct (parseLoop_element atof d2f e
                (","%char :: terminated es ++ rest) st [] Hchars Hbuf Hfit)
      as (st1 & Heq & Hbuf1 & Hel1 & Hv1).
    cbn [app] in Hbuf1.
    destruct (convert_valid atof d2f e st1 He Hbuf1)
      as (status & el & Ha & Hs & Hval & _).
    rewrite Heq, parseLoop_comma, Ha, Hs. cbv zeta.
    set (st2 := pushElem d2f el (resetBuf st1)).
    assert (Hv2 : vecidx st2 = vecidx st + 1) by (cbn; lia).
    cbn [length] in Hmax.
    replace (vecidx st2 >=? MAX_VECTOR_SZ) with false
      by (symmetry; rewrite Z.geb_leb; apply Z.leb_gt; lia).
    destruct (IH rest st2 Hes (buffered_reset d2f st1 el))
      as (st' & Heq' & Hbuf' & Hv' & Hel'); [lia | lia |].
    exists st'. rewrite Heq'.
    split; [reflexivity|]. split; [exact Hbuf'|]. split.
    + cbn [length]. lia.
    + rewrite Hel'. cbn [map storeAll]. rewrite Hv2.
      subst st2. cbn [pushElem resetBuf elems vecidx].
      rewrite Hel1, Hv1, Hval. reflexivity.
Qed.

(** A separator before the closing bracket is accepted: the text
    [[e1,...,en,]] of [n < MAX_VECTOR_SZ] valid elements, each followed by a
    comma, decodes successfully as a vector of [n] dimensions holding the
    [n] elements. *)
Theorem vectorParseText_trailing_comma es tail v msg :
  Forall (valid atof) es ->
  Z.of_nat (length es) < MAX_VECTOR_SZ ->
  let r := vectorParseText atof d2f
             (ValText (Some ("["%char :: terminated es ++ "]"%char :: tail)))
             v msg in
  rc r = Z.of_nat (length es) /\ v_dims (vec r) = Z.of_nat (length es) /\
  zErr r = None /\
  v_data (vec r) = storeAll (v_data v) 0 (map (value atof d2f) es).
Proof.
  intros Hes Hn. cbv zeta.
  rewrite vectorParseText_scan. rewrite skipSpaces_stop by reflexivity.
  cbn [CStr.cur CStr.next hd tl]. cbn [Ascii.eqb Bool.eqb negb andb].
  destruct (parseLoop_terminated es ("]"%char :: tail) (initialState v) Hes
              (initial_buffered v) ltac:(cbn; lia) ltac:(cbn; lia))
    as (st' & Heq & Hbuf & Hv & Hel).
  unfold scan. rewrite Heq.
  rewrite (parseLoop_stops atof d2f _ st') by (right; reflexivity).
  unfold lastElement. destruct Hbuf as (_ & Hidx & _). rewrite Hidx.
  cbn [length Z.of_nat Z.eqb negb].
  cbn [CStr.cur hd Ascii.eqb Bool.eqb negb andb].
  cbn [rc vec zErr withDims withData v_dims v_data].
  cbn in Hv, Hel. rewrite Hv, Hel. auto.
Qed.

(** *** Elements that are refused *)

(** An element that [sqlite3AtoF] does not accept makes the call fail with
    "invalid number" as soon as its separator is read, or, when it is the
    last element and not empty, once the scan is over. *)
Theorem vectorParseText_invalid_number es e rest v msg :
  Forall (valid atof) es ->
  Z.of_nat (length es) < MAX_VECTOR_SZ ->
  forallb elemChar e = true ->
  Z.of_nat (length (significant e)) <= MAX_FLOAT_CHAR_SZ ->
  fst (atof (significant e)) <= 0 ->
  let parse z := vectorParseText atof d2f (ValText (Some z)) v msg in
  (rc (parse ("["%char :: terminated es ++ e ++ ","%char :: rest)) = -1 /\
   zErr (parse ("["%char :: terminated es ++ e ++ ","%char :: rest))
     = Some InvalidNumber) /\
  (significant e <> [] -> stops rest ->
   rc (parse ("["%char :: terminated es ++ e ++ rest)) = -1 /\
   zErr (parse ("["%char :: terminated es ++ e ++ rest))
     = Some InvalidNumber).
Proof.
  intros Hes Hn Hchars Hlen Hbad. cbv zeta.
  assert (Hstart : forall z,
            exists st1,
              scan atof d2f (terminated es ++ e ++ z) (initialState v)
              = scan atof d2f z st1 /\ buffered (significant e) st1).
  { intros z.
    destruct (parseLoop_terminated es (e ++ z) (initialState v) Hes
                (initial_buffered v) ltac:(cbn; lia) ltac:(cbn; lia))
      as (st' & Heq & Hbuf & _).
    destruct (parseLoop_element atof d2f e z st' [] Hchars Hbuf
                ltac:(cbn; exact Hlen)) as (st1 & Heq1 & Hbuf1 & _).
    exists st1. unfold scan. rewrite Heq, Heq1. auto. }
  assert (Hpend : forall st1, buffered (significant e) st1 ->
            exists el, atof (pending st1) = (fst (atof (significant e)), el)).
  { intros st1 Hb. rewrite (buffered_pending _ _ Hb).
    destruct (atof (significant e)) as [s el]. exists el. reflexivity. }
  split.
  - rewrite vectorParseText_scan. rewrite skipSpaces_stop by reflexivity.
    cbn [CStr.cur CStr.next hd tl]. cbn [Ascii.eqb Bool.eqb negb andb].
    destruct (Hstart (","%char :: rest)) as (st1 & Heq & Hbuf1).
    rewrite Heq. unfold scan. rewrite parseLoop_comma.
    destruct (Hpend st1 Hbuf1) as [el Ha]. rewrite Ha.
    replace (fst (atof (significant e)) <=? 0) with true
      by (symmetry; apply Z.leb_le; exact Hbad).
    cbn. auto.
  - intros Hne Hstop.
    rewrite vectorParseText_scan. rewrite skipSpaces_stop by reflexivity.
    cbn [CStr.cur CStr.next hd tl]. cbn [Ascii.eqb Bool.eqb negb andb].
    destruct (Hstart rest) as (st1 & Heq & Hbuf1).
    rewrite Heq. unfold scan. rewrite (parseLoop_stops atof d2f _ st1 Hstop).
    unfold lastElement.
    destruct (Hpend st1 Hbuf1) as [el Ha]. rewrite Ha.
    destruct Hbuf1 as (_ & Hidx & _). rewrite Hidx.
    replace (Z.of_nat (length (significant e)) =? 0) with false
      by (symmetry; apply Z.eqb_neq; destruct (significant e);
          [congruence | cbn; lia]).
    replace (fst (atof (significant e)) <=? 0) with true
      by (symmetry; apply Z.leb_le; exact Hbad).
    cbn. auto.
Qed.

(** Scanning an element with more significant characters than the buffer
    has room for ends with the "float too big" return. *)
Lemma parseLoop_too_long e : forall rest st acc,
  forallb elemChar e = true ->
  buffered acc st ->
  MAX_FLOAT_CHAR_SZ < Z.of_nat (length acc + length (significant e)) ->
  exists st', parseLoop atof d2f (e ++ rest) st = LoopReturn ElementTooLong st'.
Proof.
  induction e as [|c e IH]; intros rest st acc Hchars Hbuf Hlen.
  - destruct Hbuf as (Hl & _). cbn in Hlen. lia.
  - cbn [forallb] in Hchars. apply andb_true_iff in Hchars as [Hc Hchars].
    apply elemChar_inv in Hc as (Hnul & Hclose & Hcomma).
    cbn [app parseLoop]. rewrite significant_cons in Hlen.
    rewrite Hnul, Hclose, Hcomma. cbn [orb negb andb].
    destruct (Ctype.sqlite3Isspace c) eqn:Hsp; [eauto|].
    cbn [length] in Hlen.
    destruct (Z.ltb_spec (Z.of_nat (length acc)) MAX_FLOAT_CHAR_SZ) as [Hroom|Hfull].
    + pose proof (buffered_pushChar acc st c Hbuf Hroom) as Hbuf1.
      destruct Hbuf1 as (Hl1 & Hi1 & Hb1).
      replace (bufidx (pushChar c st) >? MAX_FLOAT_CHAR_SZ) with false
        by (symmetry; rewrite Z.gtb_ltb; apply Z.ltb_ge; rewrite Hi1; exact Hl1).
      apply (IH rest (pushChar c st) (acc ++ [c]) Hchars).
      * repeat split; assumption.
      * rewrite length_app; cbn [length]. lia.
    + destruct Hbuf as (Hl & Hidx & _).
      replace (bufidx (pushChar c st) >? MAX_FLOAT_CHAR_SZ) with true
        by (symmetry; rewrite Z.gtb_ltb; apply Z.ltb_lt;
            cbn [pushChar bufidx]; lia).
      eauto.
Qed.

(** An element of more than [MAX_FLOAT_CHAR_SZ] significant characters makes
    the call fail with "float too big", wherever it stands among valid
    elements and whatever follows it. *)
Theorem vectorParseText_element_too_long es e rest v msg :
  Forall (valid atof) es ->
  Z.of_nat (length es) < MAX_VECTOR_SZ ->
  forallb elemChar e = true ->
  MAX_FLOAT_CHAR_SZ < Z.of_nat (length (significant e)) ->
  let r := vectorParseText atof d2f
             (ValText (Some ("["%char :: terminated es ++ e ++ rest))) v msg in
  rc r = -1 /\ zErr r = Some ElementTooLong /\ v_dims (vec r) = v_dims v.
Proof.
  intros Hes Hn Hchars Hlen. cbv zeta.
  unfold vectorParseText. rewrite skipSpaces_stop by reflexivity.
  cbn [CStr.cur CStr.next hd tl]. cbn [Ascii.eqb Bool.eqb negb andb].
  destruct (parseLoop_terminated es (e ++ rest) (initialState v) Hes
              (initial_buffered v) ltac:(cbn; lia) ltac:(cbn; lia))
    as (st' & Heq & Hbuf & _).
  fold (initialState v). rewrite Heq.
  destruct (parseLoop_too_long e rest st' [] Hchars Hbuf
              ltac:(cbn [length Nat.add]; exact Hlen)) as (st1 & Heq1).
  rewrite Heq1. cbn. auto.
Qed.

End ParseMore.

(** A space, the literal of 1, 22 and 333, and a tail; the buffer holds
    five floats. *)
Lemma vectorParseText_data_witness :
  let es := map CStr.of_string ["1"; "22"; "333"]%string in
  let v := vectorInit VECTOR_TYPE_FLOAT32 MAX_VECTOR_SZ (repeat 9 5) in
  Forall (Literal.valid digitsAtoF) es /\
  v_data (vec (vectorParseText digitsAtoF (fun d => d)
                 (ValText (Some (CStr.of_string " [1,22,333]xyz"))) v None))
  = [1; 2; 3; 9; 9].
Proof.
  assert (Hes : Forall (Literal.valid digitsAtoF)
                  (map CStr.of_string ["1"; "22"; "333"]%string)).
  { repeat constructor; try discriminate. }
  split; [exact Hes|].
  apply (vectorParseText_data digitsAtoF (fun d => d) (CStr.of_string " ")
           (map CStr.of_string ["1"; "22"; "333"]%string)
           (CStr.of_string "xyz")
           (vectorInit VECTOR_TYPE_FLOAT32 MAX_VECTOR_SZ (repeat 9 5)) None
           eq_refl Hes eq_refl).
  cbn. lia.
Defined.

(** The text [[1,22,]]. *)
Lemma vectorParseText_trailing_comma_witness :
  let es := map CStr.of_string ["1"; "22"]%string in
  let r := vectorParseText digitsAtoF (fun d => d)
             (ValText (Some (CStr.of_string "[1,22,]")))
             (vectorInit VECTOR_TYPE_FLOAT32 MAX_VECTOR_SZ (repeat 9 5)) None in
  Forall (Literal.valid digitsAtoF) es /\
  rc r = 2 /\ v_dims (vec r) = 2 /\ zErr r = None /\
  v_data (vec r) = [1; 2; 9; 9; 9].
Proof.
  assert (Hes : Forall (Literal.valid digitsAtoF)
                  (map CStr.of_string ["1"; "22"]%string)).
  { repeat constructor; try discriminate. }
  split; [exact Hes|].
  apply (vectorParseText_trailing_comma digitsAtoF (fun d => d)
           (map CStr.of_string ["1"; "22"]%string) []
           (vectorInit VECTOR_TYPE_FLOAT32 MAX_VECTOR_SZ (repeat 9 5)) None
           Hes eq_refl).
Defined.

(** The texts [[1,,2]], whose second element is empty, and [[1,x]]. *)
Lemma vectorParseText_invalid_number_witness :
  let parse s := vectorParseText digitsAtoF (fun d => d)
                   (ValText (Some (CStr.of_string s)))
                   (vectorInit VECTOR_TYPE_FLOAT32 MAX_VECTOR_SZ (repeat 9 5))
                   None in
  Forall (Literal.valid digitsAtoF) [CStr.of_string "1"] /\
  fst (digitsAtoF (Literal.significant [])) <= 0 /\
  fst (digitsAtoF (Literal.significant (CStr.of_string "x"))) <= 0 /\
  zErr (parse "[1,,2]"%string) = Some InvalidNumber /\
  zErr (parse "[1,x]"%string) = Some InvalidNumber.
Proof.
  cbv zeta.
  assert (Hes : Forall (Literal.valid digitsAtoF) [CStr.of_string "1"]).
  { repeat constructor; try discriminate. }
  assert (H0 : fst (digitsAtoF (Literal.significant [])) <= 0)
    by discriminate.
  assert (Hx : fst (digitsAtoF (Literal.significant (CStr.of_string "x"))) <= 0)
    by discriminate.
  split; [exact Hes|]. split; [exact H0|]. split; [exact Hx|]. split.
  - apply (proj1 (vectorParseText_invalid_number digitsAtoF (fun d => d)
             [CStr.of_string "1"] [] (CStr.of_string "2]")
             (vectorInit VECTOR_TYPE_FLOAT32 MAX_VECTOR_SZ (repeat 9 5)) None
             Hes eq_refl eq_refl ltac:(discriminate) H0)).
  - apply (proj2 (vectorParseText_invalid_number digitsAtoF (fun d => d)
             [CStr.of_string "1"] (CStr.of_string "x") (CStr.of_string "]")
             (vectorInit VECTOR_TYPE_FLOAT32 MAX_VECTOR_SZ (repeat 9 5)) None
             Hes eq_refl eq_refl ltac:(discriminate) Hx)).
    + discriminate.
    + right. reflexivity.
Defined.

(** The text [[1,] followed by 1025 digits and a closing bracket. *)
Lemma vectorParseText_element_too_long_witness :
  let e := repeat "7"%char 1025 in
  let r := vectorParseText digitsAtoF (fun d => d)
             (ValText (Some ("["%char :: terminated [CStr.of_string "1"]
                               ++ e ++ ["]"%char])))
             (vectorInit VECTOR_TYPE_FLOAT32 MAX_VECTOR_SZ (repeat 9 5)) None in
  Forall (Literal.valid digitsAtoF) [CStr.of_string "1"] /\
  MAX_FLOAT_CHAR_SZ < Z.of_nat (length (Literal.significant e)) /\
  rc r = -1 /\ zErr r = Some ElementTooLong /\ v_dims (vec r) = MAX_VECTOR_SZ.
Proof.
  cbv zeta.
  assert (Hes : Forall (Literal.valid digitsAtoF) [CStr.of_string "1"]).
  { repeat constructor; try discriminate. }
  assert (Hlen : MAX_FLOAT_CHAR_SZ
                 < Z.of_nat (length (Literal.significant (repeat "7"%char 1025))))
    by (vm_compute; reflexivity).
  split; [exact Hes|]. split; [exact Hlen|].
  apply (vectorParseText_element_too_long digitsAtoF (fun d => d)
           [CStr.of_string "1"] (repeat "7"%char 1025) ["]"%char]
           (vectorInit VECTOR_TYPE_FLOAT32 MAX_VECTOR_SZ (repeat 9 5)) None
           Hes eq_refl ltac:(vm_compute; reflexivity) Hlen).
Defined.

(** ** Text decoding: texts that are never closed *)

Section Unclosed.

Variable atof : list ascii -> Z * f64.
Variable d2f : f64 -> f32.

Import Literal.

(** A text is its comma-ended elements followed by the pending one. *)
Lemma fields_terminated z :
  z = terminated (fst (fields z)) ++ snd (fields z).
Proof.
  induction z as [|c z IH]; [reflexivity|].
  cbn [fields]. destruct (fields z) as [es e]. cbn [fst snd] in IH.
  destruct (Ascii.eqb_spec c ","%char) as [->|Hc].
  - cbn [fst snd]. unfold terminated. cbn [flat_map app].
    fold (terminated es). rewrite <- IH. reflexivity.
  - destruct es as [|e0 es]; cbn [fst snd].
    + cbn in IH. cbn. rewrite <- IH. reflexivity.
    + unfold terminated in *. cbn [flat_map] in *.
      rewrite <- !app_assoc in *. cbn [app] in *. f_equal. exact IH.
Qed.

(** In a text without end-of-string and closing bracket, the elements are
    made of element characters. *)
Lemma fields_elemChar z :
  ~ In CStr.NUL z -> ~ In "]"%char z ->
  Forall (fun e => forallb elemChar e = true) (fst (fields z)) /\
  forallb elemChar (snd (fields z)) = true.
Proof.
  induction z as [|c z IH]; intros Hnul Hclose; [split; [constructor|reflexivity]|].
  destruct IH as [IHes IHe].
  { intros H. apply Hnul. right. exact H. }
  { intros H. apply Hclose. right. exact H. }
  cbn [fields]. destruct (fields z) as [es e]. cbn [fst snd] in *.
  destruct (Ascii.eqb_spec c ","%char) as [->|Hc].
  - cbn [fst snd]. split; [constructor; [reflexivity | exact IHes] | exact IHe].
  - assert (Hchar : elemChar c = true).
    { unfold elemChar.
      replace (c =? CStr.NUL)%char with false
        by (symmetry; apply Ascii.eqb_neq; intros ->; apply Hnul; left;
            reflexivity).
      replace (c =? "]")%char with false
        by (symmetry; apply Ascii.eqb_neq; intros ->; apply Hclose; left;
            reflexivity).
      replace (c =? ",")%char with false
        by (symmetry; apply Ascii.eqb_neq; exact Hc).
      reflexivity. }
    destruct es as [|e0 es]; cbn [fst snd].
    + split; [constructor|]. cbn [forallb]. rewrite Hchar, IHe. reflexivity.
    + inversion IHes as [|? ? He0 Hes]; subst.
      split; [|exact IHe]. constructor; [|exact Hes].
      cbn [forallb]. rewrite Hchar, He0. reflexivity.
Qed.

(** A text is what is visible of it followed by its end. *)
Lemma visible_split z :
  exists rest,
    z = CStr.visible z ++ rest /\ CStr.cur rest = CStr.NUL /\
    ~ In CStr.NUL (CStr.visible z).
Proof.
  induction z as [|c z (rest & Heq & Hcur & Hnul)].
  - exists []. repeat split. intros [].
  - cbn [CStr.visible]. destruct (Ascii.eqb_spec c CStr.NUL) as [->|Hc].
    + exists (CStr.NUL :: z). repeat split. intros [].
    + exists rest. cbn [app]. rewrite <- Heq. repeat split; [exact Hcur|].
      intros [H|H]; [exact (Hc H) | exact (Hnul H)].
Qed.

(** The loop over elements that a comma ends: it is left by the first
    check that trips, and otherwise goes on after them with an empty
    buffer. *)
Lemma parseLoop_fields es : forall rest st,
  Forall (fun e => forallb elemChar e = true) es ->
  buffered [] st ->
  0 <= vecidx st < MAX_VECTOR_SZ ->
  match firstError atof (vecidx st) es with
  | Some err =>
      exists st',
        parseLoop atof d2f (terminated es ++ rest) st = LoopReturn err st'
  | None =>
      exists st',
        parseLoop atof d2f (terminated es ++ rest) st
        = parseLoop atof d2f rest st' /\
        buffered [] st' /\
        vecidx st' = vecidx st + Z.of_nat (length es) /\
        vecidx st' < MAX_VECTOR_SZ
  end.
Proof.
  induction es as [|e es IH]; intros rest st Hes Hbuf Hn.
  - cbn [firstError]. exists st. split; [reflexivity|].
    split; [exact Hbuf|]. cbn [length Z.of_nat]. lia.
  - inversion Hes as [|? ? He Hes']; subst.
    cbn [firstError]. unfold elementError.
    unfold terminated. cbn [flat_map]. fold (terminated es).
    rewrite <- !app_assoc. cbn [app].
    destruct (Z.ltb_spec MAX_FLOAT_CHAR_SZ (Z.of_nat (length (significant e))))
      as [Hlong|Hfit].
    + apply (parseLoop_too_long atof d2f e _ st [] He Hbuf).
      cbn [length Nat.add]. exact Hlong.
    + destruct (parseLoop_element atof d2f e
                  (","%char :: terminated es ++ rest) st [] He Hbuf
                  ltac:(cbn [length Nat.add]; exact Hfit))
        as (st1 & Hrun & Hbuf1 & _ & Hv1).
      cbn [app] in Hbuf1.
      rewrite Hrun, parseLoop_comma, (buffered_pending _ _ Hbuf1).
      destruct (atof (significant e)) as [status el]. cbn [fst].
      destruct (status <=? 0); [exists st1; reflexivity|].
      cbv zeta.
      set (st2 := pushElem d2f el (resetBuf st1)).
      assert (Hv2 : vecidx st2 = vecidx st + 1) by (cbn; lia).
      rewrite Hv2.
      destruct (vecidx st + 1 >=? MAX_VECTOR_SZ) eqn:Hmany;
        [exists st2; reflexivity|].
      rewrite Z.geb_leb in Hmany. apply Z.leb_gt in Hmany.
      specialize (IH rest st2 Hes' (buffered_reset d2f st1 el)
                    ltac:(rewrite Hv2; lia)).
      rewrite Hv2 in IH.
      destruct (firstError atof (vecidx st + 1) es) as [err|].
      * exact IH.
      * destruct IH as (st' & Heq & Hbuf' & Hv' & Hmax).
        exists st'. split; [exact Heq|]. split; [exact Hbuf'|].
        cbn [length]. lia.
Qed.

(** The scan of a text that is never closed ends with the error of the
    first element check that trips, and otherwise comes back at the end of
    the text. *)
Lemma scan_unclosed es e rest v :
  Forall (fun e => forallb elemChar e = true) es ->
  forallb elemChar e = true ->
  CStr.cur rest = CStr.NUL ->
  match scan atof d2f (terminated es ++ e ++ rest) (initialState v) with
  | inl (err, _) => err = unclosedError atof (es, e)
  | inr (z', _) => z' = rest /\ unclosedError atof (es, e) = UnterminatedLiteral
  end.
Proof.
  intros Hes He Hrest.
  pose proof (parseLoop_fields es (e ++ rest) (initialState v) Hes
                (initial_buffered v) ltac:(cbn; unfold MAX_VECTOR_SZ; lia))
    as Hloop.
  unfold unclosedError, scan.
  change (vecidx (initialState v)) with 0 in Hloop.
  destruct (firstError atof 0 es) as [err|].
  - destruct Hloop as (st' & ->). reflexivity.
  - destruct Hloop as (st' & -> & Hbuf & Hv & Hmax). cbn [Z.add] in Hv.
    unfold elementError.
    destruct (Z.ltb_spec MAX_FLOAT_CHAR_SZ (Z.of_nat (length (significant e))))
      as [Hlong|Hfit].
    + destruct (parseLoop_too_long atof d2f e rest st' [] He Hbuf
                  ltac:(cbn [length Nat.add]; exact Hlong)) as (st1 & ->).
      destruct (significant e) as [|c s] eqn:Hsig; [|reflexivity].
      rewrite ?Hsig in Hlong. cbn [length Z.of_nat] in Hlong.
      unfold MAX_FLOAT_CHAR_SZ in Hlong. lia.
    + destruct (parseLoop_element atof d2f e rest st' [] He Hbuf
                  ltac:(cbn [length Nat.add]; exact Hfit))
        as (st1 & -> & Hbuf1 & _ & Hv1).
      cbn [app] in Hbuf1.
      rewrite (parseLoop_stops atof d2f rest st1) by (left; exact Hrest).
      unfold lastElement. rewrite (buffered_pending _ _ Hbuf1).
      destruct Hbuf1 as (_ & Hidx & _). rewrite Hidx.
      destruct (significant e) as [|c s] eqn:Hsig.
      * cbn [length Z.of_nat Z.eqb negb]. auto.
      * replace (Z.of_nat (length (c :: s)) =? 0) with false
          by (symmetry; apply Z.eqb_neq; cbn [length]; lia).
        cbn [negb].
        destruct (atof (c :: s)) as [status el]. cbn [fst].
        destruct (status <=? 0); [reflexivity|].
        cbv zeta. cbn [pushElem vecidx]. rewrite Hv1, Hv.
        destruct (Z.of_nat (length es) + 1 >=? MAX_VECTOR_SZ);
          [reflexivity | auto].
Qed.

(** The element checks run before the test for the closing bracket: a text
    that opens with a bracket and is never closed fails with the error of
    the first of them that trips, or with [UnterminatedLiteral]. *)
Lemma vectorParseText_unclosed ws body v msg :
  forallb Ctype.sqlite3Isspace ws = true ->
  ~ In "]"%char (CStr.visible body) ->
  let r := vectorParseText atof d2f
             (ValText (Some (ws ++ "["%char :: body))) v msg in
  rc r = -1 /\
  zErr r = Some (unclosedError atof (fields (CStr.visible body))).
Proof.
  intros Hws Hclose. cbv zeta.
  rewrite vectorParseText_scan, skipSpaces_spaces by assumption.
  rewrite skipSpaces_stop by reflexivity.
  cbn [CStr.cur CStr.next hd tl]. cbn [Ascii.eqb Bool.eqb negb andb].
  destruct (visible_split body) as (rest & Hbody & Hrest & Hnul).
  destruct (fields_elemChar _ Hnul Hclose) as [Hes He].
  pose proof (fields_terminated (CStr.visible body)) as Hfields.
  destruct (fields (CStr.visible body)) as [es e]. cbn [fst snd] in *.
  pose proof (scan_unclosed es e rest v Hes He Hrest) as Hscan.
  assert (Hall : body = terminated es ++ e ++ rest)
    by (rewrite app_assoc, <- Hfields; exact Hbody).
  rewrite Hall.
  destruct (scan atof d2f (terminated es ++ e ++ rest) (initialState v))
    as [[err st]|[z' st]].
  - subst err. cbn [failed rc zErr]. auto.
  - destruct Hscan as [-> Herr]. rewrite Hrest, Herr.
    cbn [Ascii.eqb Bool.eqb negb andb failed rc zErr]. auto.
Qed.

End Unclosed.

(** C7 (as amended).  After any leading white space: (1) a text whose first
    other character is not an opening bracket fails with MalformedLiteral;
    (2) a text that opens with a bracket and contains no closing bracket
    always fails, and its error is that of the first element check that
    trips: the elements, that is the runs between commas up to the end of
    the text, are checked in order, each for its length (ElementTooLong),
    then its conversion (InvalidNumber), then the count (TooManyDimensions),
    an element pending at the end being checked only when it is not empty;
    the error is UnterminatedLiteral when no check trips; (3) so it is
    UnterminatedLiteral whenever the elements are valid and fewer than
    [MAX_VECTOR_SZ], that is for a well-formed literal whose closing bracket
    alone is missing. *)
Theorem vectorParseText_brackets
    (atof : list ascii -> Z * f64) (d2f : f64 -> f32)
    (ws : list ascii) (v : Vector) (msg : option string) :
  forallb Ctype.sqlite3Isspace ws = true ->
  let parse z := vectorParseText atof d2f (ValText (Some z)) v msg in
  (forall c rest,
     Ctype.sqlite3Isspace c = false -> c <> "["%char ->
     rc (parse (ws ++ c :: rest)) = -1 /\
     zErr (parse (ws ++ c :: rest)) = Some MalformedLiteral) /\
  (forall body,
     ~ In "]"%char (CStr.visible body) ->
     let r := parse (ws ++ "["%char :: body) in
     rc r = -1 /\
     zErr r = Some (unclosedError atof (fields (CStr.visible body)))) /\
  (forall es,
     Forall (Literal.valid atof) es ->
     Z.of_nat (length es) < MAX_VECTOR_SZ ->
     zErr (parse (ws ++ "["%char :: Literal.join es))
       = Some UnterminatedLiteral).
Proof.
  intros Hws parse. subst parse. cbv beta. split; [|split].
  - intros c rest Hc Hne. unfold vectorParseText.
    rewrite skipSpaces_spaces, skipSpaces_stop by assumption.
    cbn [CStr.cur hd].
    replace (c =? "[")%char with false
      by (symmetry; apply Ascii.eqb_neq; exact Hne).
    cbn. auto.
  - intros body Hbody.
    exact (vectorParseText_unclosed atof d2f ws body v msg Hws Hbody).
  - intros es Hes Hn.
    rewrite vectorParseText_scan, skipSpaces_spaces by assumption.
    rewrite skipSpaces_stop by reflexivity.
    cbn [CStr.cur CStr.next hd tl]. cbn [Ascii.eqb Bool.eqb negb andb].
    rewrite <- (app_nil_r (Literal.join es)).
    assert (Hbuf : Literal.buffered [] (initialState v)).
    { unfold Literal.buffered, initialState, zeroedBuf, MAX_FLOAT_CHAR_SZ; cbn.
      repeat split; try reflexivity; lia. }
    pose proof (scan_join atof d2f es [] (initialState v) Hes Hbuf
                  ltac:(cbn; unfold MAX_VECTOR_SZ; lia)
                  ltac:(left; reflexivity)) as Hscan.
    destruct (scan atof d2f (Literal.join es ++ []) (initialState v))
      as [[e st]|[z st]].
    + destruct Hscan as [_ Hmax]. cbn in Hmax. lia.
    + destruct Hscan as (-> & _). reflexivity.
Qed.

(** A space, then [x]; and, after a space and a bracket that is never
    closed: two numbers, a number and a letter, a comma with nothing after
    it, and a first element of 1025 digits before a letter. *)
Lemma vectorParseText_brackets_witness :
  let v := vectorInit VECTOR_TYPE_FLOAT32 MAX_VECTOR_SZ (repeat 0 4) in
  let parse z := vectorParseText digitsAtoF (fun d => d)
                   (ValText (Some z)) v None in
  forallb Ctype.sqlite3Isspace (CStr.of_string " ") = true /\
  zErr (parse (CStr.of_string " x[1]")) = Some MalformedLiteral /\
  zErr (parse (CStr.of_string " [1,2")) = Some UnterminatedLiteral /\
  zErr (parse (CStr.of_string " [1,x")) = Some InvalidNumber /\
  zErr (parse (CStr.of_string " [1,")) = Some UnterminatedLiteral /\
  zErr (parse (CStr.of_string " [" ++ repeat "7"%char 1025
                 ++ CStr.of_string ",x"))
    = Some ElementTooLong.
Proof.
  cbv zeta.
  destruct (vectorParseText_brackets digitsAtoF (fun d => d)
              (CStr.of_string " ")
              (vectorInit VECTOR_TYPE_FLOAT32 MAX_VECTOR_SZ (repeat 0 4))
              None eq_refl) as (Hopen & Hbody & Hclose).
  assert (Hno : forall z, forallb (fun c => negb (c =? "]")%char) z = true ->
                          ~ In "]"%char z).
  { intros z Hz Hin. rewrite forallb_forall in Hz. specialize (Hz _ Hin).
    discriminate. }
  split; [reflexivity|]. split; [|split; [|split; [|split]]].
  - apply (Hopen "x"%char (CStr.of_string "[1]")); [reflexivity|discriminate].
  - apply (Hclose (map CStr.of_string ["1"; "2"]%string)).
    + repeat constructor; try discriminate.
    + reflexivity.
  - exact (proj2 (Hbody (CStr.of_string "1,x")
                     (Hno (CStr.visible (CStr.of_string "1,x")) eq_refl))).
  - exact (proj2 (Hbody (CStr.of_string "1,")
                     (Hno (CStr.visible (CStr.of_string "1,")) eq_refl))).
  - exact (eq_trans
             (proj2 (Hbody (repeat "7"%char 1025 ++ CStr.of_string ",x")
                       (Hno (CStr.visible (repeat "7"%char 1025
                                             ++ CStr.of_string ",x"))
                            eq_refl)))
             eq_refl).
Defined.

(** ** Allocation, release and the SQL functions *)

Lemma land_static flags :
  (Z.land flags VECTOR_FLAGS_STATIC =? 0) = negb (Z.testbit flags 0).
Proof.
  unfold VECTOR_FLAGS_STATIC. change 1 with (Z.ones 1).
  rewrite Z.land_ones by lia. change (2 ^ 1) with 2.
  rewrite <- Z.bit0_mod.
  destruct (Z.testbit flags 0); reflexivity.
Qed.

(** [vectorFree] releases the vector exactly when the static bit of its
    flags is clear; so a vector laid over a blob by [vectorInitStatic] is
    never released, and one set up by [vectorInit] always is, once. *)
Theorem vectorFree_static
    (env : Ext.Env) (initFromBlob : list Z -> Z -> Z * list f32)
    (p : Z) (v : Vector) (log : list Ext.Call) :
  vectorFree env p v log
  = (tt, log ++ if Z.testbit (v_flags v) 0 then [] else [Ext.sqlite3_free p]) /\
  (forall type blob blobSz,
     vectorFree env p (vectorInitStatic initFromBlob type blob blobSz) log
     = (tt, log)) /\
  (forall type dims data,
     vectorFree env p (vectorInit type dims data) log
     = (tt, log ++ [Ext.sqlite3_free p])).
Proof.
  assert (Hgen : forall w,
            vectorFree env p w log
            = (tt, log ++ if Z.testbit (v_flags w) 0 then []
                          else [Ext.sqlite3_free p])).
  { intros w. rewrite vectorFree_calls. unfold frees.
    rewrite land_static, negb_involutive. reflexivity. }
  split; [apply Hgen|]. split.
  - intros type blob blobSz. rewrite Hgen. unfold vectorInitStatic.
    destruct (if type =? VECTOR_TYPE_FLOAT32
              then initFromBlob blob blobSz else (0, [])) as [dims data].
    cbn. rewrite app_nil_r. reflexivity.
  - intros type dims data. rewrite Hgen. reflexivity.
Qed.

Section SurfaceFacts.

Variable env : Ext.Env.
Variable atof : list ascii -> Z * f64.
Variable d2f : f64 -> f32.
Variable f2d : f32 -> f64.
Variable parseBlob : sqlite3_value -> Vector -> option string -> ParseResult.
Variable fresh : Z -> list f32.

(** Decoding anything but a blob leaves the type tag and the flags of the
    vector alone. *)
Lemma vectorParse_frame arg v msg :
  notBlob arg ->
  v_type (vec (vectorParse atof d2f parseBlob arg v msg)) = v_type v /\
  v_flags (vec (vectorParse atof d2f parseBlob arg v msg)) = v_flags v.
Proof.
  destruct arg as [i|d|oz|b|]; cbn [notBlob vectorParse]; intros H;
    try contradiction; try (split; reflexivity).
  apply vectorParseText_keeps_type.
Qed.

Lemma frees_fresh arg p msg :
  notBlob arg ->
  frees p (vec (vectorParse atof d2f parseBlob arg
                  (vectorInit VECTOR_TYPE_FLOAT32 MAX_VECTOR_SZ (fresh p)) msg))
  = [Ext.sqlite3_free p].
Proof.
  intros H. unfold frees.
  rewrite (proj2 (vectorParse_frame arg _ msg H)). reflexivity.
Qed.

Lemma released_app l l' : released (l ++ l') = released l ++ released l'.
Proof. apply flat_map_app. Qed.

(** Whatever [vector_distance_cos] is given, blobs apart, and however it
    ends, every vector it allocated is released exactly once, the second
    before the first: nothing when an argument is missing or the first
    allocation fails, the first vector when the second allocation fails,
    both otherwise. *)
Theorem vectorDistanceCosFunc_releases argc argv :
  notBlob (nth 0 argv ValNull) ->
  notBlob (nth 1 argv ValNull) ->
  let p1 := env [] (Ext.contextMalloc contextVectorSize) in
  let p2 := env [Ext.contextMalloc contextVectorSize]
                (Ext.contextMalloc contextVectorSize) in
  released (snd (Ext.run (vectorDistanceCosFunc env atof d2f f2d parseBlob
                            fresh argc argv)))
  = if argc <? 2 then []
    else if p1 =? 0 then []
    else if p2 =? 0 then [p1]
    else [p2; p1].
Proof.
  intros Hx Hy. cbv zeta.
  unfold Ext.run, vectorDistanceCosFunc.
  destruct (argc <? 2); [reflexivity|].
  unfold Ext.bind at 1. unfold vectorContextAlloc at 1.
  unfold Ext.bind at 1. unfold Ext.call at 1. fold contextVectorSize.
  destruct (Z.eqb_spec (env [] (Ext.contextMalloc contextVectorSize)) 0)
    as [Hp1|Hp1]; [reflexivity|].
  cbn [Ext.ret app]. unfold Ext.bind at 1. unfold vectorContextAlloc at 1.
  unfold Ext.bind at 1. unfold Ext.call at 1. fold contextVectorSize.
  destruct (Z.eqb_spec
              (env [Ext.contextMalloc contextVectorSize]
                 (Ext.contextMalloc contextVectorSize)) 0) as [Hp2|Hp2].
  - unfold Ext.bind, Ext.call, Ext.ret. rewrite vectorFree_calls.
    cbn [snd app frees vectorInit v_flags]. reflexivity.
  - cbn [Ext.ret app].
    repeat match goal with
           | |- context [if ?b then _ else _] =>
               lazymatch b with
               | (rc _ <? 0) => destruct b
               | negb (v_dims _ =? v_dims _) => destruct b
               end
           end;
      unfold vectorDistanceCos;
      try (destruct (v_type _ =? VECTOR_TYPE_FLOAT32));
      unfold Ext.bind, Ext.ret, Ext.call;
      repeat (cbv beta iota; rewrite vectorFree_calls);
      cbv beta iota; cbn [snd fst];
      rewrite ?released_app, ?(frees_fresh _ _ _ Hx), ?(frees_fresh _ _ _ Hy);
      cbn [released flat_map app]; reflexivity.
Qed.

End SurfaceFacts.

Section FunctionFacts.

Variable env : Ext.Env.
Variable atof : list ascii -> Z * f64.
Variable d2f : f64 -> f32.
Variable parseBlob : sqlite3_value -> Vector -> option string -> ParseResult.
Variable fresh : Z -> list f32.
Variable backend : Vector -> Ext.M unit.

Lemma frees_text p oz msg :
  frees p (vec (vectorParseText atof d2f (ValText oz)
                  (vectorInit VECTOR_TYPE_FLOAT32 MAX_VECTOR_SZ (fresh p)) msg))
  = [Ext.sqlite3_free p].
Proof.
  unfold frees.
  rewrite (proj2 (vectorParseText_keeps_type atof d2f (ValText oz) _ msg)).
  reflexivity.
Qed.

(** [vector(X)] on a text: when the text does not decode, the error is
    reported with a null message (the diagnostic of the decoder never
    leaves it), nothing is serialized and the vector is released; when it
    decodes, the decoded FLOAT32 vector is handed to the back end's
    serialization and released afterwards.  A literal of [n] valid
    elements, whatever follows it, is handed on with [n] dimensions. *)
Theorem vectorFunc_text argc z others :
  let p := env [] (Ext.contextMalloc contextVectorSize) in
  let r := vectorParseText atof d2f (ValText (Some z))
             (vectorInit VECTOR_TYPE_FLOAT32 MAX_VECTOR_SZ (fresh p)) None in
  let calls := snd (Ext.run (vectorFunc env atof d2f parseBlob fresh backend
                               argc (ValText (Some z) :: others))) in
  1 <= argc -> p <> 0 ->
  (rc r < 0 ->
     calls = [Ext.contextMalloc contextVectorSize;
              Ext.sqlite3_result_error None; Ext.sqlite3_free_text None;
              Ext.sqlite3_free p]) /\
  (0 <= rc r ->
     v_type (vec r) = VECTOR_TYPE_FLOAT32 /\
     calls = snd (backend (vec r) [Ext.contextMalloc contextVectorSize])
             ++ [Ext.sqlite3_free p]) /\
  (forall es tail,
     z = Literal.literal es ++ tail -> Forall (Literal.valid atof) es ->
     Z.of_nat (length es) < MAX_VECTOR_SZ ->
     0 <= rc r /\ v_dims (vec r) = Z.of_nat (length es)).
Proof.
  cbv zeta. intros Hargc Hp.
  assert (Hrun :
    snd (Ext.run (vectorFunc env atof d2f parseBlob fresh backend argc
                    (ValText (Some z) :: others)))
    = snd (let r := vectorParseText atof d2f (ValText (Some z))
                      (vectorInit VECTOR_TYPE_FLOAT32 MAX_VECTOR_SZ
                         (fresh (env [] (Ext.contextMalloc contextVectorSize))))
                      None in
           (if rc r <? 0
            then Ext.call env (Ext.sqlite3_result_error (errMsg r)) ;;;
                 Ext.call env (Ext.sqlite3_free_text (errMsg r)) ;;;
                 vectorFree env (env [] (Ext.contextMalloc contextVectorSize))
                   (vec r)
            else vectorSerialize backend (vec r) ;;;
                 vectorFree env (env [] (Ext.contextMalloc contextVectorSize))
                   (vec r))
             [Ext.contextMalloc contextVectorSize])).
  { unfold Ext.run, vectorFunc.
    replace (argc <? 1) with false by (symmetry; apply Z.ltb_ge; lia).
    unfold Ext.bind at 1.
    rewrite (vectorContextAlloc_ok env fresh VECTOR_TYPE_FLOAT32 [] Hp).
    reflexivity. }
  rewrite Hrun. clear Hrun. cbv zeta. split; [|split].
  - intros Hrc.
    replace (rc _ <? 0) with true by (symmetry; apply Z.ltb_lt; exact Hrc).
    rewrite vectorParseText_keeps_msg.
    unfold Ext.bind, Ext.call. rewrite vectorFree_calls, frees_text.
    reflexivity.
  - intros Hrc.
    replace (rc _ <? 0) with false by (symmetry; apply Z.ltb_ge; exact Hrc).
    pose proof (proj1 (vectorParseText_keeps_type atof d2f (ValText (Some z))
                         (vectorInit VECTOR_TYPE_FLOAT32 MAX_VECTOR_SZ
                            (fresh (env [] (Ext.contextMalloc
                                              contextVectorSize)))) None))
      as Hty.
    cbn [vectorInit v_type] in Hty. split; [exact Hty|].
    unfold vectorSerialize. rewrite Hty. cbn [Z.eqb VECTOR_TYPE_FLOAT32].
    unfold Ext.bind.
    destruct (backend _ [Ext.contextMalloc contextVectorSize]) as [[] log'].
    rewrite vectorFree_calls, frees_text. reflexivity.
  - intros es tail -> Hes Hn.
    destruct (vectorParseText_valid atof d2f [] es tail
                (vectorInit VECTOR_TYPE_FLOAT32 MAX_VECTOR_SZ
                   (fresh (env [] (Ext.contextMalloc contextVectorSize))))
                None eq_refl Hes) as [Hok _].
    destruct (Hok Hn) as (H1 & H2 & _).
    split; [|exact H2].
    apply Z.le_trans with (Z.of_nat (length es)); [lia|].
    apply Z.eq_le_incl. symmetry. exact H1.
Qed.

(** [vector_extract(X)] on a text behaves in the same way with the back
    end's rendering in place of its serialization: a text that does not
    decode is reported with a null message and nothing is rendered; a text
    that decodes has its FLOAT32 vector rendered, then released. *)
Theorem vectorExtractFunc_text argc z others :
  let p := env [] (Ext.contextMalloc contextVectorSize) in
  let r := vectorParseText atof d2f (ValText (Some z))
             (vectorInit VECTOR_TYPE_FLOAT32 MAX_VECTOR_SZ (fresh p)) None in
  let calls := snd (Ext.run (vectorExtractFunc env atof d2f parseBlob fresh
                               backend argc (ValText (Some z) :: others))) in
  1 <= argc -> p <> 0 ->
  (rc r < 0 ->
     calls = [Ext.contextMalloc contextVectorSize;
              Ext.sqlite3_result_error None; Ext.sqlite3_free_text None;
              Ext.sqlite3_free p]) /\
  (0 <= rc r ->
     v_type (vec r) = VECTOR_TYPE_FLOAT32 /\
     calls = snd (backend (vec r) [Ext.contextMalloc contextVectorSize])
             ++ [Ext.sqlite3_free p]) /\
  (forall es tail,
     z = Literal.literal es ++ tail -> Forall (Literal.valid atof) es ->
     Z.of_nat (length es) < MAX_VECTOR_SZ ->
     0 <= rc r /\ v_dims (vec r) = Z.of_nat (length es)).
Proof.
  cbv zeta. intros Hargc Hp.
  assert (Hrun :
    snd (Ext.run (vectorExtractFunc env atof d2f parseBlob fresh backend argc
                    (ValText (Some z) :: others)))
    = snd (let r := vectorParseText atof d2f (ValText (Some z))
                      (vectorInit VECTOR_TYPE_FLOAT32 MAX_VECTOR_SZ
                         (fresh (env [] (Ext.contextMalloc contextVectorSize))))
                      None in
           (if rc r <? 0
            then Ext.call env (Ext.sqlite3_result_error (errMsg r)) ;;;
                 Ext.call env (Ext.sqlite3_free_text (errMsg r)) ;;;
                 vectorFree env (env [] (Ext.contextMalloc contextVectorSize))
                   (vec r)
            else vectorDeserialize backend (vec r) ;;;
                 vectorFree env (env [] (Ext.contextMalloc contextVectorSize))
                   (vec r))
             [Ext.contextMalloc contextVectorSize])).
  { unfold Ext.run, vectorExtractFunc.
    replace (argc <? 1) with false by (symmetry; apply Z.ltb_ge; lia).
    unfold Ext.bind at 1.
    rewrite (vectorContextAlloc_ok env fresh VECTOR_TYPE_FLOAT32 [] Hp).
    reflexivity. }
  rewrite Hrun. clear Hrun. cbv zeta. split; [|split].
  - intros Hrc.
    replace (rc _ <? 0) with true by (symmetry; apply Z.ltb_lt; exact Hrc).
    rewrite vectorParseText_keeps_msg.
    unfold Ext.bind, Ext.call. rewrite vectorFree_calls, frees_text.
    reflexivity.
  - intros Hrc.
    replace (rc _ <? 0) with false by (symmetry; apply Z.ltb_ge; exact Hrc).
    pose proof (proj1 (vectorParseText_keeps_type atof d2f (ValText (Some z))
                         (vectorInit VECTOR_TYPE_FLOAT32 MAX_VECTOR_SZ
                            (fresh (env [] (Ext.contextMalloc
                                              contextVectorSize)))) None))
      as Hty.
    cbn [vectorInit v_type] in Hty. split; [exact Hty|].
    unfold vectorDeserialize. rewrite Hty. cbn [Z.eqb VECTOR_TYPE_FLOAT32].
    unfold Ext.bind.
    destruct (backend _ [Ext.contextMalloc contextVectorSize]) as [[] log'].
    rewrite vectorFree_calls, frees_text. reflexivity.
  - intros es tail -> Hes Hn.
    destruct (vectorParseText_valid atof d2f [] es tail
                (vectorInit VECTOR_TYPE_FLOAT32 MAX_VECTOR_SZ
                   (fresh (env [] (Ext.contextMalloc contextVectorSize))))
                None eq_refl Hes) as [Hok _].
    destruct (Hok Hn) as (H1 & H2 & _).
    split; [|exact H2].
    apply Z.le_trans with (Z.of_nat (length es)); [lia|].
    apply Z.eq_le_incl. symmetry. exact H1.
Qed.

End FunctionFacts.

(** The texts ["[1,22]xyz"] and ["[1,x]"] with a back end that reports the
    dimension count it is handed. *)
Lemma vectorFunc_text_witness :
  let run s :=
    snd (Ext.run (vectorFunc distanceEnv digitsAtoF (fun d => d)
                    (fun _ v m => failed v m InvalidInputKind (initialState v))
                    (fun _ => repeat 0 4) recordDims 1
                    [ValText (Some (CStr.of_string s))])) in
  run "[1,22]xyz"%string
  = [Ext.contextMalloc contextVectorSize; Ext.sqlite3_result_double 2;
     Ext.sqlite3_free 4096] /\
  run "[1,x]"%string
  = [Ext.contextMalloc contextVectorSize; Ext.sqlite3_result_error None;
     Ext.sqlite3_free_text None; Ext.sqlite3_free 4096].
Proof.
  cbv zeta. split.
  - destruct (vectorFunc_text distanceEnv digitsAtoF (fun d => d)
                (fun _ v m => failed v m InvalidInputKind (initialState v))
                (fun _ => repeat 0 4) recordDims 1
                (CStr.of_string "[1,22]xyz") []
                ltac:(discriminate) ltac:(discriminate)) as (_ & Hok & _).
    destruct (Hok ltac:(discriminate)) as [_ Hcalls].
    exact (eq_trans Hcalls eq_refl).
  - destruct (vectorFunc_text distanceEnv digitsAtoF (fun d => d)
                (fun _ v m => failed v m InvalidInputKind (initialState v))
                (fun _ => repeat 0 4) recordDims 1
                (CStr.of_string "[1,x]") []
                ltac:(discriminate) ltac:(discriminate)) as (Hfail & _).
    exact (Hfail eq_refl).
Defined.

(** The same two texts handed to [vector_extract]. *)
Lemma vectorExtractFunc_text_witness :
  let run s :=
    snd (Ext.run (vectorExtractFunc distanceEnv digitsAtoF (fun d => d)
                    (fun _ v m => failed v m InvalidInputKind (initialState v))
                    (fun _ => repeat 0 4) recordDims 1
                    [ValText (Some (CStr.of_string s))])) in
  run "[1,22]xyz"%string
  = [Ext.contextMalloc contextVectorSize; Ext.sqlite3_result_double 2;
     Ext.sqlite3_free 4096] /\
  run "[1,x]"%string
  = [Ext.contextMalloc contextVectorSize; Ext.sqlite3_result_error None;
     Ext.sqlite3_free_text None; Ext.sqlite3_free 4096].
Proof.
  cbv zeta. split.
  - destruct (vectorExtractFunc_text distanceEnv digitsAtoF (fun d => d)
                (fun _ v m => failed v m InvalidInputKind (initialState v))
                (fun _ => repeat 0 4) recordDims 1
                (CStr.of_string "[1,22]xyz") []
                ltac:(discriminate) ltac:(discriminate)) as (_ & Hok & _).
    destruct (Hok ltac:(discriminate)) as [_ Hcalls].
    exact (eq_trans Hcalls eq_refl).
  - destruct (vectorExtractFunc_text distanceEnv digitsAtoF (fun d => d)
                (fun _ v m => failed v m InvalidInputKind (initialState v))
                (fun _ => repeat 0 4) recordDims 1
                (CStr.of_string "[1,x]") []
                ltac:(discriminate) ltac:(discriminate)) as (Hfail & _).
    exact (Hfail eq_refl).
Defined.

(** A text that fails to decode, then two texts of different lengths: both
    vectors are released either way. *)
Lemma vectorDistanceCosFunc_releases_witness :
  let run x y :=
    released
      (snd (Ext.run (vectorDistanceCosFunc distanceEnv digitsAtoF (fun d => d)
                       (fun f => f)
                       (fun _ v m => failed v m InvalidInputKind
                                       (initialState v))
                       (fun _ => repeat 0 4) 2
                       [ValText (Some (CStr.of_string x));
                        ValText (Some (CStr.of_string y))]))) in
  run "[1,x"%string "[1]"%string = [4096; 4096] /\
  run "[1,0]"%string "[0,1,0]"%string = [4096; 4096].
Proof.
  cbv zeta. split.
  - exact (vectorDistanceCosFunc_releases distanceEnv digitsAtoF (fun d => d)
             (fun f => f)
             (fun _ v m => failed v m InvalidInputKind (initialState v))
             (fun _ => repeat 0 4) 2
             [ValText (Some (CStr.of_string "[1,x"));
              ValText (Some (CStr.of_string "[1]"))] I I).
  - exact (vectorDistanceCosFunc_releases distanceEnv digitsAtoF (fun d => d)
             (fun f => f)
             (fun _ v m => failed v m InvalidInputKind (initialState v))
             (fun _ => repeat 0 4) 2
             [ValText (Some (CStr.of_string "[1,0]"));
              ValText (Some (CStr.of_string "[0,1,0]"))] I I).
Defined.

(** ** Index creation: when the engine is called *)

(** Whenever [vectorIndexCreate] calls the ANN engine, the call is its last
    and follows a successful provisioning of the shadow table, the only
    other call made; the index has one key column, the engine is given the
    index's name, the non-negative dimension count read from the declared
    type and the cosine operator, and its answer is what
    [vectorIndexCreate] returns.  So a failed provisioning, an index over
    several columns and an invalid declared type never reach the engine. *)
Theorem vectorIndexCreate_engine_call
    (env : Ext.Env) (pIdx : Index) (pUsing : list string)
    (zN : string) (nDims ops : Z) :
  In (Ext.diskAnnCreateIndex zN nDims ops)
     (snd (Ext.run (vectorIndexCreate env pIdx pUsing))) ->
  let provision := Ext.sqlite3_exec (shadowSql pIdx) in
  snd (Ext.run (vectorIndexCreate env pIdx pUsing))
  = [provision; Ext.diskAnnCreateIndex zN nDims ops] /\
  fst (Ext.run (vectorIndexCreate env pIdx pUsing))
  = env [provision] (Ext.diskAnnCreateIndex zN nDims ops) /\
  env [] provision = SQLITE_OK /\
  nKeyCol pIdx = 1 /\
  zN = zName pIdx /\
  nDims = parseVectorDims (indexedType pIdx) /\ 0 <= nDims /\
  ops = VECTOR_DISTANCE_COS.
Proof.
  cbv zeta.
  assert (Hbody : forall o,
    In (Ext.diskAnnCreateIndex zN nDims ops)
       (snd (createIndexBody env pIdx o [])) ->
    snd (createIndexBody env pIdx o [])
    = [Ext.sqlite3_exec (shadowSql pIdx); Ext.diskAnnCreateIndex zN nDims ops] /\
    fst (createIndexBody env pIdx o [])
    = env [Ext.sqlite3_exec (shadowSql pIdx)]
          (Ext.diskAnnCreateIndex zN nDims ops) /\
    env [] (Ext.sqlite3_exec (shadowSql pIdx)) = SQLITE_OK /\
    nKeyCol pIdx = 1 /\ zN = zName pIdx /\
    nDims = parseVectorDims (indexedType pIdx) /\ 0 <= nDims /\ ops = o).
  { intros o. unfold createIndexBody, Ext.bind, Ext.call, Ext.ret.
    fold (shadowSql pIdx). fold (indexedType pIdx). cbn [app].
    destruct (Z.eqb_spec (env [] (Ext.sqlite3_exec (shadowSql pIdx)))
                SQLITE_OK) as [Hexec|Hexec]; cbn [negb].
    2: { cbn. intros [H|[]]. discriminate H. }
    destruct (Z.eqb_spec (nKeyCol pIdx) 1) as [Hkey|Hkey]; cbn [negb].
    2: { cbn. intros [H|[H|[]]]; discriminate H. }
    destruct (Z.ltb_spec (parseVectorDims (indexedType pIdx)) 0) as [Hd|Hd].
    { cbn. intros [H|[H|[]]]; discriminate H. }
    cbn [fst snd app]. intros [H|[H|[]]]; [discriminate H|].
    injection H as <- <- <-. repeat split; auto. }
  unfold Ext.run, vectorIndexCreate.
  destruct pUsing as [|zId others].
  - intros Hin. exact (Hbody 0 Hin).
  - destruct (Ctype.sqlite3_stricmp (CStr.of_string zId)
                (CStr.of_string "diskann_cosine_ops") =? 0).
    + intros Hin. exact (Hbody VECTOR_DISTANCE_COS Hin).
    + cbn. intros [H|[]]. discriminate H.
Qed.

(** An index over a column declared [FLOAT32(128)], created with the cosine
    operator. *)
Lemma vectorIndexCreate_engine_call_witness :
  Ext.run (vectorIndexCreate allOk (sampleIndex "FLOAT32(128)")
             ["diskann_cosine_ops"%string])
  = (SQLITE_OK,
     [Ext.sqlite3_exec "CREATE TABLE IF NOT EXISTS idx_shadow (data BLOB)";
      Ext.diskAnnCreateIndex "idx" 128 VECTOR_DISTANCE_COS]).
Proof.
  assert (Hin : In (Ext.diskAnnCreateIndex "idx" 128 VECTOR_DISTANCE_COS)
                  (snd (Ext.run (vectorIndexCreate allOk
                                   (sampleIndex "FLOAT32(128)")
                                   ["diskann_cosine_ops"%string]))))
    by (right; left; reflexivity).
  destruct (vectorIndexCreate_engine_call allOk (sampleIndex "FLOAT32(128)")
              ["diskann_cosine_ops"%string] "idx" 128 VECTOR_DISTANCE_COS Hin)
    as (Hcalls & Hrc & _).
  destruct (Ext.run (vectorIndexCreate allOk (sampleIndex "FLOAT32(128)")
                       ["diskann_cosine_ops"%string])) as [status calls].
  cbn [fst snd] in Hcalls, Hrc. rewrite Hcalls, Hrc. reflexivity.
Defined.

(** ** Arguments that are not texts *)

(** [vector(X)] on an argument that is neither a text nor a blob reports
    the decoder's message, ["invalid vector: NULL"] for a null value and
    ["invalid vector: not a text or blob type"] for an integer or a float,
    serializes nothing and releases the vector.  On a text whose pointer is
    null the decoder returns 0 without touching the vector, so the vector
    serialized is the freshly allocated one, with [MAX_VECTOR_SZ]
    dimensions and the data the allocation came with. *)
Theorem vectorFunc_other_arguments
    (env : Ext.Env) (atof : list ascii -> Z * f64) (d2f : f64 -> f32)
    (parseBlob : sqlite3_value -> Vector -> option string -> ParseResult)
    (fresh : Z -> list f32) (backend : Vector -> Ext.M unit)
    (argc : Z) (others : list sqlite3_value) :
  let p := env [] (Ext.contextMalloc contextVectorSize) in
  let run arg := snd (Ext.run (vectorFunc env atof d2f parseBlob fresh backend
                                 argc (arg :: others))) in
  let reported msg :=
    [Ext.contextMalloc contextVectorSize;
     Ext.sqlite3_result_error (Some msg); Ext.sqlite3_free_text (Some msg);
     Ext.sqlite3_free p] in
  1 <= argc -> p <> 0 ->
  run ValNull = reported "invalid vector: NULL"%string /\
  (forall i, run (ValInteger i)
             = reported "invalid vector: not a text or blob type"%string) /\
  (forall d, run (ValFloat d)
             = reported "invalid vector: not a text or blob type"%string) /\
  run (ValText None)
  = snd (backend (vectorInit VECTOR_TYPE_FLOAT32 MAX_VECTOR_SZ (fresh p))
           [Ext.contextMalloc contextVectorSize])
    ++ [Ext.sqlite3_free p].
Proof.
  cbv zeta. intros Hargc Hp.
  assert (Hrun : forall arg,
    snd (Ext.run (vectorFunc env atof d2f parseBlob fresh backend argc
                    (arg :: others)))
    = snd (let r := vectorParse atof d2f parseBlob arg
                      (vectorInit VECTOR_TYPE_FLOAT32 MAX_VECTOR_SZ
                         (fresh (env [] (Ext.contextMalloc contextVectorSize))))
                      None in
           (if rc r <? 0
            then Ext.call env (Ext.sqlite3_result_error (errMsg r)) ;;;
                 Ext.call env (Ext.sqlite3_free_text (errMsg r)) ;;;
                 vectorFree env (env [] (Ext.contextMalloc contextVectorSize))
                   (vec r)
            else vectorSerialize backend (vec r) ;;;
                 vectorFree env (env [] (Ext.contextMalloc contextVectorSize))
                   (vec r))
             [Ext.contextMalloc contextVectorSize])).
  { intros arg. unfold Ext.run, vectorFunc.
    replace (argc <? 1) with false by (symmetry; apply Z.ltb_ge; lia).
    unfold Ext.bind at 1.
    rewrite (vectorContextAlloc_ok env fresh VECTOR_TYPE_FLOAT32 [] Hp).
    reflexivity. }
  repeat split; intros; rewrite Hrun; cbn [vectorParse vectorParseText rc vec errMsg Z.ltb Z.compare];
    unfold Ext.bind, Ext.call, vectorSerialize;
    cbn [vectorInit v_type Z.eqb VECTOR_TYPE_FLOAT32];
    try (destruct (backend _ [Ext.contextMalloc contextVectorSize])
           as [[] log']);
    rewrite vectorFree_calls; reflexivity.
Qed.

(** A null value, and a text whose pointer is null. *)
Lemma vectorFunc_other_arguments_witness :
  let run arg :=
    snd (Ext.run (vectorFunc distanceEnv digitsAtoF (fun d => d)
                    (fun _ v m => failed v m InvalidInputKind (initialState v))
                    (fun _ => repeat 0 4) recordDims 1 [arg])) in
  run ValNull
  = [Ext.contextMalloc contextVectorSize;
     Ext.sqlite3_result_error (Some "invalid vector: NULL"%string);
     Ext.sqlite3_free_text (Some "invalid vector: NULL"%string);
     Ext.sqlite3_free 4096] /\
  run (ValText None)
  = [Ext.contextMalloc contextVectorSize;
     Ext.sqlite3_result_double MAX_VECTOR_SZ; Ext.sqlite3_free 4096].
Proof.
  cbv zeta.
  destruct (vectorFunc_other_arguments distanceEnv digitsAtoF (fun d => d)
              (fun _ v m => failed v m InvalidInputKind (initialState v))
              (fun _ => repeat 0 4) recordDims 1 []
              ltac:(discriminate) ltac:(discriminate))
    as (Hnull & _ & _ & Htext).
  split; [exact Hnull | exact (eq_trans Htext eq_refl)].
Defined.

(** ** Cursors *)

(** [vectorIndexCursorInit] attaches a cursor exactly when it returns
    [SQLITE_OK]; when the cursor object cannot be allocated it returns
    [SQLITE_NOMEM] without calling the engine, and otherwise it calls
    [diskAnnOpenIndex] once. *)
Theorem vectorIndexCursorInit_cursor
    (env : Ext.Env) (openedIndex : list Ext.Call -> string -> Z)
    (zIndexName : string) (log : list Ext.Call) :
  let r := vectorIndexCursorInit env openedIndex zIndexName log in
  let alloc := Ext.sqlite3DbMallocZero 16 in
  (fst (fst r) = SQLITE_OK <-> snd (fst r) <> None) /\
  (snd (fst r) <> None ->
     snd (fst r) = Some {| cur_index := openedIndex (log ++ [alloc]) zIndexName |}) /\
  (env log alloc = 0 ->
     fst (fst r) = SQLITE_NOMEM /\ snd r = log ++ [alloc]) /\
  (env log alloc <> 0 ->
     snd r = log ++ [alloc; Ext.diskAnnOpenIndex zIndexName]).
Proof.
  cbv zeta.
  unfold vectorIndexCursorInit, Ext.bind, Ext.call, Ext.ret.
  destruct (Z.eqb_spec (env log (Ext.sqlite3DbMallocZero 16)) 0) as [H0|H0].
  - cbn [fst snd]. repeat split; try discriminate; try contradiction; auto.
  - destruct (Z.eqb_spec
                (env (log ++ [Ext.sqlite3DbMallocZero 16])
                   (Ext.diskAnnOpenIndex zIndexName)) SQLITE_OK) as [H1|H1];
      cbn [negb fst snd]; rewrite <- ?app_assoc;
      repeat split; try discriminate; try contradiction; auto;
      intros; congruence.
Qed.
